(** * Intakr: the BoldSign e-signature reconciliation pipeline

    A shallow embedding of the two Supabase edge functions that reconcile
    e-signature events into the case-management database:

    - [supabase/functions/boldsign-webhook/index.ts]   (push path)
    - [supabase/functions/fetch-signed-document/index.ts] (pull path), in the
      two revisions present in the repository: the one that gates on
      [esign_status] and the service-role one that does not.

    The handlers are written once, as programs over the external calls they
    make (database, storage bucket, BoldSign, Slack, console).  The programs
    are then run against an explicit [World], either alone ([run]) or two at
    a time under an arbitrary schedule ([race]).

    Module [Validation] holds the input checks of the two sending functions
    ([supabase/functions/send-for-esignature/index.ts] and the send-email
    function): [hasCRLF], [sanitizeFilename] and the e-mail pattern. *)

From Stdlib Require Import String Ascii List ZArith Bool Lia DecimalString.
From Stdlib Require Import NArith.
From Stdlib.Strings Require Import Byte.
Import ListNotations.
Open Scope string_scope.

Set Implicit Arguments.
Set Warnings "-register-all".
Set Warnings "-notation-overridden".
Set Warnings "-notation-incompatible-prefix".

(* ================================================================= *)
(** ** JavaScript values, as far as the handlers look at them *)

Module JS.

(** A value produced by [JSON.parse].  [undefined] is not a JSON value; an
    expression that may be [undefined] has type [option JValue].  Numbers
    are the integers, as the doubles they are read into: the handlers read
    no number, they only ask whether a field is truthy, whether it is one of
    seven strings, and for its string form. *)
Inductive JValue : Type :=
| JNull
| JBool (b : bool)
| JNum (n : Z)
| JStr (s : string)
| JArr (items : list JValue)
| JObj (fields : list (string * JValue)).

(** What a [throw] carries is only ever read through [.message]. *)
Inductive Result (A : Type) : Type :=
| Ok (a : A)
| Thrown (message : string).
Arguments Thrown {A} message.

(** ToBoolean. *)
Definition truthy (v : option JValue) : bool :=
  match v with
  | None => false
  | Some JNull => false
  | Some (JBool b) => b
  | Some (JNum n) => negb (n =? 0)%Z
  | Some (JStr s) => negb (s =? "")
  | Some (JArr _) => true
  | Some (JObj _) => true
  end.

(** Own property of a parsed object; a repeated key keeps its last value. *)
Fixpoint lookup (k : string) (fields : list (string * JValue)) : option JValue :=
  match fields with
  | [] => None
  | (k', v) :: rest =>
      match lookup k rest with
      | Some v' => Some v'
      | None => if k' =? k then Some v else None
      end
  end.

(** [v.k] for a [v] that is neither [null] nor [undefined], and a [k] that no
    prototype defines (the handlers read [event], [eventType], [document],
    [documentId] and [letterId] only). *)
Definition prop (v : JValue) (k : string) : option JValue :=
  match v with
  | JObj fields => lookup k fields
  | _ => None
  end.

(** [v.k]: a TypeError on [null] and [undefined]. *)
Definition member (v : option JValue) (k : string) : Result (option JValue) :=
  match v with
  | None => Thrown ("Cannot read properties of undefined (reading '" ++ k ++ "')")
  | Some JNull => Thrown ("Cannot read properties of null (reading '" ++ k ++ "')")
  | Some v => Ok (prop v k)
  end.

(** [const { k } = name], where [name] is the variable that holds [v]. *)
Definition destructure (v : JValue) (name k : string) : Result (option JValue) :=
  match v with
  | JNull =>
      Thrown ("Cannot destructure property '" ++ k ++ "' of '" ++ name ++ "' as it is null.")
  | _ => Ok (prop v k)
  end.

(** [v?.k]. *)
Definition opt_member (v : option JValue) (k : string) : option JValue :=
  match v with
  | None => None
  | Some JNull => None
  | Some v => prop v k
  end.

(** [a || b]. *)
Definition or_else (a b : option JValue) : option JValue :=
  if truthy a then a else b.

Definition join (sep : string) (parts : list string) : string :=
  match parts with
  | [] => ""
  | p :: ps => fold_left (fun acc q => acc ++ sep ++ q) ps p
  end.

(** The decimal digits of an integer. *)
Definition decimal (n : Z) : string := NilZero.string_of_int (Z.to_int n).

(** A number is a double.  [JNum n] is the double that [JSON.parse] makes of
    the integer [n], and this is its magnitude, for the magnitude of [n]:
    the nearest integer with a significand of 53 bits, the even significand
    where two are as near. *)
Definition nearest_double (n : Z) : Z :=
  let b := Z.log2 n in
  if (b <=? 52)%Z then n
  else
    let shift := (b - 52)%Z in
    let q := Z.shiftr n shift in
    let r := (n - Z.shiftl q shift)%Z in
    let half := Z.shiftl 1 (shift - 1) in
    if (half <? r)%Z || ((r =? half)%Z && Z.odd q)
    then Z.shiftl (q + 1) shift
    else Z.shiftl q shift.

(** Number::toString prints the integer with the fewest significant digits
    that still reads back as the double [v]; with [k] digits that is the
    multiple of a power of ten just below [v] or just above it, and of the
    two the nearer.  Seventeen digits always do. *)
Fixpoint shortest (fuel : nat) (k : Z) (v : Z) : Z :=
  match fuel with
  | O => v
  | S fuel' =>
      let nv := Z.of_nat (String.length (decimal v)) in
      if (nv <=? k)%Z then v
      else
        let p := (10 ^ (nv - k))%Z in
        let lo := (v / p * p)%Z in
        let hi := (lo + p)%Z in
        match (nearest_double lo =? v)%Z, (nearest_double hi =? v)%Z with
        | true, true => if (v - lo <=? hi - v)%Z then lo else hi
        | true, false => lo
        | false, true => hi
        | false, false => shortest fuel' (k + 1)%Z v
        end
  end.

Fixpoint strip_zeros (s : string) : string :=
  match s with
  | EmptyString => EmptyString
  | String c rest =>
      match strip_zeros rest with
      | EmptyString => if (c =? "0")%char then EmptyString else String c EmptyString
      | rest' => String c rest'
      end
  end.

(** Number::toString of the double for the integer [n]: [Infinity] from
    2^1024 on, all the digits up to twenty-one of them, and the exponent
    form [d.ddde+x] beyond. *)
Definition number_to_string (n : Z) : string :=
  if (n =? 0)%Z then "0"
  else
    let sign := if (n <? 0)%Z then "-" else "" in
    let v := nearest_double (Z.abs n) in
    if (2 ^ 1024 <=? v)%Z then sign ++ "Infinity"
    else
      let digits := decimal (shortest 17 1 v) in
      if (String.length digits <=? 21)%nat then sign ++ digits
      else
        let exponent := decimal (Z.of_nat (String.length digits) - 1) in
        match strip_zeros digits with
        | String c EmptyString => sign ++ String c "e+" ++ exponent
        | String c rest => sign ++ String c ("." ++ rest) ++ "e+" ++ exponent
        | EmptyString => sign ++ digits
        end.

(** ToString, as a template literal applies it; [eq(column, value)] of the
    Supabase client builds its filter as [`eq.${value}`].  An object is
    printed by the [toString] it inherits, unless it has a property of that
    name of its own: a parsed value is never callable, and the conversion
    throws a TypeError.  An array joins the strings of its items, [null]
    counting as the empty string, and throws if one of them does. *)
Fixpoint to_string (v : JValue) : Result string :=
  match v with
  | JNull => Ok "null"
  | JBool true => Ok "true"
  | JBool false => Ok "false"
  | JNum n => Ok (number_to_string n)
  | JStr s => Ok s
  | JArr items =>
      match
        (fix each (items : list JValue) : Result (list string) :=
           match items with
           | [] => Ok []
           | i :: rest =>
               match (match i with JNull => Ok "" | _ => to_string i end) with
               | Thrown e => Thrown e
               | Ok s =>
                   match each rest with
                   | Thrown e => Thrown e
                   | Ok ss => Ok (s :: ss)
                   end
               end
           end) items
      with
      | Thrown e => Thrown e
      | Ok parts => Ok (join "," parts)
      end
  | JObj fields =>
      match lookup "toString" fields with
      | Some _ => Thrown "Cannot convert object to primitive value"
      | None => Ok "[object Object]"
      end
  end.

(** [s.endsWith(suffix)]. *)
Definition endsWith (s suffix : string) : bool :=
  let n := String.length s in
  let m := String.length suffix in
  (m <=? n)%nat && (substring (n - m) m s =? suffix).

(** A string read in a boolean position: [null], [undefined] and [''] are
    falsy. *)
Definition nonempty (o : option string) : option string :=
  match o with
  | Some s => if s =? "" then None else Some s
  | None => None
  end.

(** The double-quote character. *)
Definition dquote : string := String (ascii_of_nat 34) EmptyString.

(** A nullable string inside a template literal. *)
Definition interpolate (o : option string) : string :=
  match o with
  | Some s => s
  | None => "null"
  end.

End JS.
Import JS.

(* ================================================================= *)
(** ** Tables, bucket, provider *)

(** A row of [engagement_letters], restricted to the columns the handlers
    read or write. *)
Record Letter : Type := mkLetter {
  id : string;
  client_id : option string;
  boldsign_document_id : option string;
  esign_status : option string;
  approval_status : option string;
  signed_pdf_path : option string
}.

(** A row of [clients]. *)
Record Client : Type := mkClient {
  cid : string;
  status : option string;
  letter_executed : option string;
  entity_name : option string;
  contact_name : option string;
  matter_type : option string
}.

(** The authenticated principal [supabase.auth.getUser()] resolves to. *)
Record User : Type := mkUser { email : option string }.

Record HttpResp : Type := mkHttp {
  http_status : nat;
  http_body : list byte
}.

(** [res.ok]. *)
Definition ok (r : HttpResp) : bool :=
  (200 <=? http_status r)%nat && (http_status r <=? 299)%nat.

(** Columns of [engagement_letters] that an update may name. *)
Inductive LetterCol : Type := col_esign_status | col_approval_status | col_signed_pdf_path.

Definition LetterUpdate : Type := list (LetterCol * string).

Definition set_col (l : Letter) (cv : LetterCol * string) : Letter :=
  match fst cv with
  | col_esign_status =>
      mkLetter (id l) (client_id l) (boldsign_document_id l) (Some (snd cv))
               (approval_status l) (signed_pdf_path l)
  | col_approval_status =>
      mkLetter (id l) (client_id l) (boldsign_document_id l) (esign_status l)
               (Some (snd cv)) (signed_pdf_path l)
  | col_signed_pdf_path =>
      mkLetter (id l) (client_id l) (boldsign_document_id l) (esign_status l)
               (approval_status l) (Some (snd cv))
  end.

Definition apply_update (upd : LetterUpdate) (l : Letter) : Letter :=
  fold_left set_col upd l.

(** Everything outside the handler that a request can read or change. *)
Record World : Type := mkWorld {
  engagement_letters : list Letter;
  clients : list Client;
  (** the [signed-letters] bucket: object key to content *)
  signed_letters : list (string * list byte);
  (** BoldSign's answer to a download, by API key and document id *)
  boldsign : string -> string -> HttpResp;
  (** the user an [Authorization] header resolves to *)
  auth_users : string -> option User;
  (** row-level security: may this [Authorization] header read this letter *)
  rls_letter : string -> string -> bool
}.

(* ================================================================= *)
(** ** External calls and programs over them *)

Inductive DbReply (A : Type) : Type :=
| Data (data : A)
| DbError (message : string).
Arguments DbError {A} message.

(** The outcome of [await fetch(...)]: a response, or a thrown network
    error.  The body of a response that arrived is read without failure
    ([arrayBuffer], [text]). *)
Inductive FetchReply : Type :=
| Responded (r : HttpResp)
| FetchThrew (message : string).

Inductive Level : Type := log | warn | error.

(** Which Supabase client issues a query: the service-role one bypasses
    row-level security, the other carries the caller's header. *)
Inductive Credentials : Type :=
| ServiceRole
| Caller (authHeader : string).

(** One [await] on something outside the handler.  The Supabase clients
    report a failure in the [error] field of their reply and do not throw;
    [fetch] throws when the network fails. *)
Inductive Call : Type -> Type :=
(** [from('engagement_letters').select(..).eq('boldsign_document_id', d).limit(1)] *)
| SelectLettersByDocument (documentId : string) : Call (DbReply (list Letter))
(** [from('engagement_letters').select(..).eq('id', i).single()] *)
| SelectLetterById (who : Credentials) (letterId : string) : Call (DbReply Letter)
(** [from('engagement_letters').update(upd).eq('id', i)] *)
| UpdateLetter (letterId : string) (upd : LetterUpdate) : Call (option string)
(** [from('clients').update({ status, letter_executed }).eq('id', c)] *)
| UpdateClient (clientId : string) (newStatus executed : string) : Call (option string)
(** [from('clients').select(..).eq('id', c).limit(1)] *)
| SelectClient (clientId : string) : Call (DbReply (list Client))
(** [storage.from('signed-letters').upload(path, bytes, { upsert: true })] *)
| StorageUpload (path : string) (bytes : list byte) : Call (option string)
(** [fetch('https://api.boldsign.com/v1/document/download?documentId=..')] *)
| BoldSignDownload (documentId apiKey : string) : Call FetchReply
(** [fetch(slackWebhookUrl, { method: 'POST', .. })] *)
| SlackPost (url clientName matterType signed : string) : Call FetchReply
(** [supabase.auth.getUser()] *)
| GetUser (authHeader : string) : Call (DbReply User)
(** [console.log], [console.warn], [console.error] *)
| Console (lvl : Level) (message detail : string) : Call unit.

(** A call with its reply type hidden, for traces. *)
Inductive Traced : Type :=
| traced {X : Type} (c : Call X).

Inductive Prog (R : Type) : Type :=
| Ret (r : R)
| Do {X : Type} (c : Call X) (k : X -> Prog R).
Arguments Ret {R} r.
Arguments Do {R X} c k.

(** A program that may also throw. *)
Definition M (A : Type) : Type := Prog (Result A).

Fixpoint bind {A B : Type} (m : M A) (f : A -> M B) : M B :=
  match m with
  | Ret (Ok a) => f a
  | Ret (Thrown e) => Ret (Thrown e)
  | Do c k => Do c (fun x => bind (k x) f)
  end.

Definition ret {A : Type} (a : A) : M A := Ret (Ok a).
Definition throw {A : Type} (e : string) : M A := Ret (Thrown e).
Definition call {X : Type} (c : Call X) : M X := Do c (fun x => Ret (Ok x)).
Definition lift {A : Type} (r : Result A) : M A := Ret r.

(** [try { m } catch (e) { h e.message }]. *)
Fixpoint try_catch {A : Type} (m : M A) (h : string -> M A) : M A :=
  match m with
  | Ret (Ok a) => Ret (Ok a)
  | Ret (Thrown e) => h e
  | Do c k => Do c (fun x => try_catch (k x) h)
  end.

(** The outermost [try]/[catch] of a handler, whose [catch] returns. *)
Fixpoint serve_catch {A : Type} (m : M A) (h : string -> Prog A) : Prog A :=
  match m with
  | Ret (Ok a) => Ret a
  | Ret (Thrown e) => h e
  | Do c k => Do c (fun x => serve_catch (k x) h)
  end.

(** [await fetch(..)]. *)
Definition await_fetch (c : Call FetchReply) : M HttpResp :=
  bind (call c) (fun r =>
    match r with
    | Responded resp => ret resp
    | FetchThrew e => throw e
    end).

Declare Scope prog_scope.
Delimit Scope prog_scope with prog.
Notation "x <- m ;; k" := (bind m (fun x => k))
  (at level 100, m at next level, right associativity) : prog_scope.
Notation "m ;;; k" := (bind m (fun _ => k))
  (at level 100, right associativity) : prog_scope.
Open Scope prog_scope.

(* ================================================================= *)
(** ** What the world answers *)

(** The environment may break any call: a broken Supabase call answers
    with an error, a broken [fetch] throws. *)
Inductive Fault : Type :=
| NoFault
| Broken (message : string).

Definition Oracle : Type := forall X : Type, Call X -> Fault.

Definition healthy : Oracle := fun _ _ => NoFault.

Definition set_letters (w : World) (ls : list Letter) : World :=
  mkWorld ls (clients w) (signed_letters w) (boldsign w) (auth_users w) (rls_letter w).

Definition set_clients (w : World) (cs : list Client) : World :=
  mkWorld (engagement_letters w) cs (signed_letters w) (boldsign w) (auth_users w)
          (rls_letter w).

Definition set_bucket (w : World) (b : list (string * list byte)) : World :=
  mkWorld (engagement_letters w) (clients w) b (boldsign w) (auth_users w) (rls_letter w).

Definition has_document (d : string) (l : Letter) : bool :=
  match boldsign_document_id l with
  | Some d' => d' =? d
  | None => false
  end.

Definition has_id (i : string) (l : Letter) : bool := id l =? i.

Definition visible (w : World) (who : Credentials) (l : Letter) : bool :=
  match who with
  | ServiceRole => true
  | Caller h => rls_letter w h (id l)
  end.

Definition update_client (newStatus executed : string) (c : Client) : Client :=
  mkClient (cid c) (Some newStatus) (Some executed) (entity_name c) (contact_name c)
           (matter_type c).

(** [upsert: true]: the object at [path] is replaced if there is one. *)
Definition upsert (path : string) (bytes : list byte) (b : list (string * list byte))
  : list (string * list byte) :=
  (path, bytes) :: filter (fun o => negb (fst o =? path)) b.

(** [update(upd).eq('id', i)] on [engagement_letters]. *)
Definition update_rows (i : string) (upd : LetterUpdate) (w : World) : World :=
  set_letters w (map (fun l => if has_id i l then apply_update upd l else l)
                     (engagement_letters w)).

(** [update({ status, letter_executed }).eq('id', c)] on [clients]. *)
Definition execute_rows (c newStatus executed : string) (w : World) : World :=
  set_clients w (map (fun r => if cid r =? c then update_client newStatus executed r else r)
                     (clients w)).

Definition put_object (path : string) (bytes : list byte) (w : World) : World :=
  set_bucket w (upsert path bytes (signed_letters w)).

(** The reply to a call and the world after it.  A broken call changes
    nothing.  Where [limit(1)] has several rows to choose from, the first in
    table order is taken. *)
Definition perform {X : Type} (c : Call X) (flt : Fault) (w : World) : X * World :=
  match c in Call X return X * World with
  | SelectLettersByDocument d =>
      match flt with
      | Broken e => (DbError e, w)
      | NoFault => (Data (firstn 1 (filter (has_document d) (engagement_letters w))), w)
      end
  | SelectLetterById who i =>
      match flt with
      | Broken e => (DbError e, w)
      | NoFault =>
          match filter (fun l => has_id i l && visible w who l) (engagement_letters w) with
          | [l] => (Data l, w)
          | _ => (DbError "JSON object requested, multiple (or no) rows returned", w)
          end
      end
  | UpdateLetter i upd =>
      match flt with
      | Broken e => (Some e, w)
      | NoFault =>
          (None, update_rows i upd w)
      end
  | UpdateClient c newStatus executed =>
      match flt with
      | Broken e => (Some e, w)
      | NoFault =>
          (None, execute_rows c newStatus executed w)
      end
  | SelectClient c =>
      match flt with
      | Broken e => (DbError e, w)
      | NoFault => (Data (firstn 1 (filter (fun r => cid r =? c) (clients w))), w)
      end
  | StorageUpload path bytes =>
      match flt with
      | Broken e => (Some e, w)
      | NoFault => (None, put_object path bytes w)
      end
  | BoldSignDownload d key =>
      match flt with
      | Broken e => (FetchThrew e, w)
      | NoFault => (Responded (boldsign w key d), w)
      end
  | SlackPost _ _ _ _ =>
      match flt with
      | Broken e => (FetchThrew e, w)
      | NoFault => (Responded (mkHttp 200 []), w)
      end
  | GetUser h =>
      match flt with
      | Broken e => (DbError e, w)
      | NoFault =>
          match auth_users w h with
          | Some u => (Data u, w)
          | None => (DbError "invalid JWT", w)
          end
      end
  | Console _ _ _ => (tt, w)
  end.

(** One request handled from start to finish with nothing else running:
    the result, the world afterwards, and the calls made, oldest first. *)
Fixpoint run {R : Type} (p : Prog R) (o : Oracle) (w : World) : R * World * list Traced :=
  match p with
  | Ret r => (r, w, [])
  | Do c k =>
      let (x, w1) := perform c (o _ c) w in
      let '(r, w2, t) := run (k x) o w1 in
      (r, w2, traced c :: t)
  end.

Definition result_of {R : Type} (x : R * World * list Traced) : R := fst (fst x).
Definition world_of {R : Type} (x : R * World * list Traced) : World := snd (fst x).
Definition trace_of {R : Type} (x : R * World * list Traced) : list Traced := snd x.

(** Two requests in flight at once.  Each call is atomic; the schedule says
    whose call goes next ([true]: the left program).  When the schedule runs
    out, or one side has returned, what is left runs to the end. *)
Fixpoint race {A B : Type} (sched : list bool) (p : Prog A) (q : Prog B) (w : World)
  : A * B * World :=
  match sched with
  | [] =>
      let '(a, w1, _) := run p healthy w in
      let '(b, w2, _) := run q healthy w1 in
      (a, b, w2)
  | true :: rest =>
      match p with
      | Ret a => let '(b, w1, _) := run q healthy w in (a, b, w1)
      | Do c k => let (x, w1) := perform c NoFault w in race rest (k x) q w1
      end
  | false :: rest =>
      match q with
      | Ret b => let '(a, w1, _) := run p healthy w in (a, b, w1)
      | Do c k => let (x, w1) := perform c NoFault w in race rest p (k x) w1
      end
  end.

(* ================================================================= *)
(** ** Requests, responses, configuration *)

Record Request : Type := mkRequest {
  method : string;
  x_boldsign_signature : option string;
  authorization : option string;
  raw_body : string
}.

Inductive Body : Type :=
| Text (s : string)
(** [JSON.stringify(j)] *)
| Json (j : JValue).

Record Response : Type := mkResponse {
  code : nat;
  body : Body
}.

(** [new Response(JSON.stringify(j), { status })]. *)
Definition json_response (status : nat) (fields : list (string * JValue)) : Response :=
  mkResponse status (Json (JObj fields)).

(** [Deno.env] and the clock.  [SUPABASE_URL] and the Supabase keys are
    injected by the platform and taken as present. *)
Record Env : Type := mkEnv {
  BOLDSIGN_WEBHOOK_SECRET : option string;
  BOLDSIGN_API_KEY : option string;
  SLACK_WEBHOOK_URL : option string;
  (** [new Date().toISOString().slice(0, 10)] *)
  today : string
}.

(** [`${letter.client_id}/${letter.id}_signed.pdf`] *)
Definition storagePath (l : Letter) : string :=
  interpolate (client_id l) ++ "/" ++ id l ++ "_signed.pdf".

(* ================================================================= *)
(** ** [supabase/functions/boldsign-webhook/index.ts] *)

Module BoldsignWebhook.
Section Handler.

(** [btoa] of the HMAC-SHA256 of a body under a secret, as [crypto.subtle]
    computes it: [hmac_sha256_base64 secret body]. *)
Variable hmac_sha256_base64 : string -> string -> string.
(** [JSON.parse]; [Thrown] with the message of the SyntaxError where it
    throws. *)
Variable JSON_parse : string -> Result JValue.
Variable env : Env.

Definition HANDLED_EVENTS : list string :=
  ["Sent"; "Viewed"; "Signed"; "Completed"; "Declined"; "Expired"; "Revoked"].

(** [HANDLED_EVENTS.has(eventType)] *)
Definition handled (eventType : option JValue) : bool :=
  match eventType with
  | Some (JStr s) => existsb (String.eqb s) HANDLED_EVENTS
  | _ => false
  end.

Definition mapEventToStatus (event : string) : option string :=
  if event =? "Sent" then Some "sent"
  else if event =? "Viewed" then Some "viewed"
  else if event =? "Signed" then Some "signed"
  else if event =? "Completed" then Some "completed"
  else if event =? "Declined" then Some "declined"
  else if event =? "Expired" then Some "expired"
  else if event =? "Revoked" then Some "revoked"
  else None.

Definition verifyWebhookSignature (body signature secret : string) : bool :=
  hmac_sha256_base64 secret body =? signature.

(** [eventType === 'Completed'] *)
Definition is_completed (eventType : option JValue) : bool :=
  match eventType with
  | Some (JStr s) => s =? "Completed"
  | _ => false
  end.

Definition acknowledge (fields : list (string * JValue)) : M Response :=
  ret (json_response 200 fields).

(** Lines 137-170: download the signed PDF and store it. *)
Definition store_signed_pdf (letter : Letter) (documentId : string) : M unit :=
  match nonempty (BOLDSIGN_API_KEY env) with
  | None => ret tt
  | Some boldsignApiKey =>
      try_catch
        (dlRes <- await_fetch (BoldSignDownload documentId boldsignApiKey) ;;
         if ok dlRes then
           let pdfBytes := http_body dlRes in
           let path := storagePath letter in
           uploadError <- call (StorageUpload path pdfBytes) ;;
           match uploadError with
           | Some e => call (Console error "Failed to upload signed PDF:" e)
           | None =>
               call (UpdateLetter (id letter) [(col_signed_pdf_path, path)]) ;;;
               ret tt
           end
         else
           call (Console warn "BoldSign download failed:"
                         (string_of_list_byte (http_body dlRes))))
        (fun e => call (Console warn "Signed PDF download/upload failed:" e))
  end.

(** Lines 184-223: the best-effort Slack notice. *)
Definition notify_slack (clientId : string) : M unit :=
  match nonempty (SLACK_WEBHOOK_URL env) with
  | None => ret tt
  | Some slackWebhookUrl =>
      try_catch
        (clientData <- call (SelectClient clientId) ;;
         let client :=
           match clientData with
           | Data (c :: _) => Some c
           | _ => None
           end in
         let clientName :=
           match client with
           | Some c =>
               match nonempty (entity_name c), nonempty (contact_name c) with
               | Some n, _ => n
               | None, Some n => n
               | None, None => "Unknown"
               end
           | None => "Unknown"
           end in
         let matterType :=
           match client with
           | Some c => match nonempty (matter_type c) with Some m => m | None => "" end
           | None => ""
           end in
         await_fetch (SlackPost slackWebhookUrl clientName matterType (today env)) ;;;
         ret tt)
        (fun e => call (Console warn "Slack notification failed:" e))
  end.

(** Lines 172-224: mark the client executed, then notify. *)
Definition execute_client (letter : Letter) : M unit :=
  match nonempty (client_id letter) with
  | None => ret tt
  | Some clientId =>
      clientError <- call (UpdateClient clientId "Executed" (today env)) ;;
      match clientError with
      | Some e => call (Console error "Failed to update client status:" e)
      | None => ret tt
      end ;;;
      notify_slack clientId
  end.

(** Lines 102-228: everything after the event was classified, with the
    document id in the string form that the query and the download URL give
    it; the warning of line 115, which is handed the id as it came, is
    recorded with that string. *)
Definition reconcile (eventType : option JValue) (esignStatus documentId : string)
  : M Response :=
  found <- call (SelectLettersByDocument documentId) ;;
  match found with
  | Data (letter :: _) =>
      let updateData :=
        (col_esign_status, esignStatus)
          :: (if is_completed eventType then [(col_approval_status, "Executed")] else []) in
      updateError <- call (UpdateLetter (id letter) updateData) ;;
      match updateError with
      | Some e => call (Console error "Failed to update esign_status:" e)
      | None => ret tt
      end ;;;
      (if is_completed eventType then store_signed_pdf letter documentId else ret tt) ;;;
      (if is_completed eventType then execute_client letter else ret tt) ;;;
      acknowledge [("ok", JBool true); ("status", JStr esignStatus)]
  | _ =>
      call (Console warn "No engagement letter found for BoldSign document:" documentId) ;;;
      acknowledge [("ok", JBool true); ("message", JStr "Document not found in system")]
  end.

(** [payload.event?.eventType || payload.eventType], with [payload.event]
    already read. *)
Definition read_eventType (event : option JValue) (payload : JValue) : option JValue :=
  or_else (opt_member event "eventType") (prop payload "eventType").

(** [payload.event?.document?.documentId || payload.documentId] *)
Definition read_documentId (event : option JValue) (payload : JValue) : option JValue :=
  or_else (opt_member (opt_member event "document") "documentId")
          (prop payload "documentId").

(** Lines 78-100: parse and classify. *)
Definition classify (rawBody : string) : M Response :=
  match JSON_parse rawBody with
  | Thrown e => throw e
  | Ok payload =>
      event <- lift (member (Some payload) "event") ;;
      let eventType := read_eventType event payload in
      let documentId := read_documentId event payload in
      if negb (truthy eventType) || negb (truthy documentId) then
        acknowledge [("ok", JBool true); ("message", JStr "Acknowledged")]
      else if negb (handled eventType) then
        acknowledge [("ok", JBool true); ("message", JStr "Event not handled")]
      else
        match eventType, documentId with
        | Some (JStr event), Some document =>
            match mapEventToStatus event with
            | None => acknowledge [("ok", JBool true)]
            | Some esignStatus =>
                (* line 111: [.eq('boldsign_document_id', documentId)] *)
                documentId <- lift (to_string document) ;;
                reconcile eventType esignStatus documentId
            end
        | _, _ => acknowledge [("ok", JBool true)]
        end
  end.

(** Lines 59-76: the signature gate; [Some r] is the rejection. *)
Definition signature_gate (req : Request) : option Response :=
  match nonempty (BOLDSIGN_WEBHOOK_SECRET env) with
  | None => None
  | Some webhookSecret =>
      match nonempty (x_boldsign_signature req) with
      | None => Some (json_response 401 [("error", JStr "Missing webhook signature")])
      | Some signature =>
          if verifyWebhookSignature (raw_body req) signature webhookSecret then None
          else Some (json_response 401 [("error", JStr "Invalid webhook signature")])
      end
  end.

Definition authenticate (req : Request) : M Response :=
  match signature_gate req with
  | Some rejection => ret rejection
  | None => classify (raw_body req)
  end.

(** Lines 229-235: the outer [catch]. *)
Definition catch500 (e : string) : Prog Response :=
  Do (Console error "Webhook error:" e)
     (fun _ => Ret (json_response 500 [("error", JStr e)])).

Definition handler (req : Request) : Prog Response :=
  if method req =? "OPTIONS" then Ret (mkResponse 200 (Text "ok"))
  else if negb (method req =? "POST") then
    Ret (json_response 405 [("error", JStr "Method not allowed")])
  else serve_catch (authenticate req) catch500.

End Handler.
End BoldsignWebhook.

(* ================================================================= *)
(** ** [supabase/functions/fetch-signed-document/index.ts] *)

(** Lines 16-53, the same in both revisions: who is calling, and for which
    letter. *)
Module FetchCommon.
Section Caller.

Variable JSON_parse : string -> Result JValue.

Definition unauthorized (message : string) (status : nat) : M Response :=
  ret (json_response status [("error", JStr message)]).

Definition with_letter_id (req : Request) (k : string -> string -> M Response)
  : M Response :=
  match nonempty (authorization req) with
  | None => unauthorized "Missing authorization" 401
  | Some authHeader =>
      user <- call (GetUser authHeader) ;;
      match user with
      | DbError _ => unauthorized "Unauthorized" 401
      | Data user =>
          if negb (match email user with
                   | Some e => endsWith e "@margolispllc.com"
                   | None => false
                   end)
          then unauthorized "Forbidden" 403
          else
            match JSON_parse (raw_body req) with
            | Thrown e => throw e
            | Ok body =>
                letterId <- lift (destructure body "body" "letterId") ;;
                match letterId with
                | Some (JStr i) =>
                    if i =? "" then unauthorized "Missing letterId" 400
                    else k authHeader i
                | _ => unauthorized "Missing letterId" 400
                end
            end
      end
  end.

End Caller.
End FetchCommon.

(** The revision that asks for a signed or completed letter. *)
Module FetchSignedDocument.
Section Handler.

Variable JSON_parse : string -> Result JValue.
Variable env : Env.

(** Lines 91-141. *)
Definition retrieve (letter : Letter) (documentId : string) : M Response :=
  match nonempty (BOLDSIGN_API_KEY env) with
  | None => ret (json_response 500 [("error", JStr "BoldSign API key not configured")])
  | Some boldsignApiKey =>
      dlRes <- await_fetch (BoldSignDownload documentId boldsignApiKey) ;;
      if negb (ok dlRes) then
        ret (json_response 502
               [("error", JStr "Failed to download from BoldSign");
                ("detail", JStr (string_of_list_byte (http_body dlRes)))])
      else
        let pdfBytes := http_body dlRes in
        let path := storagePath letter in
        uploadError <- call (StorageUpload path pdfBytes) ;;
        match uploadError with
        | Some e =>
            ret (json_response 500 [("error", JStr "Failed to store PDF"); ("detail", JStr e)])
        | None =>
            call (UpdateLetter (id letter) [(col_signed_pdf_path, path)]) ;;;
            ret (json_response 200 [("ok", JBool true); ("path", JStr path)])
        end
  end.

(** Lines 55-89. *)
Definition lookup_letter (authHeader letterId : string) : M Response :=
  found <- call (SelectLetterById (Caller authHeader) letterId) ;;
  match found with
  | DbError _ => ret (json_response 404 [("error", JStr "Letter not found")])
  | Data letter =>
      match nonempty (signed_pdf_path letter) with
      | Some path =>
          ret (json_response 200
                 [("ok", JBool true); ("path", JStr path); ("alreadyStored", JBool true)])
      | None =>
          match nonempty (boldsign_document_id letter) with
          | None =>
              ret (json_response 400
                     [("error", JStr "No BoldSign document linked to this letter")])
          | Some documentId =>
              if negb (match esign_status letter with
                       | Some s => (s =? "completed") || (s =? "signed")
                       | None => false
                       end)
              then ret (json_response 400 [("error", JStr "Document has not been signed yet")])
              else retrieve letter documentId
          end
      end
  end.

Definition handler (req : Request) : Prog Response :=
  if method req =? "OPTIONS" then Ret (mkResponse 200 (Text "ok"))
  else
    serve_catch (FetchCommon.with_letter_id JSON_parse req lookup_letter)
      (fun e => Ret (json_response 500 [("error", JStr e)])).

End Handler.
End FetchSignedDocument.

(** The service-role revision ([src/unnamed/part_001]): no status gate, an
    empty download is refused, and the status is corrected to
    [completed]. *)
Module FetchSignedDocumentService.
Section Handler.

Variable JSON_parse : string -> Result JValue.
Variable env : Env.

(** Lines 153-157: the path, and the status unless it is [completed]
    already. *)
Definition updateData (letter : Letter) : LetterUpdate :=
  (col_signed_pdf_path, storagePath letter)
    :: (match esign_status letter with
        | Some s => if s =? "completed" then [] else [(col_esign_status, "completed")]
        | None => [(col_esign_status, "completed")]
        end).

(** Lines 93-170. *)
Definition retrieve (letter : Letter) (documentId : string) : M Response :=
  match nonempty (BOLDSIGN_API_KEY env) with
  | None => ret (json_response 500 [("error", JStr "BoldSign API key not configured")])
  | Some boldsignApiKey =>
      call (Console log "Downloading signed PDF from BoldSign:" documentId) ;;;
      dlRes <- await_fetch (BoldSignDownload documentId boldsignApiKey) ;;
      if negb (ok dlRes) then
        call (Console error "BoldSign download failed:"
                      (string_of_list_byte (http_body dlRes))) ;;;
        ret (json_response 502
               [("error", JStr "Failed to download from BoldSign");
                ("detail", JStr (string_of_list_byte (http_body dlRes)));
                ("boldsignStatus", JNum (Z.of_nat (http_status dlRes)));
                ("documentId", JStr documentId);
                ("esignStatus",
                 match esign_status letter with Some s => JStr s | None => JNull end)])
      else
        let pdfBytes := http_body dlRes in
        if (List.length pdfBytes =? 0)%nat then
          ret (json_response 502 [("error", JStr "BoldSign returned empty response")])
        else
          call (Console log "Downloaded bytes from BoldSign" "") ;;;
          let path := storagePath letter in
          uploadError <- call (StorageUpload path pdfBytes) ;;
          match uploadError with
          | Some e =>
              call (Console error "Storage upload failed:" e) ;;;
              ret (json_response 500
                     [("error", JStr "Failed to store PDF"); ("detail", JStr e)])
          | None =>
              updateError <- call (UpdateLetter (id letter) (updateData letter)) ;;
              match updateError with
              | Some e => call (Console error "Letter record update failed:" e)
              | None => ret tt
              end ;;;
              call (Console log "Signed PDF stored at:" path) ;;;
              ret (json_response 200 [("ok", JBool true); ("path", JStr path)])
          end
  end.

(** Lines 55-89. *)
Definition lookup_letter (authHeader letterId : string) : M Response :=
  found <- call (SelectLetterById ServiceRole letterId) ;;
  match found with
  | DbError e =>
      ret (json_response 404 [("error", JStr "Letter not found"); ("detail", JStr e)])
  | Data letter =>
      match nonempty (signed_pdf_path letter) with
      | Some path =>
          ret (json_response 200
                 [("ok", JBool true); ("path", JStr path); ("alreadyStored", JBool true)])
      | None =>
          match nonempty (boldsign_document_id letter) with
          | None =>
              ret (json_response 400
                     [("error", JStr "No BoldSign document linked to this letter");
                      ("detail",
                       JStr ("Letter " ++ letterId ++ " has esign_status=" ++ dquote
                             ++ interpolate (esign_status letter) ++ dquote
                             ++ " but boldsign_document_id is null. The document ID may not have been saved when the letter was sent for e-signature."))])
          | Some documentId => retrieve letter documentId
          end
      end
  end.

Definition handler (req : Request) : Prog Response :=
  if method req =? "OPTIONS" then Ret (mkResponse 200 (Text "ok"))
  else
    serve_catch (FetchCommon.with_letter_id JSON_parse req lookup_letter)
      (fun e => Do (Console error "fetch-signed-document error:" e)
                   (fun _ => Ret (json_response 500 [("error", JStr e)]))).

End Handler.
End FetchSignedDocumentService.

(* ================================================================= *)
(** ** Vocabulary of the properties *)

Module Observe.
Section Observe.

Variable hmac_sha256_base64 : string -> string -> string.
Variable JSON_parse : string -> Result JValue.
Variable env : Env.

(** A valid, classified event: a POST that passes the signature gate and
    whose payload names a mapped event type and a document that can be
    queried for.  The result is the event type, the status it maps to and
    the document id as queried. *)
Definition classified (req : Request) : option (string * string * string) :=
  if negb (method req =? "POST") then None
  else
    match BoldsignWebhook.signature_gate hmac_sha256_base64 env req with
    | Some _ => None
    | None =>
        match JSON_parse (raw_body req) with
        | Thrown _ => None
        | Ok JNull => None
        | Ok payload =>
            let event := prop payload "event" in
            match BoldsignWebhook.read_eventType event payload,
                  BoldsignWebhook.read_documentId event payload with
            | Some (JStr ev), Some doc =>
                if truthy (Some doc) then
                  match BoldsignWebhook.mapEventToStatus ev, to_string doc with
                  | Some st, Ok d => Some (ev, st, d)
                  | _, _ => None
                  end
                else None
            | _, _ => None
            end
        end
    end.

(** A payload of a handled event whose document id cannot be put in a
    query: the error that [eq()] throws on it. *)
Definition unqueryable (payload : JValue) : option string :=
  let event := prop payload "event" in
  if BoldsignWebhook.handled (BoldsignWebhook.read_eventType event payload) then
    match BoldsignWebhook.read_documentId event payload with
    | Some doc =>
        match to_string doc with
        | Thrown e => Some e
        | Ok _ => None
        end
    | None => None
    end
  else None.

(** The row a document id resolves to ([limit(1)]). *)
Definition known_letter (w : World) (documentId : string) : option Letter :=
  hd_error (filter (has_document documentId) (engagement_letters w)).

(** The update a classified event sends (lines 124-127). *)
Definition updateData (ev st : string) : LetterUpdate :=
  (col_esign_status, st)
    :: (if ev =? "Completed" then [(col_approval_status, "Executed")] else []).

(** An on-demand request from an organisation member that names a letter:
    the caller's header and the letter id. *)
Definition fetch_target (w : World) (req : Request) : option (string * string) :=
  if method req =? "OPTIONS" then None
  else
    match nonempty (authorization req) with
    | None => None
    | Some h =>
        match auth_users w h with
        | Some user =>
            match email user with
            | Some e =>
                if endsWith e "@margolispllc.com" then
                  match JSON_parse (raw_body req) with
                  | Ok body =>
                      match destructure body "body" "letterId" with
                      | Ok (Some (JStr i)) => if i =? "" then None else Some (h, i)
                      | _ => None
                      end
                  | Thrown _ => None
                  end
                else None
            | None => None
            end
        | None => None
        end
    end.

End Observe.

(** Calls that leave the platform for BoldSign or the bucket. *)
Definition is_download (c : Traced) : bool :=
  match c with
  | traced (BoldSignDownload _ _) => true
  | _ => false
  end.

Definition is_upload (c : Traced) : bool :=
  match c with
  | traced (StorageUpload _ _) => true
  | _ => false
  end.

Definition downloads (t : list Traced) : nat := length (filter is_download t).
Definition uploads (t : list Traced) : nat := length (filter is_upload t).

(** Posts to the Slack webhook. *)
Definition is_notice (c : Traced) : bool :=
  match c with
  | traced (SlackPost _ _ _ _) => true
  | _ => false
  end.

Definition notices (t : list Traced) : nat := length (filter is_notice t).

(** The rows of a letter id. *)
Definition rows (w : World) (i : string) : list Letter :=
  filter (has_id i) (engagement_letters w).

(** The row [single()] returns for a letter id, if it returns one. *)
Definition single_row (w : World) (who : Credentials) (i : string) : option Letter :=
  match filter (fun l => has_id i l && visible w who l) (engagement_letters w) with
  | [l] => Some l
  | _ => None
  end.

(** Webhook deliveries processed one after the other. *)
Fixpoint deliver_all (handle : Request -> Prog Response) (ds : list (Request * Oracle))
         (w : World) : World :=
  match ds with
  | [] => w
  | (req, o) :: rest => deliver_all handle rest (world_of (run (handle req) o w))
  end.

End Observe.
Import Observe.

(* ================================================================= *)
(** ** A small deployment to evaluate the handlers on *)

Module Fixture.

(** [JSON.stringify] for objects of strings and integers, which is all the
    sample bodies are. *)
Fixpoint stringify (v : JValue) : string :=
  match v with
  | JNull => "null"
  | JBool true => "true"
  | JBool false => "false"
  | JNum n => number_to_string n
  | JStr s => dquote ++ s ++ dquote
  | JArr _ => "[]"
  | JObj fields =>
      "{" ++ join ","
               (map (fun kv => dquote ++ fst kv ++ dquote ++ ":" ++ stringify (snd kv)) fields)
          ++ "}"
  end.

Definition event (eventType documentId : string) : JValue :=
  JObj [("event", JObj [("eventType", JStr eventType);
                        ("document", JObj [("documentId", JStr documentId)])])].

Definition letter_request (letterId : string) : JValue :=
  JObj [("letterId", JStr letterId)].

(** A Sent event at the top level of the payload, for a document id of any
    kind. *)
Definition flat_event (documentId : JValue) : JValue :=
  JObj [("eventType", JStr "Sent"); ("documentId", documentId)].

(** A document id that is an object with a [toString] of its own, and one
    that is a number too long for a double. *)
Definition unprintable_id : JValue := JObj [("toString", JNum 1)].
Definition long_id : JValue := JNum 12345678901234567890.

(** The bodies the samples send. *)
Definition bodies : list JValue :=
  [ event "Sent" "doc-1"; event "Viewed" "doc-1"; event "Signed" "doc-1";
    event "Completed" "doc-1"; event "Reassigned" "doc-1";
    letter_request "letter-1"; letter_request "letter-2"; JNull;
    flat_event unprintable_id; flat_event long_id ].

(** [JSON.parse] on the sample bodies; anything else here is not JSON. *)
Definition JSON_parse (s : string) : Result JValue :=
  match find (fun j => stringify j =? s) bodies with
  | Some j => Ok j
  | None => Thrown "Unexpected token in JSON"
  end.

(** A stand-in for the keyed hash: the samples only need a signature that
    matches and one that does not. *)
Definition hmac (secret body : string) : string :=
  "hmac(" ++ secret ++ ")(" ++ body ++ ")".

Definition open_env : Env := mkEnv None (Some "api-key") (Some "https://hooks.slack.test/T1") "2026-02-16".
Definition keyless_env : Env := mkEnv None None (Some "https://hooks.slack.test/T1") "2026-02-16".
Definition guarded_env : Env := mkEnv (Some "s3cret") (Some "api-key") None "2026-02-16".

Definition pdf : list byte := [x25; x50; x44; x46].

Definition letter1 (st : option string) (path : option string) : Letter :=
  mkLetter "letter-1" (Some "client-1") (Some "doc-1") st None path.

Definition letter2 : Letter :=
  mkLetter "letter-2" (Some "client-1") None (Some "sent") None None.

Definition client1 : Client :=
  mkClient "client-1" (Some "Sent") None (Some "Acme LLC") None (Some "Formation").

Definition staff : string := "Bearer staff".

Definition world (st : option string) (path : option string) : World :=
  mkWorld [letter1 st path; letter2] [client1] []
          (fun key d => if (key =? "api-key") && (d =? "doc-1") then mkHttp 200 pdf
                        else mkHttp 404 [])
          (fun h => if h =? staff then Some (mkUser (Some "matt@margolispllc.com")) else None)
          (fun _ _ => true).

Definition post (j : JValue) : Request := mkRequest "POST" None None (stringify j).
Definition fetch (letterId : string) : Request :=
  mkRequest "POST" None (Some staff) (stringify (letter_request letterId)).

Definition webhook : Env -> Request -> Prog Response := BoldsignWebhook.handler hmac JSON_parse.
Definition fetch_gated : Env -> Request -> Prog Response := FetchSignedDocument.handler JSON_parse.
Definition fetch_service : Env -> Request -> Prog Response :=
  FetchSignedDocumentService.handler JSON_parse.

Definition signed_post (signature : option string) (j : JValue) : Request :=
  mkRequest "POST" signature None (stringify j).

(** The database refuses every write of [esign_status]; all else works. *)
Definition status_write_down : Oracle :=
  fun X c =>
    match c with
    | UpdateLetter _ upd =>
        if existsb (fun cv => match fst cv with col_esign_status => true | _ => false end) upd
        then Broken "connection reset"
        else NoFault
    | _ => NoFault
    end.

Definition stored_key : string := "client-1/letter-1_signed.pdf".

(** The status of the first row of a letter id. *)
Definition status_of (w : World) (i : string) : option string :=
  match rows w i with
  | l :: _ => esign_status l
  | [] => None
  end.

Definition path_of (w : World) (i : string) : option string :=
  match rows w i with
  | l :: _ => signed_pdf_path l
  | [] => None
  end.

End Fixture.

(* ================================================================= *)
(** ** Postconditions, and running under interference *)

(** [post p o w Q]: handled alone from [w] under [o], [p] ends with a
    result, a world and a trace that satisfy [Q]. *)
Definition post {R : Type} (p : Prog R) (o : Oracle) (w : World)
           (Q : R -> World -> list Traced -> Prop) : Prop :=
  Q (result_of (run p o w)) (world_of (run p o w)) (trace_of (run p o w)).

Definition signed_or_completed (l : Letter) : Prop :=
  esign_status l = Some "signed" \/ esign_status l = Some "completed".

(** What the handlers may do to a row while another request is in flight:
    identity, owner and document stay; the stored path, once set, stays,
    and is only ever set to the row's own key; a signed letter stays signed
    or becomes completed. *)
Definition row_later (l l' : Letter) : Prop :=
  id l' = id l /\
  client_id l' = client_id l /\
  boldsign_document_id l' = boldsign_document_id l /\
  (signed_pdf_path l' = signed_pdf_path l \/ signed_pdf_path l' = Some (storagePath l)) /\
  (signed_or_completed l -> signed_or_completed l').

Definition later (w w' : World) : Prop :=
  Forall2 row_later (engagement_letters w) (engagement_letters w') /\
  boldsign w' = boldsign w /\
  auth_users w' = auth_users w /\
  rls_letter w' = rls_letter w.

(** [tolerant p Q w]: from [w] on, whatever [later] changes others make
    before each of its calls and after its last, every call [p] makes (with
    the platform healthy) is itself a [later] change, and [p] returns a
    result that satisfies [Q] in every world that follows. *)
Fixpoint tolerant {R : Type} (p : Prog R) (Q : R -> World -> Prop) (w : World) : Prop :=
  match p with
  | Ret r => forall w', later w w' -> Q r w'
  | Do c k =>
      forall w1, later w w1 ->
        later w1 (snd (perform c NoFault w1)) /\
        tolerant (k (fst (perform c NoFault w1))) Q (snd (perform c NoFault w1))
  end.

(** A write names the row's own key wherever it names a path. *)
Definition canonical (w : World) (c : Traced) : Prop :=
  match c with
  | traced (StorageUpload path _) =>
      exists l, In l (engagement_letters w) /\ path = storagePath l
  | traced (UpdateLetter i upd) =>
      forall path, In (col_signed_pdf_path, path) upd ->
        exists l, In l (engagement_letters w) /\ id l = i /\ path = storagePath l
  | _ => True
  end.

(** A change that may or may not have happened. *)
Definition when (b : bool) (f : World -> World) (w : World) : World :=
  if b then f w else w.

Definition broken (f : Fault) : bool :=
  match f with
  | NoFault => false
  | Broken _ => true
  end.

(** A call that names no path, or the key of [letter]. *)
Definition canonical_for (letter : Letter) (c : Traced) : Prop :=
  match c with
  | traced (StorageUpload path _) => path = storagePath letter
  | traced (UpdateLetter i upd) =>
      i = id letter /\
      forall path, In (col_signed_pdf_path, path) upd -> path = storagePath letter
  | _ => True
  end.

(** What marking the client executed leaves behind (lines 173-182). *)
Definition client_effect (env : Env) (o : Oracle) (completed : bool) (letter : Letter)
           (w : World) : World :=
  match completed, nonempty (client_id letter) with
  | true, Some c =>
      when (negb (broken (o _ (UpdateClient c "Executed" (today env)))))
           (execute_rows c "Executed" (today env)) w
  | _, _ => w
  end.

(** The rows a classified event leaves: the status update if it went
    through, then the stored path if it was written. *)
Definition after_event (b1 b3 : bool) (ev st : string) (letter : Letter) (l : Letter) : Letter :=
  let l1 := if b1 && has_id (id letter) l then apply_update (updateData ev st) l else l in
  if b3 && has_id (id letter) l1
  then apply_update [(col_signed_pdf_path, storagePath letter)] l1
  else l1.

(** The letter [i] has its signed PDF stored at [path], its own key. *)
Definition stored (w : World) (i path : string) : Prop :=
  exists l, rows w i = [l] /\ signed_pdf_path l = Some path /\ storagePath l = path.

(** A successful answer of the fetch endpoint that names [path]. *)
Definition fetched (path : string) (r : Response) : Prop :=
  r = json_response 200 [("ok", JBool true); ("path", JStr path)] \/
  r = json_response 200
        [("ok", JBool true); ("path", JStr path); ("alreadyStored", JBool true)].

(* ================================================================= *)
(** ** [supabase/functions/send-for-esignature/index.ts], where a letter
       gets its document *)

(** Lines 228-230:
    [update({ boldsign_document_id: documentId, esign_status: 'sent',
              approval_status: 'Approved' }).eq('id', letterId)]
    on [engagement_letters]. *)
Definition link_rows (letterId documentId : string) (w : World) : World :=
  set_letters w
    (map (fun l => if has_id letterId l
                   then mkLetter (id l) (client_id l) (Some documentId) (Some "sent")
                                 (Some "Approved") (signed_pdf_path l)
                   else l)
         (engagement_letters w)).

(** Lines 227-235, for a [letterId] and a [documentId] that are strings or
    absent: the update is sent if both are truthy, and a refusal is only
    logged. *)
Definition link_letter (letterId documentId : option string) (refused : bool) (w : World)
  : World :=
  match nonempty letterId, nonempty documentId with
  | Some i, Some d => if refused then w else link_rows i d w
  | _, _ => w
  end.

(* ================================================================= *)
(** ** Vocabulary of the further properties *)

(** Calls that concern a client row or the Slack notice. *)
Definition touches_client (c : Traced) : bool :=
  match c with
  | traced (UpdateClient _ _ _) => true
  | traced (SelectClient _) => true
  | traced (SlackPost _ _ _ _) => true
  | _ => false
  end.

(** The objects the bucket holds under a key. *)
Definition objects_at (w : World) (key : string) : list (list byte) :=
  map snd (filter (fun o => fst o =? key) (signed_letters w)).

(** The line the webhook logs when the status update fails (lines
    133-135). *)
Definition update_failure_log (f : Fault) : list Traced :=
  match f with
  | Broken e => [traced (Console error "Failed to update esign_status:" e)]
  | NoFault => []
  end.

(** A string that holds a [/]. *)
Fixpoint has_slash (s : string) : bool :=
  match s with
  | EmptyString => false
  | String c rest => (c =? "/")%char || has_slash rest
  end.

(** The bytes a [Completed] event gets into the bucket, when it gets any
    there (lines 137-154 of the webhook). *)
Definition stored_bytes (env : Env) (o : Oracle) (letter : Letter) (d : string) (w : World)
  : option (list byte) :=
  match nonempty (BOLDSIGN_API_KEY env) with
  | None => None
  | Some key =>
      match o _ (BoldSignDownload d key) with
      | Broken _ => None
      | NoFault =>
          if ok (boldsign w key d) then
            match o _ (StorageUpload (storagePath letter) (http_body (boldsign w key d))) with
            | Broken _ => None
            | NoFault => Some (http_body (boldsign w key d))
            end
          else None
      end
  end.

(** What the retrieval of lines 137-170 leaves behind. *)
Definition store_effect (env : Env) (o : Oracle) (letter : Letter) (d : string) (w : World)
  : World :=
  match stored_bytes env o letter d w with
  | None => w
  | Some bytes =>
      when (negb (broken (o _ (UpdateLetter (id letter)
                                 [(col_signed_pdf_path, storagePath letter)]))))
           (update_rows (id letter) [(col_signed_pdf_path, storagePath letter)])
           (put_object (storagePath letter) bytes w)
  end.

(** What a classified event for a known letter leaves behind. *)
Definition delivered (env : Env) (o : Oracle) (ev st d : string) (letter : Letter) (w : World)
  : World :=
  let w1 := when (negb (broken (o _ (UpdateLetter (id letter) (updateData ev st)))))
                 (update_rows (id letter) (updateData ev st)) w in
  if ev =? "Completed" then client_effect env o true letter (store_effect env o letter d w1)
  else w1.

(** Whether a classified event gets the stored path written to the letter. *)
Definition path_written (env : Env) (o : Oracle) (ev d : string) (letter : Letter) (w : World)
  : bool :=
  (ev =? "Completed")
  && match stored_bytes env o letter d w with Some _ => true | None => false end
  && negb (broken (o _ (UpdateLetter (id letter) [(col_signed_pdf_path, storagePath letter)]))).

(** The client row the notice reads (lines 189-195 of the webhook): the
    first row of that id, if the lookup answers. *)
Definition notice_client (o : Oracle) (w : World) (c : string) : option Client :=
  match o _ (SelectClient c) with
  | Broken _ => None
  | NoFault => hd_error (filter (fun r => cid r =? c) (clients w))
  end.

(* ================================================================= *)
(** ** Input validation of the sending endpoints *)

(** [hasCRLF], [sanitizeFilename] and the e-mail pattern, as they stand in
    [supabase/functions/send-for-esignature/index.ts] (lines 14-16, 114,
    144) and in the send-email function ([src/unnamed/part_003], lines
    20-27 and 142).  A JavaScript string is the sequence of its UTF-16 code
    units, and the patterns (none has the [u] flag) work on code units. *)
Module Validation.

Local Open Scope N_scope.
Local Open Scope list_scope.
Unset Implicit Arguments.
Set Warnings "-abstract-large-number".

(** The code units of a string of characters below U+0100. *)
Definition units (s : string) : list N := map N_of_ascii (list_ascii_of_string s).

(** The patterns that occur, as syntax. *)
Inductive Regex : Type :=
| Never
| Empty
| Class (p : N -> bool)
| Seq (r1 r2 : Regex)
| Alt (r1 r2 : Regex)
| Star (r : Regex).

(** [r+] *)
Definition Plus (r : Regex) : Regex := Seq r (Star r).

Fixpoint nullable (r : Regex) : bool :=
  match r with
  | Never => false
  | Empty => true
  | Class _ => false
  | Seq r1 r2 => nullable r1 && nullable r2
  | Alt r1 r2 => nullable r1 || nullable r2
  | Star _ => true
  end.

(** What is left of [r] after it has read [c]. *)
Fixpoint deriv (c : N) (r : Regex) : Regex :=
  match r with
  | Never => Never
  | Empty => Never
  | Class p => if p c then Empty else Never
  | Seq r1 r2 =>
      if nullable r1 then Alt (Seq (deriv c r1) r2) (deriv c r2)
      else Seq (deriv c r1) r2
  | Alt r1 r2 => Alt (deriv c r1) (deriv c r2)
  | Star r1 => Seq (deriv c r1) (Star r1)
  end.

(** [/^r$/.test(s)]: the whole of [s] is matched by [r]. *)
Definition test_anchored (r : Regex) (s : list N) : bool :=
  nullable (fold_left (fun r c => deriv c r) s r).

Definition any : Regex := Class (fun _ => true).

(** [/r/.test(s)]: some part of [s] is matched by [r]. *)
Definition test (r : Regex) (s : list N) : bool :=
  test_anchored (Seq (Star any) (Seq r (Star any))) s.

Definition is_unit (k : N) (c : N) : bool := c =? k.

Definition in_range (lo hi : N) (c : N) : bool := (lo <=? c) && (c <=? hi).

(** [\s]: white space and line terminators. *)
Definition white_space (c : N) : bool :=
  in_range 9 13 c || is_unit 32 c || is_unit 160 c || is_unit 5760 c
  || in_range 8192 8202 c || is_unit 8232 c || is_unit 8233 c || is_unit 8239 c
  || is_unit 8287 c || is_unit 12288 c || is_unit 65279 c.

Definition CR : N := 13.
Definition LF : N := 10.
Definition AT : N := 64.
Definition DOT : N := 46.
Definition UNDERSCORE : N := 95.
Definition HYPHEN : N := 45.

(** [/[\r\n]/.test(s)] *)
Definition hasCRLF (s : list N) : bool :=
  test (Class (fun c => is_unit CR c || is_unit LF c)) s.

(** [[^\s@]] *)
Definition address_char (c : N) : bool := negb (white_space c || is_unit AT c).

(** [/^[^\s@]+@[^\s@]+\.[^\s@]+$/] *)
Definition emailRegex : Regex :=
  Seq (Plus (Class address_char))
      (Seq (Class (is_unit AT))
           (Seq (Plus (Class address_char))
                (Seq (Class (is_unit DOT)) (Plus (Class address_char))))).

(** [[^a-zA-Z0-9._-]] *)
Definition unsafe_char (c : N) : bool :=
  negb (in_range 97 122 c || in_range 65 90 c || in_range 48 57 c
        || is_unit DOT c || is_unit UNDERSCORE c || is_unit HYPHEN c).

(** [s.replace(/[p]/g, by)] for a class [p] of single code units. *)
Definition replace_all (p : N -> bool) (by_ : N) (s : list N) : list N :=
  map (fun c => if p c then by_ else c) s.

Definition MAX_FILENAME_LENGTH : nat := 255%nat.

(** [name.replace(/[^a-zA-Z0-9._-]/g, '_').slice(0, MAX_FILENAME_LENGTH)] *)
Definition sanitizeFilename (name : list N) : list N :=
  firstn MAX_FILENAME_LENGTH (replace_all unsafe_char UNDERSCORE name).

(** *** The checks on a request body

    What [req.json()] returns, with strings as code units.  Numbers are the
    integers: the checks only ask whether a number is zero. *)
Inductive Json : Type :=
| VNull
| VBool (b : bool)
| VNum (n : Z)
| VStr (s : list N)
| VArr (items : list Json)
| VObj (fields : list (list N * Json)).

Definition same_key (a b : list N) : bool :=
  if list_eq_dec N.eq_dec a b then true else false.

(** Own property of a parsed object; a repeated key keeps its last value. *)
Fixpoint field (k : list N) (fields : list (list N * Json)) : option Json :=
  match fields with
  | [] => None
  | (k', v) :: rest =>
      match field k rest with
      | Some v' => Some v'
      | None => if same_key k' k then Some v else None
      end
  end.

(** [const { k } = body], for a [body] that is not [null] and a [k] that no
    prototype defines; [None] is [undefined]. *)
Definition read (body : Json) (k : string) : option Json :=
  match body with
  | VObj fields => field (units k) fields
  | _ => None
  end.

(** ToBoolean. *)
Definition truthy (v : option Json) : bool :=
  match v with
  | None => false
  | Some VNull => false
  | Some (VBool b) => b
  | Some (VNum n) => negb (n =? 0)%Z
  | Some (VStr s) => negb (length s =? 0)%nat
  | Some (VArr _) => true
  | Some (VObj _) => true
  end.

(** [typeof v === 'string'], with the string. *)
Definition as_string (v : option Json) : option (list N) :=
  match v with
  | Some (VStr s) => Some s
  | _ => None
  end.

(** [s.length] *)
Definition len (s : list N) : N := N.of_nat (length s).

(** The decimal digits of an index, as a property key. *)
Definition index_key (i : nat) : list N := units (NilZero.string_of_uint (Nat.to_uint i)).

Definition digit (c : N) : option N :=
  if in_range 48 57 c then Some (c - 48) else None.

Fixpoint number_of (digits : list N) (acc : N) : option N :=
  match digits with
  | [] => Some acc
  | c :: rest =>
      match digit c with
      | Some d => number_of rest (acc * 10 + d)
      | None => None
      end
  end.

(** A key that is an array index: the canonical decimal form of an integer
    up to 2^32 - 2. *)
Definition array_index (k : list N) : option N :=
  match k with
  | [] => None
  | [c] => digit c
  | c :: _ =>
      if is_unit 48 c then None
      else
        match number_of k 0 with
        | Some n => if n <=? 4294967294 then Some n else None
        | None => None
        end
  end.

(** The keys of [fields] in the order of their first occurrence. *)
Fixpoint first_occurrences (seen : list (list N)) (keys : list (list N)) : list (list N) :=
  match keys with
  | [] => []
  | k :: rest =>
      if existsb (same_key k) seen then first_occurrences seen rest
      else k :: first_occurrences (k :: seen) rest
  end.

Fixpoint insert_index (k : list N) (n : N) (sorted : list (list N * N)) : list (list N * N) :=
  match sorted with
  | [] => [(k, n)]
  | (k', n') :: rest =>
      if n <=? n' then (k, n) :: sorted else (k', n') :: insert_index k n rest
  end.

(** Array indices first, in ascending order; then the other keys in the
    order of their creation. *)
Definition ordered_keys (keys : list (list N)) : list (list N) :=
  map fst
      (fold_right (fun k acc => match array_index k with
                                | Some n => insert_index k n acc
                                | None => acc
                                end) [] keys)
  ++ filter (fun k => match array_index k with Some _ => false | None => true end) keys.

(** [Object.keys(body)]; [None] is the TypeError on [null]. *)
Definition object_keys (body : Json) : option (list (list N)) :=
  match body with
  | VNull => None
  | VBool _ => Some []
  | VNum _ => Some []
  | VStr s => Some (map index_key (seq 0 (length s)))
  | VArr items => Some (map index_key (seq 0 (length items)))
  | VObj fields => Some (ordered_keys (first_occurrences [] (map fst fields)))
  end.

(** How a check ends: with a response that carries a status and an error
    message; with an exception, which the [catch] block turns into a 500;
    or with what goes on to the next step. *)
Inductive Outcome (A : Type) : Type :=
| Refused (status : nat) (error : list N)
| Raised
| Passed (a : A).
Arguments Refused {A} status error.
Arguments Raised {A}.
Arguments Passed {A} a.

(** [for (const key of Object.keys(body)) if (!allowedKeys.has(key)) return ...] *)
Definition check_keys (allowed : list string) (body : Json) : Outcome unit :=
  match object_keys body with
  | None => Raised
  | Some keys =>
      match find (fun k => negb (existsb (fun a => same_key k (units a)) allowed)) keys with
      | Some k => Refused 400 (units "Invalid payload field: " ++ k)
      | None => Passed tt
      end
  end.

(** **** The send-email function ([src/unnamed/part_003], lines 84-179) *)

Definition MAX_ATTACHMENT_BASE64_LENGTH : N := 14 * 1024 * 1024.
Definition MAX_SUBJECT_LENGTH : N := 500.
Definition MAX_HTML_LENGTH : N := 512 * 1024.

Definition email_keys : list string :=
  ["to"; "subject"; "html"; "replyTo"; "attachmentBase64"; "attachmentFilename"]%string.

(** What is handed to the mail provider, but for the sender address. *)
Record Email : Type := mkEmail {
  email_to : list N;
  email_subject : list N;
  email_html : list N;
  email_reply_to : option (list N);
  (** file name and content *)
  email_attachment : option (list N * list N)
}.

Definition send_email_payload (body : Json) : Outcome Email :=
  match check_keys email_keys body with
  | Refused status e => Refused status e
  | Raised => Raised
  | Passed _ =>
      let to := read body "to" in
      let subject := read body "subject" in
      let html := read body "html" in
      let replyTo := read body "replyTo" in
      let attachmentBase64 := read body "attachmentBase64" in
      let attachmentFilename := read body "attachmentFilename" in
      if negb (truthy to) || negb (truthy subject) || negb (truthy html) then
        Refused 400 (units "Missing required fields: to, subject, html")
      else
        match as_string to, as_string subject, as_string html with
        | Some to, Some subject, Some html =>
            if hasCRLF to || hasCRLF subject then
              Refused 400 (units "Invalid characters in email fields")
            else if match as_string replyTo with
                    | Some r => hasCRLF r
                    | None => false
                    end then
              Refused 400 (units "Invalid characters in reply-to")
            else if MAX_SUBJECT_LENGTH <? len subject then
              Refused 400 (units "Subject too long")
            else if MAX_HTML_LENGTH <? len html then
              Refused 400 (units "HTML body too large")
            else if negb (test_anchored emailRegex to) then
              Refused 400 (units "Invalid recipient email")
            else if match as_string attachmentBase64 with
                    | Some a => MAX_ATTACHMENT_BASE64_LENGTH <? len a
                    | None => false
                    end then
              Refused 413 (units "Attachment too large (max 10 MB)")
            else
              Passed
                (mkEmail to subject html
                   (match as_string replyTo with
                    | Some r => if test_anchored emailRegex r then Some r else None
                    | None => None
                    end)
                   (match as_string attachmentBase64, as_string attachmentFilename with
                    | Some a, Some f =>
                        if 0 <? len a then Some (sanitizeFilename f, a) else None
                    | _, _ => None
                    end))
        | _, _, _ => Refused 400 (units "Invalid field types")
        end
  end.

(** **** The send-for-esignature function (lines 73-134 and 144) *)

Definition MAX_MESSAGE_LENGTH : N := 2000.
Definition MAX_TITLE_LENGTH : N := 500.

Definition esignature_keys : list string :=
  ["pdfBase64"; "fileName"; "signerName"; "signerEmail"; "title"; "message"; "clientId";
   "letterId"; "signaturePageNumber"]%string.

(** The fields as they stand once the checks are passed: four are strings,
    the others are as they came. *)
Record SignatureRequest : Type := mkSignatureRequest {
  pdfBase64 : list N;
  signerName : list N;
  signerEmail : list N;
  title : list N;
  fileName : option Json;
  message : option Json;
  clientId : option Json;
  letterId : option Json;
  signaturePageNumber : option Json
}.

Definition check_signature_request (body : Json) : Outcome SignatureRequest :=
  match check_keys esignature_keys body with
  | Refused status e => Refused status e
  | Raised => Raised
  | Passed _ =>
      let pdfBase64 := read body "pdfBase64" in
      let signerName := read body "signerName" in
      let signerEmail := read body "signerEmail" in
      let title := read body "title" in
      let message := read body "message" in
      if negb (truthy pdfBase64) || negb (truthy signerName) || negb (truthy signerEmail)
         || negb (truthy title) then
        Refused 400 (units "Missing required fields: pdfBase64, signerName, signerEmail, title")
      else
        match as_string pdfBase64, as_string signerName, as_string signerEmail,
              as_string title with
        | Some pdfBase64, Some signerName, Some signerEmail, Some title =>
            if hasCRLF signerEmail || hasCRLF signerName || hasCRLF title then
              Refused 400 (units "Invalid characters in fields")
            else if negb (test_anchored emailRegex signerEmail) then
              Refused 400 (units "Invalid signer email address")
            else if MAX_TITLE_LENGTH <? len title then
              Refused 400 (units "Title too long")
            else if match as_string message with
                    | Some m => MAX_MESSAGE_LENGTH <? len m
                    | None => false
                    end then
              Refused 400 (units "Message too long")
            else
              Passed (mkSignatureRequest pdfBase64 signerName signerEmail title
                        (read body "fileName") message (read body "clientId")
                        (read body "letterId") (read body "signaturePageNumber"))
        | _, _, _, _ => Refused 400 (units "Invalid field types")
        end
  end.

(** [(fileName || 'Engagement_Letter.pdf').replace(/[^a-zA-Z0-9._-]/g, '_').slice(0, 255)];
    a [fileName] that is truthy and not a string has no [replace]. *)
Definition safeName (fileName : option Json) : Outcome (list N) :=
  if truthy fileName then
    match fileName with
    | Some (VStr s) => Passed (firstn 255 (replace_all unsafe_char UNDERSCORE s))
    | _ => Raised
    end
  else Passed (firstn 255 (replace_all unsafe_char UNDERSCORE (units "Engagement_Letter.pdf"))).


(** What a pattern matches. *)
Inductive matches : Regex -> list N -> Prop :=
| m_empty : matches Empty []
| m_class p c : p c = true -> matches (Class p) [c]
| m_seq r1 r2 s1 s2 : matches r1 s1 -> matches r2 s2 -> matches (Seq r1 r2) (s1 ++ s2)
| m_alt_l r1 r2 s : matches r1 s -> matches (Alt r1 r2) s
| m_alt_r r1 r2 s : matches r2 s -> matches (Alt r1 r2) s
| m_star_nil r : matches (Star r) []
| m_star_more r s1 s2 : matches r s1 -> matches (Star r) s2 -> matches (Star r) (s1 ++ s2).

End Validation.

Set Implicit Arguments.


(* ================================================================= *)
(** ** More sample worlds, requests and bodies *)

Module Cases.

Import Fixture.

(** A linked letter that belongs to no client. *)
Definition orphan : Letter :=
  mkLetter "letter-1" None (Some "doc-1") (Some "signed") None None.

Definition orphan_world : World :=
  mkWorld [orphan] [client1] [] (boldsign (world None None)) (auth_users (world None None))
          (fun _ _ => true).

(** A deployment in which no letter is linked to [doc-1]. *)
Definition unlinked_world : World :=
  mkWorld [letter2] [client1] [] (boldsign (world None None)) (auth_users (world None None))
          (fun _ _ => true).

(** A deployment without letters. *)
Definition empty_world : World :=
  mkWorld [] [client1] [] (boldsign (world None None)) (auth_users (world None None))
          (fun _ _ => true).

(** BoldSign answers 200 with an empty body. *)
Definition hollow_world (st : option string) : World :=
  mkWorld [letter1 st None; letter2] [client1] []
          (fun _ _ => mkHttp 200 [])
          (auth_users (world None None))
          (fun _ _ => true).

(** The secret of [guarded_env] taken away, all else the same. *)
Definition unguarded_env : Env := mkEnv None (Some "api-key") None "2026-02-16".

(** A member's request whose body names no letter. *)
Definition aimless : Request :=
  mkRequest "POST" None (Some staff) (stringify (event "Sent" "doc-1")).

(** A request without credentials. *)
Definition anonymous : Request :=
  mkRequest "POST" None None (stringify (letter_request "letter-1")).

(** A delivery signed with the secret of [guarded_env]. *)
Definition genuine (j : JValue) : Request :=
  signed_post (Some (hmac "s3cret" (stringify j))) j.

(** A body for the send-email function. *)
Definition letter_mail : Validation.Json :=
  Validation.VObj
    [(Validation.units "to", Validation.VStr (Validation.units "client@example.com"));
     (Validation.units "subject", Validation.VStr (Validation.units "Your engagement letter"));
     (Validation.units "html", Validation.VStr (Validation.units "<p>Attached.</p>"));
     (Validation.units "attachmentBase64", Validation.VStr (Validation.units "UEsDBA=="));
     (Validation.units "attachmentFilename",
      Validation.VStr (Validation.units "Engagement Letter (final).docx"))].

(** A body for the send-for-esignature function. *)
Definition signature_body : Validation.Json :=
  Validation.VObj
    [(Validation.units "pdfBase64", Validation.VStr (Validation.units "JVBERg=="));
     (Validation.units "signerName", Validation.VStr (Validation.units "Ada Acme"));
     (Validation.units "signerEmail", Validation.VStr (Validation.units "ada@acme.example"));
     (Validation.units "title", Validation.VStr (Validation.units "Engagement Letter"));
     (Validation.units "letterId", Validation.VStr (Validation.units "letter-2"))].

End Cases.

(* ================================================================= *)
(** * Properties *)

Open Scope list_scope.

(** ** Running programs *)

Lemma triple_eta {R : Type} (x : R * World * list Traced) :
  (result_of x, world_of x, trace_of x) = x.
Proof. destruct x as [[r w] t]. reflexivity. Qed.

Section Running.

Context {A B : Type}.

Lemma run_bind (m : M A) (f : A -> M B) (o : Oracle) (w : World) :
  run (bind m f) o w =
  match result_of (run m o w) with
  | Ok a =>
      let x := run (f a) o (world_of (run m o w)) in
      (result_of x, world_of x, trace_of (run m o w) ++ trace_of x)
  | Thrown e => (Thrown e, world_of (run m o w), trace_of (run m o w))
  end.
Proof.
  revert w. induction m as [[a|e]|X c k IH]; intro w.
  - cbn. symmetry. apply triple_eta.
  - reflexivity.
  - cbn [bind run]. destruct (perform c (o X c) w) as [x w1]. rewrite IH.
    destruct (run (k x) o w1) as [[[a|e] w2] t]; cbn; reflexivity.
Qed.

Lemma run_try_catch (m : M A) (h : string -> M A) (o : Oracle) (w : World) :
  run (try_catch m h) o w =
  match result_of (run m o w) with
  | Ok a => (Ok a, world_of (run m o w), trace_of (run m o w))
  | Thrown e =>
      let x := run (h e) o (world_of (run m o w)) in
      (result_of x, world_of x, trace_of (run m o w) ++ trace_of x)
  end.
Proof.
  revert w. induction m as [[a|e]|X c k IH]; intro w.
  - reflexivity.
  - cbn. symmetry. apply triple_eta.
  - cbn [try_catch run]. destruct (perform c (o X c) w) as [x w1]. rewrite IH.
    destruct (run (k x) o w1) as [[[a|e] w2] t]; cbn; reflexivity.
Qed.

Lemma run_serve_catch (m : M A) (h : string -> Prog A) (o : Oracle) (w : World) :
  run (serve_catch m h) o w =
  match result_of (run m o w) with
  | Ok a => (a, world_of (run m o w), trace_of (run m o w))
  | Thrown e =>
      let x := run (h e) o (world_of (run m o w)) in
      (result_of x, world_of x, trace_of (run m o w) ++ trace_of x)
  end.
Proof.
  revert w. induction m as [[a|e]|X c k IH]; intro w.
  - reflexivity.
  - cbn. symmetry. apply triple_eta.
  - cbn [serve_catch run]. destruct (perform c (o X c) w) as [x w1]. rewrite IH.
    destruct (run (k x) o w1) as [[[a|e] w2] t]; cbn; reflexivity.
Qed.

End Running.

Lemma run_call {X : Type} (c : Call X) (o : Oracle) (w : World) :
  run (call c) o w = (Ok (fst (perform c (o X c) w)), snd (perform c (o X c) w), [traced c]).
Proof.
  unfold call. simpl. destruct (perform c (o X c) w). reflexivity.
Qed.

Lemma run_do {R X : Type} (c : Call X) (k : X -> Prog R) (o : Oracle) (w : World) :
  run (Do c k) o w =
  let x := run (k (fst (perform c (o X c) w))) o (snd (perform c (o X c) w)) in
  (result_of x, world_of x, traced c :: trace_of x).
Proof.
  simpl. destruct (perform c (o X c) w) as [x w1]. simpl.
  destruct (run (k x) o w1) as [[r w2] t]. reflexivity.
Qed.

(** ** Rules for postconditions *)

Lemma post_ret {A : Type} (a : A) (o : Oracle) (w : World)
      (Q : Result A -> World -> list Traced -> Prop) :
  Q (Ok a) w [] -> post (ret a) o w Q.
Proof. exact (fun H => H). Qed.

Lemma post_mono {R : Type} (p : Prog R) (o : Oracle) (w : World)
      (Q Q' : R -> World -> list Traced -> Prop) :
  post p o w Q -> (forall r w' t, Q r w' t -> Q' r w' t) -> post p o w Q'.
Proof. unfold post. auto. Qed.

Lemma post_bind {A B : Type} (m : M A) (f : A -> M B) (o : Oracle) (w : World)
      (Q : Result B -> World -> list Traced -> Prop) :
  post m o w (fun r w1 t1 =>
    match r with
    | Ok a => post (f a) o w1 (fun r2 w2 t2 => Q r2 w2 (t1 ++ t2))
    | Thrown e => Q (Thrown e) w1 t1
    end) ->
  post (bind m f) o w Q.
Proof.
  unfold post. rewrite run_bind.
  destruct (run m o w) as [[[a|e] w1] t1]; cbn; auto.
Qed.

Lemma post_call {X : Type} (c : Call X) (o : Oracle) (w : World)
      (Q : Result X -> World -> list Traced -> Prop) :
  Q (Ok (fst (perform c (o X c) w))) (snd (perform c (o X c) w)) [traced c] ->
  post (call c) o w Q.
Proof. unfold post. rewrite run_call. auto. Qed.

Lemma post_serve_catch {A : Type} (m : M A) (h : string -> Prog A) (o : Oracle) (w : World)
      (Q : A -> World -> list Traced -> Prop) :
  post m o w (fun r w1 t1 =>
    match r with
    | Ok a => Q a w1 t1
    | Thrown e => post (h e) o w1 (fun r2 w2 t2 => Q r2 w2 (t1 ++ t2))
    end) ->
  post (serve_catch m h) o w Q.
Proof.
  unfold post. rewrite run_serve_catch.
  destruct (run m o w) as [[[a|e] w1] t1]; cbn; auto.
Qed.

(** ** The webhook, stage by stage *)

Ltac crunch1 :=
  match goal with
  | |- context [match ?x with _ => _ end] =>
      lazymatch x with
      | context [match _ with _ => _ end] => fail
      | _ => destruct x eqn:?
      end
  end.

Ltac crunch := repeat (cbn in *; crunch1); cbn in *.

Arguments BoldsignWebhook.store_signed_pdf : simpl never.
Arguments BoldsignWebhook.notify_slack : simpl never.
Arguments BoldsignWebhook.execute_client : simpl never.
Arguments BoldsignWebhook.reconcile : simpl never.
Arguments when : simpl never.
Arguments update_rows : simpl never.
Arguments put_object : simpl never.
Arguments execute_rows : simpl never.

Section WebhookStages.

Variable env : Env.

Lemma store_signed_pdf_post (letter : Letter) (d : string) (o : Oracle) (w : World) :
  post (BoldsignWebhook.store_signed_pdf env letter d) o w (fun r w' t =>
    r = Ok tt /\
    (exists b2 b3 bytes,
        w' = when b3 (update_rows (id letter) [(col_signed_pdf_path, storagePath letter)])
                  (when b2 (put_object (storagePath letter) bytes) w)) /\
    Forall (canonical_for letter) t /\
    (forall key, nonempty (BOLDSIGN_API_KEY env) = Some key ->
                 In (traced (BoldSignDownload d key)) t)).
Proof.
  unfold post, BoldsignWebhook.store_signed_pdf.
  crunch.
  all: split; [reflexivity|].
  all: split;
    [ first [ exists true, true; eexists; reflexivity
            | exists true, false; eexists; reflexivity
            | exists false, false, []; reflexivity ] |].
  all: split; [repeat constructor; cbn; intuition congruence |].
  all: intros key [= <-]; auto.
Qed.

Lemma notify_slack_post (c : string) (o : Oracle) (w : World) :
  post (BoldsignWebhook.notify_slack env c) o w (fun r w' t =>
    r = Ok tt /\ w' = w /\
    (forall letter, Forall (canonical_for letter) t) /\
    (forall url, nonempty (SLACK_WEBHOOK_URL env) = Some url ->
       exists name matter, In (traced (SlackPost url name matter (today env))) t)).
Proof.
  unfold post, BoldsignWebhook.notify_slack.
  crunch.
  all: split; [reflexivity|].
  all: split; [reflexivity|].
  all: split; [intro; repeat constructor |].
  all: intros url [= <-]; eauto 6.
Qed.

Lemma execute_client_post (letter : Letter) (o : Oracle) (w : World) :
  post (BoldsignWebhook.execute_client env letter) o w (fun r w' t =>
    r = Ok tt /\
    w' = client_effect env o true letter w /\
    (forall l, Forall (canonical_for l) t) /\
    (forall c, nonempty (client_id letter) = Some c ->
       In (traced (UpdateClient c "Executed" (today env))) t /\
       (forall url, nonempty (SLACK_WEBHOOK_URL env) = Some url ->
          exists name matter, In (traced (SlackPost url name matter (today env))) t))).
Proof.
  unfold post, BoldsignWebhook.execute_client, client_effect.
  destruct (nonempty (client_id letter)) as [cl|].
  2:{ cbn. split; [reflexivity|]. split; [reflexivity|].
      split; [intro; constructor|]. intros c0 [=]. }
  cbv beta iota.
  rewrite run_bind, run_call. cbn [result_of world_of trace_of fst snd].
  rewrite run_bind.
  pose proof (notify_slack_post cl o) as Hs. unfold post in Hs.
  destruct (o _ (UpdateClient cl "Executed" (today env))) as [|e] eqn:Eo;
    cbn [perform fst snd broken negb when]; rewrite ?run_call;
    cbn [result_of world_of trace_of fst snd perform].
  - specialize (Hs (execute_rows cl "Executed" (today env) w)).
    destruct (run (BoldsignWebhook.notify_slack env cl) o _) as [[r w1] t1].
    cbn in Hs |- *. destruct Hs as (-> & -> & Hc & Hp).
    split; [reflexivity|]. split; [reflexivity|]. split.
    + intro l. constructor; [exact I | apply Hc].
    + intros c' [= <-]. split; [auto|].
      intros url Hu. destruct (Hp url Hu) as (n & m & Hin). eauto.
  - specialize (Hs w).
    destruct (run (BoldsignWebhook.notify_slack env cl) o w) as [[r w1] t1].
    cbn in Hs |- *. destruct Hs as (-> & -> & Hc & Hp).
    split; [reflexivity|]. split; [reflexivity|]. split.
    + intro l. constructor; [exact I | constructor; [exact I | apply Hc]].
    + intros c' [= <-]. split; [auto|].
      intros url Hu. destruct (Hp url Hu) as (n & m & Hin). eauto 6.
Qed.

Lemma known_letter_select (w : World) (d : string) (letter : Letter) :
  known_letter w d = Some letter ->
  firstn 1 (filter (has_document d) (engagement_letters w)) = [letter].
Proof.
  unfold known_letter.
  destruct (filter (has_document d) (engagement_letters w)) as [|l rest]; cbn; congruence.
Qed.

(** Lines 137-228 once the status update is behind. *)
Lemma completion_post (ev st d : string) (letter : Letter) (o : Oracle) (w : World) :
  post ((if ev =? "Completed" then BoldsignWebhook.store_signed_pdf env letter d
         else ret tt)%string ;;;
        (if ev =? "Completed" then BoldsignWebhook.execute_client env letter
         else ret tt)%string ;;;
        BoldsignWebhook.acknowledge [("ok", JBool true); ("status", JStr st)]) o w
    (fun r w' t =>
    r = Ok (json_response 200 [("ok", JBool true); ("status", JStr st)]) /\
    (exists b2 b3 bytes,
       w' = client_effect env o (ev =? "Completed")%string letter
              (when b3 (update_rows (id letter) [(col_signed_pdf_path, storagePath letter)])
                 (when b2 (put_object (storagePath letter) bytes) w)) /\
       (ev <> "Completed" -> b2 = false /\ b3 = false)) /\
    Forall (canonical_for letter) t /\
    (ev = "Completed" ->
       (forall key, nonempty (BOLDSIGN_API_KEY env) = Some key ->
          In (traced (BoldSignDownload d key)) t) /\
       (forall c, nonempty (client_id letter) = Some c ->
          In (traced (UpdateClient c "Executed" (today env))) t /\
          (forall url, nonempty (SLACK_WEBHOOK_URL env) = Some url ->
             exists name matter, In (traced (SlackPost url name matter (today env))) t)))).
Proof.
  destruct (ev =? "Completed")%string eqn:Eev.
  - apply post_bind. eapply post_mono; [apply store_signed_pdf_post|].
    intros r w1 t1 (-> & (b2 & b3 & bytes & ->) & Hc1 & Hd).
    apply post_bind. eapply post_mono; [apply execute_client_post|].
    intros r w2 t2 (-> & -> & Hc2 & Hcl).
    unfold post. cbn.
    split; [reflexivity|]. split; [exists b2, b3, bytes; split; [reflexivity|] |].
    { apply String.eqb_eq in Eev. congruence. }
    split.
    { rewrite app_nil_r. apply Forall_app. split; [exact Hc1 | apply Hc2]. }
    intros _. split.
    + intros key Hk. apply in_or_app. left. auto.
    + intros c Hc. destruct (Hcl c Hc) as [Hin Hsl]. split.
      * apply in_or_app. right. rewrite app_nil_r. exact Hin.
      * intros url Hu. destruct (Hsl url Hu) as (n & m & Hs).
        exists n, m. apply in_or_app. right. rewrite app_nil_r. exact Hs.
  - unfold post. cbn. unfold client_effect.
    split; [reflexivity|]. split; [exists false, false, []; split; [reflexivity | auto] |].
    split; [constructor|].
    intros ->. discriminate.
Qed.

Lemma reconcile_found (ev st d : string) (letter : Letter) (o : Oracle) (w : World) :
  o _ (SelectLettersByDocument d) = NoFault ->
  known_letter w d = Some letter ->
  post (BoldsignWebhook.reconcile env (Some (JStr ev)) st d) o w (fun r w' t =>
    r = Ok (json_response 200 [("ok", JBool true); ("status", JStr st)]) /\
    (exists b2 b3 bytes,
       w' = client_effect env o (ev =? "Completed")%string letter
              (when b3 (update_rows (id letter) [(col_signed_pdf_path, storagePath letter)])
                 (when b2 (put_object (storagePath letter) bytes)
                    (when (negb (broken (o _ (UpdateLetter (id letter) (updateData ev st)))))
                          (update_rows (id letter) (updateData ev st)) w))) /\
       (ev <> "Completed" -> b2 = false /\ b3 = false)) /\
    Forall (canonical_for letter) t /\
    In (traced (UpdateLetter (id letter) (updateData ev st))) t /\
    (forall e, o _ (UpdateLetter (id letter) (updateData ev st)) = Broken e ->
       In (traced (Console error "Failed to update esign_status:" e)) t) /\
    (ev = "Completed" ->
       (forall key, nonempty (BOLDSIGN_API_KEY env) = Some key ->
          In (traced (BoldSignDownload d key)) t) /\
       (forall c, nonempty (client_id letter) = Some c ->
          In (traced (UpdateClient c "Executed" (today env))) t /\
          (forall url, nonempty (SLACK_WEBHOOK_URL env) = Some url ->
             exists name matter, In (traced (SlackPost url name matter (today env))) t)))).
Proof.
  intros Hsel Hknown.
  unfold BoldsignWebhook.reconcile.
  apply post_bind, post_call. cbn [perform fst snd].
  rewrite Hsel. cbn [fst snd]. rewrite (known_letter_select _ _ Hknown).
  cbv beta iota.
  change (BoldsignWebhook.is_completed (Some (JStr ev))) with (ev =? "Completed")%string.
  fold (updateData ev st).
  apply post_bind, post_call.
  assert (Hupd : canonical_for letter (traced (UpdateLetter (id letter) (updateData ev st)))).
  { cbn. split; [reflexivity|]. unfold updateData. intros path.
    destruct (ev =? "Completed")%string; cbn; intuition congruence. }
  destruct (o _ (UpdateLetter (id letter) (updateData ev st))) as [|e] eqn:Eo;
    cbn [perform fst snd broken negb].
  - apply post_bind, post_ret.
    eapply post_mono; [apply completion_post|].
    intros r w' t (-> & (b2 & b3 & bytes & -> & Hb) & Hc & Hcomp).
    split; [reflexivity|]. split; [exists b2, b3, bytes; split; [reflexivity | exact Hb] |].
    split; [cbn; repeat (constructor; [exact I || exact Hupd|]); exact Hc |].
    split; [cbn; auto|]. split; [intros e [=]|].
    intros Hev. destruct (Hcomp Hev) as [Hk Hcl]. split.
    + intros key Hkey. cbn. auto.
    + intros c Hcid. destruct (Hcl c Hcid) as [Hin Hsl]. split; [cbn; auto|].
      intros url Hu. destruct (Hsl url Hu) as (n & m & Hs). exists n, m. cbn. auto.
  - apply post_bind, post_call. cbn [perform fst snd].
    eapply post_mono; [apply completion_post|].
    intros r w' t (-> & (b2 & b3 & bytes & -> & Hb) & Hc & Hcomp).
    split; [reflexivity|]. split; [exists b2, b3, bytes; split; [reflexivity | exact Hb] |].
    split; [cbn; repeat (constructor; [exact I || exact Hupd|]); exact Hc |].
    split; [cbn; auto|]. split; [intros e' [= <-]; cbn; auto|].
    intros Hev. destruct (Hcomp Hev) as [Hk Hcl]. split.
    + intros key Hkey. cbn. auto.
    + intros c Hcid. destruct (Hcl c Hcid) as [Hin Hsl]. split; [cbn; auto|].
      intros url Hu. destruct (Hsl url Hu) as (n & m & Hs). exists n, m. cbn. auto.
Qed.

Lemma reconcile_unknown (et : option JValue) (st d : string) (o : Oracle) (w : World) :
  broken (o _ (SelectLettersByDocument d)) = true \/ known_letter w d = None ->
  post (BoldsignWebhook.reconcile env et st d) o w (fun r w' t =>
    r = Ok (json_response 200
              [("ok", JBool true); ("message", JStr "Document not found in system")]) /\
    w' = w /\
    t = [traced (SelectLettersByDocument d);
         traced (Console warn "No engagement letter found for BoldSign document:" d)]).
Proof.
  intros H. unfold post, BoldsignWebhook.reconcile, known_letter in *.
  cbn. destruct (o _ (SelectLettersByDocument d)); cbn in *.
  - destruct H as [H|H]; [discriminate|].
    destruct (filter (has_document d) (engagement_letters w)); [|discriminate].
    cbn. auto.
  - auto.
Qed.

(** Whatever happens to the calls, reconciliation ends in a 200. *)
Lemma reconcile_acknowledges (ev st d : string) (o : Oracle) (w : World) :
  post (BoldsignWebhook.reconcile env (Some (JStr ev)) st d) o w (fun r _ _ =>
    exists fields, r = Ok (json_response 200 (("ok", JBool true) :: fields))).
Proof.
  destruct (broken (o _ (SelectLettersByDocument d))) eqn:Eb.
  - eapply post_mono; [apply reconcile_unknown; auto|].
    cbn. intros r w' t (-> & _). eauto.
  - destruct (known_letter w d) as [letter|] eqn:Ek.
    + eapply post_mono; [apply reconcile_found with (letter := letter); auto|].
      * destruct (o _ (SelectLettersByDocument d)); [reflexivity | discriminate].
      * cbn. intros r w' t (-> & _). eauto.
    + eapply post_mono; [apply reconcile_unknown; auto|].
      cbn. intros r w' t (-> & _). eauto.
Qed.

(** *** At most one notice *)

Lemma notices_app (t1 t2 : list Traced) : notices (t1 ++ t2) = notices t1 + notices t2.
Proof. unfold notices. rewrite filter_app, length_app. reflexivity. Qed.

Lemma uploads_app (t1 t2 : list Traced) : uploads (t1 ++ t2) = uploads t1 + uploads t2.
Proof. unfold uploads. rewrite filter_app, length_app. reflexivity. Qed.

Lemma downloads_app (t1 t2 : list Traced) :
  downloads (t1 ++ t2) = downloads t1 + downloads t2.
Proof. unfold downloads. rewrite filter_app, length_app. reflexivity. Qed.

Lemma store_sends_no_notice (letter : Letter) (d : string) (o : Oracle) (w : World) :
  notices (trace_of (run (BoldsignWebhook.store_signed_pdf env letter d) o w)) = 0.
Proof. unfold BoldsignWebhook.store_signed_pdf. crunch; reflexivity. Qed.

Lemma notify_slack_once (c : string) (o : Oracle) (w : World) :
  notices (trace_of (run (BoldsignWebhook.notify_slack env c) o w)) <= 1.
Proof. unfold BoldsignWebhook.notify_slack. crunch; auto. Qed.

Lemma execute_client_once (letter : Letter) (o : Oracle) (w : World) :
  notices (trace_of (run (BoldsignWebhook.execute_client env letter) o w)) <= 1.
Proof.
  unfold BoldsignWebhook.execute_client, BoldsignWebhook.notify_slack. crunch; auto.
Qed.

Lemma reconcile_once (et : option JValue) (st d : string) (o : Oracle) (w : World) :
  post (BoldsignWebhook.reconcile env et st d) o w (fun _ _ t => notices t <= 1).
Proof.
  unfold BoldsignWebhook.reconcile.
  apply post_bind, post_call.
  destruct (fst (perform _ _ _)) as [[|letter rest]|e].
  1,3: apply post_bind, post_call; unfold post; cbn; auto.
  apply post_bind, post_call. apply post_bind.
  apply (post_mono _ _ _ (fun r _ t => r = Ok tt /\ notices t = 0)).
  { destruct (fst (perform _ _ _)); unfold post; cbn; auto. }
  intros r w1 t1 [-> Hn1]. apply post_bind.
  apply (post_mono _ _ _ (fun r _ t => r = Ok tt /\ notices t = 0)).
  { destruct (BoldsignWebhook.is_completed et); [|unfold post; cbn; auto].
    split; [apply store_signed_pdf_post | apply store_sends_no_notice]. }
  intros r w2 t2 [-> Hn2]. apply post_bind.
  apply (post_mono _ _ _ (fun r _ t => r = Ok tt /\ notices t <= 1)).
  { destruct (BoldsignWebhook.is_completed et); [|unfold post; cbn; auto].
    split; [apply execute_client_post | apply execute_client_once]. }
  intros r w3 t3 [-> Hn3].
  unfold post. cbn [BoldsignWebhook.acknowledge ret run trace_of snd].
  rewrite !notices_app, Hn1, Hn2. cbn. lia.
Qed.

(** *** Only what is configured *)

Lemma execute_client_quiet (letter : Letter) (o : Oracle) (w : World) :
  let t := trace_of (run (BoldsignWebhook.execute_client env letter) o w) in
  downloads t = 0 /\ uploads t = 0 /\
  (nonempty (SLACK_WEBHOOK_URL env) = None -> notices t = 0).
Proof.
  cbv zeta. split; [|split].
  - unfold BoldsignWebhook.execute_client, BoldsignWebhook.notify_slack. crunch; auto.
  - unfold BoldsignWebhook.execute_client, BoldsignWebhook.notify_slack. crunch; auto.
  - intro Hu. unfold BoldsignWebhook.execute_client, BoldsignWebhook.notify_slack.
    rewrite Hu. crunch; auto.
Qed.

(** Without an API key nothing is downloaded or uploaded, and without a
    Slack URL nothing is posted. *)
Lemma reconcile_only_when_configured (et : option JValue) (st d : string)
      (o : Oracle) (w : World) :
  post (BoldsignWebhook.reconcile env et st d) o w (fun _ _ t =>
    (nonempty (BOLDSIGN_API_KEY env) = None -> downloads t = 0 /\ uploads t = 0) /\
    (nonempty (SLACK_WEBHOOK_URL env) = None -> notices t = 0)).
Proof.
  unfold BoldsignWebhook.reconcile.
  apply post_bind, post_call.
  destruct (fst (perform _ _ _)) as [[|letter rest]|e].
  1,3: apply post_bind, post_call; unfold post; cbn; auto.
  apply post_bind, post_call. apply post_bind.
  apply (post_mono _ _ _ (fun r _ t =>
           r = Ok tt /\ downloads t = 0 /\ uploads t = 0 /\ notices t = 0)).
  { destruct (fst (perform _ _ _)); unfold post; cbn; auto. }
  intros r w1 t1 (-> & Hd1 & Hu1 & Hn1). apply post_bind.
  apply (post_mono _ _ _ (fun r _ t =>
           r = Ok tt /\
           (nonempty (BOLDSIGN_API_KEY env) = None -> downloads t = 0 /\ uploads t = 0) /\
           notices t = 0)).
  { destruct (BoldsignWebhook.is_completed et); [|unfold post; cbn; auto].
    split; [apply store_signed_pdf_post|]. split; [|apply store_sends_no_notice].
    intro Hk. unfold BoldsignWebhook.store_signed_pdf. rewrite Hk. cbn. auto. }
  intros r w2 t2 (-> & Hk2 & Hn2). apply post_bind.
  apply (post_mono _ _ _ (fun r _ t =>
           r = Ok tt /\ downloads t = 0 /\ uploads t = 0 /\
           (nonempty (SLACK_WEBHOOK_URL env) = None -> notices t = 0))).
  { destruct (BoldsignWebhook.is_completed et); [|unfold post; cbn; auto].
    split; [apply execute_client_post | apply execute_client_quiet]. }
  intros r w3 t3 (-> & Hd3 & Hu3 & Hn3).
  unfold post. cbn [BoldsignWebhook.acknowledge ret run trace_of snd].
  rewrite !downloads_app, !uploads_app, !notices_app, Hd1, Hu1, Hn1, Hn2, Hd3, Hu3.
  cbn. split.
  - intro Hk. destruct (Hk2 Hk) as [-> ->]. auto.
  - intro Hu. rewrite (Hn3 Hu). reflexivity.
Qed.

(** A Completed event whose download succeeds uploads what it got. *)
Lemma reconcile_uploads (st d key : string) (letter : Letter) (o : Oracle) (w : World) :
  o _ (SelectLettersByDocument d) = NoFault ->
  known_letter w d = Some letter ->
  nonempty (BOLDSIGN_API_KEY env) = Some key ->
  o _ (BoldSignDownload d key) = NoFault ->
  ok (boldsign w key d) = true ->
  post (BoldsignWebhook.reconcile env (Some (JStr "Completed")) st d) o w (fun _ _ t =>
    In (traced (StorageUpload (storagePath letter) (http_body (boldsign w key d)))) t).
Proof.
  intros Hsel Hknown Hk Hdl Hok.
  unfold BoldsignWebhook.reconcile.
  apply post_bind, post_call. cbn [perform fst snd].
  rewrite Hsel. cbn [fst snd]. rewrite (known_letter_select _ _ Hknown).
  cbv beta iota.
  change (BoldsignWebhook.is_completed (Some (JStr "Completed"))) with true.
  cbv beta iota.
  apply post_bind, post_call. apply post_bind.
  apply (post_mono _ _ _ (fun r w' _ => r = Ok tt /\ boldsign w' = boldsign w)).
  { destruct (o _ (UpdateLetter (id letter)
                     [(col_esign_status, st); (col_approval_status, "Executed")]));
      unfold post; cbn; auto. }
  intros r w1 t1 (-> & Hb1). apply post_bind.
  apply (post_mono _ _ _ (fun r _ t =>
           r = Ok tt /\
           In (traced (StorageUpload (storagePath letter) (http_body (boldsign w key d)))) t)).
  { split; [apply store_signed_pdf_post|].
    unfold BoldsignWebhook.store_signed_pdf. rewrite Hk.
    cbn [await_fetch bind call try_catch run perform trace_of snd]. rewrite Hdl.
    cbn [bind ret try_catch run perform]. rewrite Hb1, Hok.
    crunch; auto. }
  intros r w2 t2 (-> & Hin). apply post_bind.
  eapply post_mono; [apply execute_client_post|].
  intros r w3 t3 (-> & _).
  unfold post. cbn [BoldsignWebhook.acknowledge ret run trace_of snd].
  apply in_or_app. right. apply in_or_app. right. apply in_or_app. right.
  apply in_or_app. left. exact Hin.
Qed.

End WebhookStages.

(** ** Rows after updates *)

Lemma letters_when_put (b : bool) (path : string) (bytes : list byte) (w : World) :
  engagement_letters (when b (put_object path bytes) w) = engagement_letters w.
Proof. destruct b; reflexivity. Qed.

Lemma letters_when_update (b : bool) (i : string) (upd : LetterUpdate) (w : World) :
  engagement_letters (when b (update_rows i upd) w) =
  map (fun l => if b && has_id i l then apply_update upd l else l) (engagement_letters w).
Proof.
  destruct b; cbn [when andb].
  - reflexivity.
  - symmetry. apply map_id.
Qed.

Lemma letters_client_effect (env : Env) (o : Oracle) (b : bool) (letter : Letter) (w : World) :
  engagement_letters (client_effect env o b letter w) = engagement_letters w.
Proof.
  unfold client_effect. destruct b; [|reflexivity].
  destruct (nonempty (client_id letter)); [|reflexivity].
  destruct (negb _); reflexivity.
Qed.

Lemma clients_when_put (b : bool) (path : string) (bytes : list byte) (w : World) :
  clients (when b (put_object path bytes) w) = clients w.
Proof. destruct b; reflexivity. Qed.

Lemma clients_when_update (b : bool) (i : string) (upd : LetterUpdate) (w : World) :
  clients (when b (update_rows i upd) w) = clients w.
Proof. destruct b; reflexivity. Qed.

Lemma apply_update_id (upd : LetterUpdate) (l : Letter) : id (apply_update upd l) = id l.
Proof.
  unfold apply_update. revert l.
  induction upd as [|[c v] upd IH]; intro l; cbn; [reflexivity|].
  rewrite IH. destruct c; reflexivity.
Qed.

Lemma apply_update_client (upd : LetterUpdate) (l : Letter) :
  client_id (apply_update upd l) = client_id l.
Proof.
  unfold apply_update. revert l.
  induction upd as [|[c v] upd IH]; intro l; cbn; [reflexivity|].
  rewrite IH. destruct c; reflexivity.
Qed.

Lemma apply_update_document (upd : LetterUpdate) (l : Letter) :
  boldsign_document_id (apply_update upd l) = boldsign_document_id l.
Proof.
  unfold apply_update. revert l.
  induction upd as [|[c v] upd IH]; intro l; cbn; [reflexivity|].
  rewrite IH. destruct c; reflexivity.
Qed.

Lemma storagePath_update (upd : LetterUpdate) (l : Letter) :
  storagePath (apply_update upd l) = storagePath l.
Proof. unfold storagePath. rewrite apply_update_id, apply_update_client. reflexivity. Qed.

Lemma status_after_event (ev st : string) (l : Letter) :
  esign_status (apply_update (updateData ev st) l) = Some st.
Proof. unfold updateData. destruct (ev =? "Completed")%string; reflexivity. Qed.

Lemma path_after_event (ev st : string) (l : Letter) :
  signed_pdf_path (apply_update (updateData ev st) l) = signed_pdf_path l.
Proof. unfold updateData. destruct (ev =? "Completed")%string; reflexivity. Qed.

Lemma status_after_path (path : string) (l : Letter) :
  esign_status (apply_update [(col_signed_pdf_path, path)] l) = esign_status l.
Proof. reflexivity. Qed.

Lemma filter_map_same {X : Type} (P : X -> bool) (h : X -> X) (xs : list X) :
  (forall x, P (h x) = P x) -> filter P (map h xs) = map h (filter P xs).
Proof.
  intro H. induction xs as [|x xs IH]; cbn; [reflexivity|].
  rewrite H. destruct (P x); cbn; rewrite IH; reflexivity.
Qed.

(** A step that keeps ids and document ids keeps the row each document
    resolves to. *)
Lemma known_letter_map (h : Letter -> Letter) (w w' : World) (d : string) (letter : Letter) :
  (forall l, boldsign_document_id (h l) = boldsign_document_id l) ->
  engagement_letters w' = map h (engagement_letters w) ->
  known_letter w d = Some letter ->
  known_letter w' d = Some (h letter).
Proof.
  intros Hd Hw. unfold known_letter. rewrite Hw, filter_map_same.
  - destruct (filter (has_document d) (engagement_letters w)); cbn; congruence.
  - intro l. unfold has_document. rewrite Hd. reflexivity.
Qed.

Lemma after_event_id b1 b3 ev st letter l : id (after_event b1 b3 ev st letter l) = id l.
Proof.
  unfold after_event.
  repeat match goal with
         | |- context [if ?c then _ else _] => destruct c
         end; rewrite ?apply_update_id; reflexivity.
Qed.

Lemma after_event_document b1 b3 ev st letter l :
  boldsign_document_id (after_event b1 b3 ev st letter l) = boldsign_document_id l.
Proof.
  unfold after_event.
  repeat match goal with
         | |- context [if ?c then _ else _] => destruct c
         end; rewrite ?apply_update_document; reflexivity.
Qed.

Lemma after_event_client b1 b3 ev st letter l :
  client_id (after_event b1 b3 ev st letter l) = client_id l.
Proof.
  unfold after_event.
  repeat match goal with
         | |- context [if ?c then _ else _] => destruct c
         end; rewrite ?apply_update_client; reflexivity.
Qed.

Lemma after_event_status b1 b3 ev st letter l :
  esign_status (after_event b1 b3 ev st letter l) =
  if b1 && has_id (id letter) l then Some st else esign_status l.
Proof.
  unfold after_event.
  destruct (b1 && has_id (id letter) l);
    match goal with
    | |- context [if ?c then _ else _] => destruct c
    end; rewrite ?status_after_path, ?status_after_event; reflexivity.
Qed.

Lemma after_event_path b1 b3 ev st letter l :
  signed_pdf_path (after_event b1 b3 ev st letter l) =
  if b3 && has_id (id letter) l then Some (storagePath letter) else signed_pdf_path l.
Proof.
  unfold after_event, has_id.
  destruct (b1 && (id l =? id letter)%string); rewrite ?apply_update_id;
    destruct (b3 && (id l =? id letter)%string); rewrite ?path_after_event; reflexivity.
Qed.

Lemma after_event_approval b3 ev st letter l :
  has_id (id letter) l = true -> ev = "Completed" ->
  approval_status (after_event true b3 ev st letter l) = Some "Executed".
Proof.
  intros H ->. unfold after_event. rewrite H. cbn [andb].
  destruct (b3 && _); reflexivity.
Qed.

Lemma clients_client_effect (env : Env) (o : Oracle) (b : bool) (letter : Letter)
      (w1 w : World) :
  clients w1 = clients w ->
  clients (client_effect env o b letter w1) = clients (client_effect env o b letter w).
Proof.
  intro H. unfold client_effect. destruct b; [|exact H].
  destruct (nonempty (client_id letter)); [|exact H].
  destruct (negb _); unfold when; [|exact H].
  unfold execute_rows. cbn. rewrite H. reflexivity.
Qed.

(** ** The webhook as a whole *)

Lemma handled_is_mapped (ev : string) :
  BoldsignWebhook.handled (Some (JStr ev)) = true ->
  exists st, BoldsignWebhook.mapEventToStatus ev = Some st.
Proof.
  unfold BoldsignWebhook.handled, BoldsignWebhook.HANDLED_EVENTS,
    BoldsignWebhook.mapEventToStatus. cbn [existsb].
  intro H.
  repeat match goal with
         | |- context [if (ev =? ?x)%string then _ else _] =>
             destruct (ev =? x)%string; [eexists; reflexivity|]
         end.
  discriminate H.
Qed.

Arguments handled_is_mapped : clear implicits.

Section Webhook.

Variable hmac : string -> string -> string.
Variable JSON_parse : string -> Result JValue.
Variable env : Env.

Local Notation "'handler'" := (BoldsignWebhook.handler hmac JSON_parse env).
Local Notation "'classified'" := (Observe.classified hmac JSON_parse env).
Local Notation "'signature_gate'" := (BoldsignWebhook.signature_gate hmac env).

Lemma mapped_is_handled (ev st : string) :
  BoldsignWebhook.mapEventToStatus ev = Some st ->
  BoldsignWebhook.handled (Some (JStr ev)) = true /\ truthy (Some (JStr ev)) = true.
Proof.
  unfold BoldsignWebhook.mapEventToStatus.
  repeat match goal with
         | |- context [if (ev =? ?s)%string then _ else _] =>
             destruct (String.eqb_spec ev s); [subst; intros _; split; reflexivity|]
         end.
  discriminate.
Qed.

Lemma handler_classified (req : Request) (ev st d : string) :
  classified req = Some (ev, st, d) ->
  handler req = serve_catch (BoldsignWebhook.reconcile env (Some (JStr ev)) st d)
              BoldsignWebhook.catch500.
Proof.
  unfold Observe.classified, BoldsignWebhook.handler, BoldsignWebhook.authenticate,
    BoldsignWebhook.classify.
  destruct (method req =? "POST")%string eqn:Em; [|discriminate].
  destruct (method req =? "OPTIONS")%string eqn:Eo.
  { apply String.eqb_eq in Em, Eo. congruence. }
  cbn [negb].
  destruct (signature_gate req); [discriminate|].
  destruct (JSON_parse (raw_body req)) as [payload|]; [|discriminate].
  intros H.
  assert (Hm : member (Some payload) "event" = Ok (prop payload "event")).
  { destruct payload; try reflexivity. discriminate. }
  assert (H' : match BoldsignWebhook.read_eventType (prop payload "event") payload,
                     BoldsignWebhook.read_documentId (prop payload "event") payload with
               | Some (JStr ev), Some doc =>
                   if truthy (Some doc) then
                     match BoldsignWebhook.mapEventToStatus ev, to_string doc with
                     | Some st, Ok d => Some (ev, st, d)
                     | _, _ => None
                     end
                   else None
               | _, _ => None
               end = Some (ev, st, d)).
  { destruct payload; exact H. }
  clear H. rewrite Hm. cbn [lift bind].
  destruct (BoldsignWebhook.read_eventType (prop payload "event") payload)
    as [[| | |ev'| |]|]; try discriminate.
  destruct (BoldsignWebhook.read_documentId (prop payload "event") payload)
    as [doc|]; try discriminate.
  destruct (truthy (Some doc)) eqn:Et; try discriminate.
  destruct (BoldsignWebhook.mapEventToStatus ev') as [st'|] eqn:Emap; try discriminate.
  destruct (to_string doc) as [d'|] eqn:Edoc; try discriminate.
  injection H' as <- <- <-.
  destruct (mapped_is_handled _ Emap) as [Hh Ht].
  rewrite Ht, Hh. reflexivity.
Qed.

Lemma handler_unclassified (req : Request) (o : Oracle) (w : World) :
  classified req = None ->
  world_of (run (handler req) o w) = w /\
  (trace_of (run (handler req) o w) = [] \/
   exists e, trace_of (run (handler req) o w) = [traced (Console error "Webhook error:" e)]).
Proof.
  unfold Observe.classified, BoldsignWebhook.handler, BoldsignWebhook.authenticate,
    BoldsignWebhook.classify.
  destruct (method req =? "OPTIONS")%string; [cbn; auto|].
  destruct (method req =? "POST")%string; cbn [negb]; [|cbn; auto].
  destruct (signature_gate req); [cbn; auto|].
  destruct (JSON_parse (raw_body req)) as [payload|]; [|cbn; eauto].
  destruct payload as [|b|n|s|items|fields].
  1: cbn; eauto.
  all: cbn [member lift bind].
  all: destruct (BoldsignWebhook.read_eventType _ _) as [[| | |ev'| |]|];
    destruct (BoldsignWebhook.read_documentId _ _) as [doc|];
    try (destruct (truthy (Some doc)));
    try (destruct (BoldsignWebhook.mapEventToStatus ev') as [st'|]);
    try (destruct (to_string doc) as [d'|]);
    intros Hx; try discriminate Hx; clear Hx;
    cbn [negb orb]; rewrite ?orb_true_r, ?orb_false_r;
    repeat match goal with
           | |- context [if ?c then _ else _] => destruct c
           end;
    cbn; eauto.
Qed.

(** What a classified event for a known letter does, in one place. *)
Lemma handler_found (req : Request) (ev st d : string) (letter : Letter)
      (o : Oracle) (w : World) :
  classified req = Some (ev, st, d) ->
  o _ (SelectLettersByDocument d) = NoFault ->
  known_letter w d = Some letter ->
  post (handler req) o w (fun r w' t =>
    r = json_response 200 [("ok", JBool true); ("status", JStr st)] /\
    (exists b3,
       engagement_letters w' =
       map (after_event (negb (broken (o _ (UpdateLetter (id letter) (updateData ev st)))))
                        b3 ev st letter)
           (engagement_letters w) /\
       (ev <> "Completed" -> b3 = false)) /\
    clients w' = clients (client_effect env o (ev =? "Completed")%string letter w) /\
    Forall (canonical_for letter) t /\
    In (traced (UpdateLetter (id letter) (updateData ev st))) t /\
    (forall e, o _ (UpdateLetter (id letter) (updateData ev st)) = Broken e ->
       In (traced (Console error "Failed to update esign_status:" e)) t) /\
    (ev = "Completed" ->
       (forall key, nonempty (BOLDSIGN_API_KEY env) = Some key ->
          In (traced (BoldSignDownload d key)) t) /\
       (forall c, nonempty (client_id letter) = Some c ->
          In (traced (UpdateClient c "Executed" (today env))) t /\
          (forall url, nonempty (SLACK_WEBHOOK_URL env) = Some url ->
             exists name matter, In (traced (SlackPost url name matter (today env))) t)))).
Proof.
  intros Hcl Hsel Hknown. rewrite (handler_classified _ Hcl).
  apply post_serve_catch.
  eapply post_mono; [apply reconcile_found; eassumption|].
  intros r w' t (-> & (b2 & b3 & bytes & -> & Hb) & Hc & Hin & Hbr & Hcomp).
  split; [reflexivity|]. split; [|split; [|auto]].
  - exists b3. split; [|apply Hb].
    rewrite letters_client_effect, letters_when_update, letters_when_put,
      letters_when_update, map_map.
    reflexivity.
  - apply clients_client_effect.
    rewrite clients_when_update, clients_when_put, clients_when_update. reflexivity.
Qed.

Lemma handler_unknown (req : Request) (ev st d : string) (o : Oracle) (w : World) :
  classified req = Some (ev, st, d) ->
  broken (o _ (SelectLettersByDocument d)) = true \/ known_letter w d = None ->
  post (handler req) o w (fun r w' t =>
    r = json_response 200
          [("ok", JBool true); ("message", JStr "Document not found in system")] /\
    w' = w /\
    t = [traced (SelectLettersByDocument d);
         traced (Console warn "No engagement letter found for BoldSign document:" d)]).
Proof.
  intros Hcl H. rewrite (handler_classified _ Hcl).
  apply post_serve_catch.
  eapply post_mono; [apply reconcile_unknown; exact H|].
  intros r w' t (-> & -> & ->). auto.
Qed.

Lemma classified_mapped (req : Request) (ev st d : string) :
  classified req = Some (ev, st, d) -> BoldsignWebhook.mapEventToStatus ev = Some st.
Proof.
  unfold Observe.classified.
  destruct (negb (method req =? "POST")%string); [discriminate|].
  destruct (signature_gate req); [discriminate|].
  destruct (JSON_parse (raw_body req)) as [payload|]; [|discriminate].
  destruct payload; try discriminate.
  all: destruct (BoldsignWebhook.read_eventType _ _) as [[| | |ev'| |]|]; try discriminate;
    destruct (BoldsignWebhook.read_documentId _ _) as [doc|]; try discriminate;
    destruct (truthy (Some doc)); try discriminate;
    destruct (BoldsignWebhook.mapEventToStatus ev') as [st'|] eqn:E; try discriminate;
    destruct (to_string doc) as [d'|]; try discriminate;
    intros [= <- <- <-]; exact E.
Qed.

Lemma completed_maps (st : string) :
  BoldsignWebhook.mapEventToStatus "Completed" = Some st -> st = "completed".
Proof. cbv. congruence. Qed.

(** C5.  With a webhook secret configured, a POST whose signature header is
    missing, or differs from the keyed hash of the raw body, is answered
    401 and nothing at all is called: no read, no write, no download, no
    upload, no notice; the world is as it was. *)
Theorem bad_signature_is_rejected_untouched
        (req : Request) (secret : string) (o : Oracle) (w : World) :
  method req = "POST" ->
  BOLDSIGN_WEBHOOK_SECRET env = Some secret ->
  secret <> "" ->
  match x_boldsign_signature req with
  | None => True
  | Some signature => signature <> hmac secret (raw_body req)
  end ->
  code (result_of (run (handler req) o w)) = 401 /\
  world_of (run (handler req) o w) = w /\
  trace_of (run (handler req) o w) = [].
Proof.
  intros Hm Hs Hne Hsig.
  unfold BoldsignWebhook.handler, BoldsignWebhook.authenticate,
    BoldsignWebhook.signature_gate, BoldsignWebhook.verifyWebhookSignature.
  rewrite Hm, Hs. cbn [String.eqb Ascii.eqb Bool.eqb negb nonempty].
  destruct (String.eqb_spec secret ""); [contradiction|].
  destruct (x_boldsign_signature req) as [signature|]; cbn [nonempty].
  - destruct (String.eqb_spec signature ""); [cbn; auto|].
    destruct (String.eqb_spec (hmac secret (raw_body req)) signature) as [E|E].
    + symmetry in E. contradiction.
    + cbn. auto.
  - cbn. auto.
Qed.


Lemma gate_rejects_with_401 (req : Request) (rejection : Response) :
  signature_gate req = Some rejection -> code rejection = 401.
Proof.
  unfold BoldsignWebhook.signature_gate.
  destruct (nonempty (BOLDSIGN_WEBHOOK_SECRET env)); [|discriminate].
  destruct (nonempty (x_boldsign_signature req)).
  - destruct (BoldsignWebhook.verifyWebhookSignature _ _ _ _); [discriminate|].
    intros [= <-]. reflexivity.
  - intros [= <-]. reflexivity.
Qed.

(** Only an array or an object can fail to have a string form. *)
Lemma unprintable_is_truthy (doc : JValue) (e : string) :
  to_string doc = Thrown e -> truthy (Some doc) = true.
Proof.
  destruct doc as [|[]|n|s|items|fields]; intro H; try reflexivity; discriminate H.
Qed.

(** Lines 78-228 for a payload other than [null]. *)
Lemma classify_table (rawBody : string) (payload : JValue) (o : Oracle) (w : World) :
  JSON_parse rawBody = Ok payload ->
  payload <> JNull ->
  let x := run (serve_catch (BoldsignWebhook.classify JSON_parse env rawBody)
                            BoldsignWebhook.catch500) o w in
  match unqueryable payload with
  | Some e =>
      x = (json_response 500 [("error", JStr e)], w, [traced (Console error "Webhook error:" e)])
  | None => exists fields, result_of x = json_response 200 (("ok", JBool true) :: fields)
  end.
Proof.
  intros Hp Hnn. cbv zeta. unfold BoldsignWebhook.classify. rewrite Hp.
  assert (Hm : member (Some payload) "event" = Ok (prop payload "event")).
  { destruct payload; try reflexivity. contradiction. }
  rewrite Hm. unfold unqueryable. cbn [lift bind]. cbv zeta.
  generalize (BoldsignWebhook.read_eventType (prop payload "event") payload).
  generalize (BoldsignWebhook.read_documentId (prop payload "event") payload).
  intros dv et.
  destruct (BoldsignWebhook.handled et) eqn:Eh; cbn [negb].
  2:{ destruct (negb (truthy et) || negb (truthy dv)); cbn; eauto. }
  destruct et as [[| | |ev| |]|]; try discriminate Eh.
  destruct (handled_is_mapped ev Eh) as [st Est].
  destruct (@mapped_is_handled ev st Est) as [_ Ht]. rewrite Ht, Est. cbn [negb orb].
  destruct dv as [doc|]; [|cbn; eauto].
  destruct (to_string doc) as [d|e] eqn:Ed; cbn [lift bind].
  - destruct (truthy (Some doc)); cbn [negb]; [|cbn; eauto].
    apply (post_serve_catch _ _ _ _ (fun r _ _ =>
             exists fields, r = json_response 200 (("ok", JBool true) :: fields))).
    eapply post_mono; [apply reconcile_acknowledges|].
    cbn. intros r _ _ [fs ->]. eauto.
  - rewrite (unprintable_is_truthy _ Ed). reflexivity.
Qed.

(** C8, as the code has it.  The response of the webhook is decided by this
    table: OPTIONS gets a plain 200; any other method but POST gets 405; a
    POST stopped by the signature gate gets 401; a POST whose body is not
    JSON, or is the JSON value [null], or names a handled event with a
    document id that has no string form, lands in the [catch] block and
    gets 500 with the message of the error; every other POST gets 200 with
    a JSON body that starts with [ok: true], whatever the calls it makes
    do. *)
Theorem webhook_status_table (req : Request) (o : Oracle) (w : World) :
  let r := result_of (run (handler req) o w) in
  if (method req =? "OPTIONS")%string then r = mkResponse 200 (Text "ok")
  else if negb (method req =? "POST")%string then
    r = json_response 405 [("error", JStr "Method not allowed")]
  else
    match signature_gate req with
    | Some rejection => r = rejection /\ code r = 401
    | None =>
        match JSON_parse (raw_body req) with
        | Thrown e => r = json_response 500 [("error", JStr e)]
        | Ok JNull =>
            r = json_response 500
                  [("error", JStr "Cannot read properties of null (reading 'event')")]
        | Ok payload =>
            match unqueryable payload with
            | Some e => r = json_response 500 [("error", JStr e)]
            | None => exists fields, r = json_response 200 (("ok", JBool true) :: fields)
            end
        end
    end.
Proof.
  cbv zeta.
  unfold BoldsignWebhook.handler, BoldsignWebhook.authenticate.
  destruct (method req =? "OPTIONS")%string; [reflexivity|].
  destruct (method req =? "POST")%string; cbn [negb]; [|reflexivity].
  destruct (signature_gate req) as [rejection|] eqn:Eg.
  { cbn. split; [reflexivity | apply (gate_rejects_with_401 _ Eg)]. }
  destruct (JSON_parse (raw_body req)) as [payload|e] eqn:Ep.
  2:{ unfold BoldsignWebhook.classify. rewrite Ep. reflexivity. }
  destruct payload as [|b|n|s|items|fields].
  1:{ unfold BoldsignWebhook.classify. rewrite Ep. reflexivity. }
  all: match goal with
       | |- match unqueryable ?p with _ => _ end =>
           assert (Hnn : p <> JNull) by discriminate;
           pose proof (@classify_table _ _ o w Ep Hnn) as H; cbv zeta in H;
           destruct (unqueryable p); [rewrite H; reflexivity | exact H]
       end.
Qed.

(** C10.  When the write of [esign_status] itself fails, the failure is
    logged and nothing else changes course: the rows keep their status, the
    completion steps are still attempted, and the answer is the 200 with
    [ok: true] that every other run for this event and letter gets. *)
Theorem status_update_failure_is_swallowed
        (req : Request) (ev st d e : string) (letter : Letter) (o : Oracle) (w : World) :
  classified req = Some (ev, st, d) ->
  known_letter w d = Some letter ->
  o _ (SelectLettersByDocument d) = NoFault ->
  o _ (UpdateLetter (id letter) (updateData ev st)) = Broken e ->
  let r := result_of (run (handler req) o w) in
  let w' := world_of (run (handler req) o w) in
  let t := trace_of (run (handler req) o w) in
  r = json_response 200 [("ok", JBool true); ("status", JStr st)] /\
  In (traced (Console error "Failed to update esign_status:" e)) t /\
  map esign_status (engagement_letters w') = map esign_status (engagement_letters w) /\
  (ev = "Completed" ->
     (forall key, nonempty (BOLDSIGN_API_KEY env) = Some key ->
        In (traced (BoldSignDownload d key)) t) /\
     (forall c, nonempty (client_id letter) = Some c ->
        In (traced (UpdateClient c "Executed" (today env))) t /\
        (forall url, nonempty (SLACK_WEBHOOK_URL env) = Some url ->
           exists name matter, In (traced (SlackPost url name matter (today env))) t))) /\
  (forall o' : Oracle, o' _ (SelectLettersByDocument d) = NoFault ->
     result_of (run (handler req) o' w) = r).
Proof.
  intros Hcl Hknown Hsel Hupd. cbv zeta.
  pose proof (@handler_found req ev st d letter o w Hcl Hsel Hknown) as H. unfold post in H.
  destruct H as (Hr & (b3 & Hrows & _) & _ & _ & _ & Hlog & Hcomp).
  split; [exact Hr|]. split; [apply Hlog, Hupd|]. split; [|split; [exact Hcomp|]].
  - rewrite Hrows, Hupd, map_map. apply map_ext. intro l.
    rewrite after_event_status. reflexivity.
  - intros o' Hsel'.
    pose proof (@handler_found req ev st d letter o' w Hcl Hsel' Hknown) as H'. unfold post in H'.
    destruct H' as (Hr' & _). congruence.
Qed.

Lemma delivery_overwrites (req : Request) (ev st d : string) (letter : Letter)
      (o : Oracle) (w : World) :
  classified req = Some (ev, st, d) ->
  known_letter w d = Some letter ->
  o _ (SelectLettersByDocument d) = NoFault ->
  o _ (UpdateLetter (id letter) (updateData ev st)) = NoFault ->
  let w' := world_of (run (handler req) o w) in
  (exists letter',
      known_letter w' d = Some letter' /\ id letter' = id letter /\
      esign_status letter' = Some st) /\
  (forall l', In l' (engagement_letters w') -> id l' = id letter ->
              esign_status l' = Some st).
Proof.
  intros Hcl Hknown Hsel Hupd. cbv zeta.
  pose proof (@handler_found req ev st d letter o w Hcl Hsel Hknown) as H. unfold post in H.
  destruct H as (_ & (b3 & Hrows & _) & _).
  rewrite Hupd in Hrows. cbn [broken negb] in Hrows.
  split.
  - exists (after_event true b3 ev st letter letter).
    split; [|split].
    + eapply known_letter_map; [|exact Hrows|exact Hknown].
      intro l. apply after_event_document.
    + apply after_event_id.
    + rewrite after_event_status. unfold has_id. rewrite String.eqb_refl. reflexivity.
  - intros l' Hin Hid. rewrite Hrows in Hin. apply in_map_iff in Hin.
    destruct Hin as (l & <- & _).
    rewrite after_event_id in Hid. rewrite after_event_status.
    unfold has_id. rewrite Hid, String.eqb_refl. reflexivity.
Qed.

(** C2.  A valid, classified event for a known letter sends the update of
    [esign_status] whatever the status was, and once the database has taken
    it the letter carries the new status; so Sent, Completed, Viewed, in
    that order, leave the letter at [viewed]. *)
Theorem last_write_wins :
  (forall (req : Request) (ev st d : string) (letter : Letter) (o : Oracle) (w : World),
      classified req = Some (ev, st, d) ->
      known_letter w d = Some letter ->
      o _ (SelectLettersByDocument d) = NoFault ->
      o _ (UpdateLetter (id letter) (updateData ev st)) = NoFault ->
      In (traced (UpdateLetter (id letter) (updateData ev st)))
         (trace_of (run (handler req) o w)) /\
      (exists letter',
          known_letter (world_of (run (handler req) o w)) d = Some letter' /\
          id letter' = id letter /\ esign_status letter' = Some st) /\
      (forall l', In l' (engagement_letters (world_of (run (handler req) o w))) ->
                  id l' = id letter -> esign_status l' = Some st)) /\
  (forall (sent completed viewed : Request) (d : string) (letter : Letter)
          (o1 o2 o3 : Oracle) (w : World),
      classified sent = Some ("Sent", "sent", d) ->
      classified completed = Some ("Completed", "completed", d) ->
      classified viewed = Some ("Viewed", "viewed", d) ->
      known_letter w d = Some letter ->
      o1 _ (SelectLettersByDocument d) = NoFault ->
      o2 _ (SelectLettersByDocument d) = NoFault ->
      o3 _ (SelectLettersByDocument d) = NoFault ->
      o1 _ (UpdateLetter (id letter) (updateData "Sent" "sent")) = NoFault ->
      o2 _ (UpdateLetter (id letter) (updateData "Completed" "completed")) = NoFault ->
      o3 _ (UpdateLetter (id letter) (updateData "Viewed" "viewed")) = NoFault ->
      exists letter',
        known_letter
          (deliver_all (fun r => handler r) [(sent, o1); (completed, o2); (viewed, o3)] w) d
        = Some letter' /\
        id letter' = id letter /\ esign_status letter' = Some "viewed").
Proof.
  split.
  - intros req ev st d letter o w Hcl Hknown Hsel Hupd.
    split; [|apply (@delivery_overwrites req ev st d letter o w Hcl Hknown Hsel Hupd)].
    pose proof (@handler_found req ev st d letter o w Hcl Hsel Hknown) as H.
    unfold post in H. apply H.
  - intros sent completed viewed d letter o1 o2 o3 w Hs Hc Hv Hknown S1 S2 S3 U1 U2 U3.
    cbn [deliver_all].
    destruct (@delivery_overwrites sent _ _ d letter o1 w Hs Hknown S1 U1)
      as [(l1 & K1 & I1 & _) _].
    rewrite <- I1 in U2.
    destruct (@delivery_overwrites completed _ _ d l1 o2 _ Hc K1 S2 U2)
      as [(l2 & K2 & I2 & _) _].
    rewrite <- I1, <- I2 in U3.
    destruct (@delivery_overwrites viewed _ _ d l2 o3 _ Hv K2 S3 U3)
      as [(l3 & K3 & I3 & E3) _].
    exists l3. split; [exact K3|]. split; [congruence | exact E3].
Qed.

Lemma maps_to_completed (ev : string) :
  BoldsignWebhook.mapEventToStatus ev = Some "completed" -> ev = "Completed".
Proof.
  unfold BoldsignWebhook.mapEventToStatus.
  repeat match goal with
         | |- context [if (ev =? ?s)%string then _ else _] =>
             destruct (String.eqb_spec ev s); [subst; intro H; try discriminate H; reflexivity|]
         end.
  discriminate.
Qed.

(** C1, as the code has it.  A letter whose status is [completed] keeps it
    through any later delivery, except one that is a valid, classified
    event of another type whose document is that very letter's: then the
    status becomes that event's status, which is not [completed].  An event
    for another letter, a redelivered [Completed], and any request that is
    not a classified event leave [completed] alone. *)
Theorem completed_unless_overwritten
        (req : Request) (o : Oracle) (w : World) (i : string) :
  (forall l, In l (engagement_letters w) -> id l = i ->
             esign_status l = Some "completed") ->
  forall l', In l' (engagement_letters (world_of (run (handler req) o w))) -> id l' = i ->
    esign_status l' = Some "completed" \/
    exists ev st d letter,
      classified req = Some (ev, st, d) /\ ev <> "Completed" /\
      known_letter w d = Some letter /\ id letter = i /\
      esign_status l' = Some st /\ st <> "completed".
Proof.
  intros Hall l' Hin Hid.
  destruct (classified req) as [[[ev st] d]|] eqn:Hcl.
  2:{ rewrite (proj1 (handler_unclassified req o w Hcl)) in Hin. left. auto. }
  destruct (o _ (SelectLettersByDocument d)) as [|e] eqn:Hsel.
  2:{ pose proof (@handler_unknown req ev st d o w Hcl) as H. unfold post in H.
      rewrite Hsel in H. destruct (H (or_introl eq_refl)) as (_ & Hw & _).
      rewrite Hw in Hin. left. auto. }
  destruct (known_letter w d) as [letter|] eqn:Hknown.
  2:{ pose proof (@handler_unknown req ev st d o w Hcl (or_intror Hknown)) as H.
      unfold post in H. destruct H as (_ & Hw & _).
      rewrite Hw in Hin. left. auto. }
  pose proof (@handler_found req ev st d letter o w Hcl Hsel Hknown) as H.
  unfold post in H. destruct H as (_ & (b3 & Hrows & _) & _).
  rewrite Hrows in Hin. apply in_map_iff in Hin. destruct Hin as (l & <- & Hl).
  rewrite after_event_id in Hid. rewrite after_event_status.
  destruct (negb _ && has_id (id letter) l) eqn:Eb.
  - destruct (String.eqb_spec ev "Completed") as [->|Hne].
    + left. f_equal. apply completed_maps, (classified_mapped _ Hcl).
    + right. exists ev, st, d, letter.
      apply andb_true_iff in Eb. destruct Eb as [_ Eb].
      unfold has_id in Eb. apply String.eqb_eq in Eb.
      repeat split; auto; [congruence|].
      intros ->. apply Hne, maps_to_completed, (classified_mapped _ Hcl).
  - left. auto.
Qed.

Lemma webhook_notifies_at_most_once (req : Request) (o : Oracle) (w : World) :
  notices (trace_of (run (handler req) o w)) <= 1.
Proof.
  destruct (classified req) as [[[ev st] d]|] eqn:Hcl.
  2:{ destruct (proj2 (handler_unclassified req o w Hcl)) as [->|[e ->]]; cbn; auto. }
  rewrite (handler_classified _ Hcl).
  apply (post_serve_catch _ _ _ _ (fun _ _ t => notices t <= 1)).
  eapply post_mono; [apply reconcile_once|].
  intros [r|e] w' t Hn; [exact Hn|].
  unfold post. cbn. rewrite notices_app. cbn. lia.
Qed.

Lemma webhook_only_when_configured (req : Request) (o : Oracle) (w : World) :
  (nonempty (BOLDSIGN_API_KEY env) = None ->
   downloads (trace_of (run (handler req) o w)) = 0 /\
   uploads (trace_of (run (handler req) o w)) = 0) /\
  (nonempty (SLACK_WEBHOOK_URL env) = None ->
   notices (trace_of (run (handler req) o w)) = 0).
Proof.
  destruct (classified req) as [[[ev st] d]|] eqn:Hcl.
  2:{ destruct (proj2 (handler_unclassified req o w Hcl)) as [->|[e ->]]; cbn; auto. }
  rewrite (handler_classified _ Hcl).
  apply (post_serve_catch _ _ _ _ (fun _ _ t =>
    (nonempty (BOLDSIGN_API_KEY env) = None -> downloads t = 0 /\ uploads t = 0) /\
    (nonempty (SLACK_WEBHOOK_URL env) = None -> notices t = 0))).
  eapply post_mono; [apply reconcile_only_when_configured|].
  intros [r|e] w' t [Hk Hu]; [auto|].
  unfold post. cbn. rewrite downloads_app, uploads_app, notices_app. cbn.
  split; intro H; [destruct (Hk H) as [-> ->] | rewrite (Hu H)]; auto.
Qed.

Lemma notice_counted (c : Traced) (t : list Traced) :
  In c t -> is_notice c = true -> 1 <= notices t.
Proof.
  intros Hin Hc. unfold notices.
  assert (H : In c (filter is_notice t)) by (apply filter_In; auto).
  destruct (filter is_notice t); [contradiction | cbn; lia].
Qed.

(** C4, as the code has it.  A Completed event for a known letter with a
    client sends the update that sets [approval_status] to [Executed],
    sends the client update, and returns 200, whatever fails; the download
    is attempted when a BoldSign API key is configured, and the Slack notice
    when a webhook URL is, and then exactly once.  The updates that the
    database takes leave [Executed] on the letter and on the client, with
    today's date.  Without an API key nothing is downloaded or uploaded, and
    without a webhook URL nothing is posted. *)
Theorem completion_side_effects
        (req : Request) (d c : string) (letter : Letter) (o : Oracle) (w : World) :
  classified req = Some ("Completed", "completed", d) ->
  known_letter w d = Some letter ->
  o _ (SelectLettersByDocument d) = NoFault ->
  client_id letter = Some c ->
  c <> "" ->
  let r := result_of (run (handler req) o w) in
  let w' := world_of (run (handler req) o w) in
  let t := trace_of (run (handler req) o w) in
  r = json_response 200 [("ok", JBool true); ("status", JStr "completed")] /\
  In (traced (UpdateLetter (id letter)
                [(col_esign_status, "completed"); (col_approval_status, "Executed")])) t /\
  In (traced (UpdateClient c "Executed" (today env))) t /\
  (forall key, nonempty (BOLDSIGN_API_KEY env) = Some key ->
     In (traced (BoldSignDownload d key)) t) /\
  (forall url, nonempty (SLACK_WEBHOOK_URL env) = Some url ->
     (exists name matter, In (traced (SlackPost url name matter (today env))) t) /\
     notices t = 1) /\
  (o _ (UpdateLetter (id letter)
          [(col_esign_status, "completed"); (col_approval_status, "Executed")]) = NoFault ->
   forall l', In l' (engagement_letters w') -> id l' = id letter ->
     approval_status l' = Some "Executed" /\ esign_status l' = Some "completed") /\
  (o _ (UpdateClient c "Executed" (today env)) = NoFault ->
   forall c', In c' (clients w') -> cid c' = c ->
     status c' = Some "Executed" /\ letter_executed c' = Some (today env)) /\
  (nonempty (BOLDSIGN_API_KEY env) = None -> downloads t = 0 /\ uploads t = 0) /\
  (nonempty (SLACK_WEBHOOK_URL env) = None -> notices t = 0).
Proof.
  intros Hcl Hknown Hsel Hcid Hne. cbv zeta.
  assert (Hc : nonempty (client_id letter) = Some c).
  { rewrite Hcid. cbn. destruct (String.eqb_spec c ""); [contradiction | reflexivity]. }
  pose proof (@handler_found req _ _ d letter o w Hcl Hsel Hknown) as H.
  unfold post in H.
  destruct H as (Hr & (b3 & Hrows & _) & Hclients & _ & Hin & _ & Hcomp).
  destruct (Hcomp eq_refl) as [Hkey Hcl'].
  destruct (Hcl' c Hc) as [Hup Hslack].
  split; [exact Hr|]. split; [exact Hin|]. split; [exact Hup|]. split; [exact Hkey|].
  split.
  { intros url Hu. split; [exact (Hslack url Hu)|].
    destruct (Hslack url Hu) as (n & m & Hpost).
    pose proof (notice_counted _ _ Hpost eq_refl).
    pose proof (webhook_notifies_at_most_once req o w). lia. }
  split.
  - intros Hu l' Hl' Hid.
    change (updateData "Completed" "completed") with
      [(col_esign_status, "completed"); (col_approval_status, "Executed")] in Hrows.
    rewrite Hu in Hrows. cbn [broken negb] in Hrows.
    rewrite Hrows in Hl'. apply in_map_iff in Hl'. destruct Hl' as (l & <- & _).
    rewrite after_event_id in Hid.
    assert (Hh : has_id (id letter) l = true).
    { unfold has_id. rewrite Hid. apply String.eqb_refl. }
    split.
    + apply after_event_approval; auto.
    + rewrite after_event_status, Hh. reflexivity.
  - split; [|apply webhook_only_when_configured].
    intros Hu c' Hc' Hcid'.
    rewrite Hclients in Hc'. unfold client_effect in Hc'.
    cbn [String.eqb Ascii.eqb Bool.eqb] in Hc'. rewrite Hc, Hu in Hc'.
    cbn in Hc'. apply in_map_iff in Hc'. destruct Hc' as (r0 & <- & _).
    destruct (String.eqb_spec (cid r0) c) as [E|E].
    + cbn. auto.
    + contradiction.
Qed.

Lemma known_letter_in (w : World) (d : string) (letter : Letter) :
  known_letter w d = Some letter -> In letter (engagement_letters w).
Proof.
  unfold known_letter. intro H.
  destruct (filter (has_document d) (engagement_letters w)) as [|l rest] eqn:E;
    [discriminate|].
  injection H as ->.
  assert (Hin : In letter (filter (has_document d) (engagement_letters w))).
  { rewrite E. left. reflexivity. }
  apply filter_In in Hin. apply Hin.
Qed.

Lemma canonical_for_in (w : World) (letter : Letter) (c : Traced) :
  In letter (engagement_letters w) -> canonical_for letter c -> canonical w c.
Proof.
  intros Hin. destruct c as [X c]. destruct c; cbn; auto.
  - intros [-> Hp] path Hpath. exists letter. auto.
  - intros ->. exists letter. auto.
Qed.

(** Every path the webhook writes is the key of a row. *)
Lemma webhook_writes_canonical (req : Request) (o : Oracle) (w : World) :
  Forall (canonical w) (trace_of (run (handler req) o w)).
Proof.
  destruct (classified req) as [[[ev st] d]|] eqn:Hcl.
  2:{ destruct (proj2 (handler_unclassified req o w Hcl)) as [->|[e ->]];
        repeat constructor. }
  destruct (o _ (SelectLettersByDocument d)) as [|e] eqn:Hsel.
  2:{ pose proof (@handler_unknown req ev st d o w Hcl) as H. unfold post in H.
      rewrite Hsel in H. destruct (H (or_introl eq_refl)) as (_ & _ & ->).
      repeat constructor. }
  destruct (known_letter w d) as [letter|] eqn:Hknown.
  2:{ pose proof (@handler_unknown req ev st d o w Hcl (or_intror Hknown)) as H.
      unfold post in H. destruct H as (_ & _ & ->). repeat constructor. }
  pose proof (@handler_found req ev st d letter o w Hcl Hsel Hknown) as H.
  unfold post in H. destruct H as (_ & _ & _ & Hc & _).
  eapply Forall_impl; [|exact Hc].
  intro c. apply canonical_for_in, (known_letter_in _ _ Hknown).
Qed.

(** A Completed event delivered again for a letter whose path is stored
    downloads again, uploads again what it got, and leaves the path as it
    was. *)
Lemma redelivery_keeps_path (req : Request) (d : string) (letter : Letter)
      (o : Oracle) (w : World) :
  classified req = Some ("Completed", "completed", d) ->
  known_letter w d = Some letter ->
  o _ (SelectLettersByDocument d) = NoFault ->
  (forall l, In l (engagement_letters w) -> id l = id letter ->
             signed_pdf_path l = Some (storagePath letter)) ->
  (forall l', In l' (engagement_letters (world_of (run (handler req) o w))) ->
              id l' = id letter -> signed_pdf_path l' = Some (storagePath letter)) /\
  (forall key, nonempty (BOLDSIGN_API_KEY env) = Some key ->
     In (traced (BoldSignDownload d key)) (trace_of (run (handler req) o w))) /\
  (forall key, nonempty (BOLDSIGN_API_KEY env) = Some key ->
     o _ (BoldSignDownload d key) = NoFault ->
     ok (boldsign w key d) = true ->
     In (traced (StorageUpload (storagePath letter) (http_body (boldsign w key d))))
        (trace_of (run (handler req) o w))).
Proof.
  intros Hcl Hknown Hsel Hall.
  pose proof (@handler_found req _ _ d letter o w Hcl Hsel Hknown) as H.
  unfold post in H. destruct H as (_ & (b3 & Hrows & _) & _ & _ & _ & _ & Hcomp).
  split; [|split; [apply (Hcomp eq_refl)|]].
  - intros l' Hin Hid. rewrite Hrows in Hin. apply in_map_iff in Hin.
    destruct Hin as (l & <- & Hl). rewrite after_event_id in Hid.
    rewrite after_event_path. destruct (b3 && _); auto.
  - intros key Hk Hdl Hok. rewrite (handler_classified _ Hcl).
    apply (post_serve_catch _ _ _ _ (fun _ _ t =>
      In (traced (StorageUpload (storagePath letter) (http_body (boldsign w key d)))) t)).
    eapply post_mono;
      [apply (@reconcile_uploads env "completed" d key letter o w); assumption|].
    intros [r|e] w' t Hin; [exact Hin|].
    unfold post. cbn. apply in_or_app. left. exact Hin.
Qed.

End Webhook.

(** ** The on-demand fetch *)

Unset Implicit Arguments.

Arguments FetchSignedDocument.retrieve : simpl never.
Arguments FetchSignedDocumentService.retrieve : simpl never.
Arguments FetchSignedDocumentService.updateData : simpl never.

Lemma storagePath_nonempty (l : Letter) : nonempty (Some (storagePath l)) = Some (storagePath l).
Proof.
  unfold storagePath, nonempty.
  destruct (interpolate (client_id l)); reflexivity.
Qed.

Section Fetch.

Variable JSON_parse : string -> Result JValue.
Variable env : Env.

Local Notation "'gated'" := (FetchSignedDocument.handler JSON_parse env).
Local Notation "'service'" := (FetchSignedDocumentService.handler JSON_parse env).
Local Notation "'fetch_target'" := (Observe.fetch_target JSON_parse).

(** An authorised request gets to the lookup after one call. *)
Lemma with_letter_id_authorized (req : Request) (k : string -> string -> M Response)
      (c : string -> Prog Response) (h i : string) (o : Oracle) (w : World) :
  fetch_target w req = Some (h, i) ->
  o _ (GetUser h) = NoFault ->
  (method req =? "OPTIONS")%string = false /\
  run (serve_catch (FetchCommon.with_letter_id JSON_parse req k) c) o w =
  (result_of (run (serve_catch (k h i) c) o w),
   world_of (run (serve_catch (k h i) c) o w),
   traced (GetUser h) :: trace_of (run (serve_catch (k h i) c) o w)).
Proof.
  unfold Observe.fetch_target, FetchCommon.with_letter_id.
  destruct (method req =? "OPTIONS")%string; [discriminate|].
  destruct (nonempty (authorization req)) as [h'|]; [|discriminate].
  destruct (auth_users w h') as [user|] eqn:Eu; try discriminate.
  destruct (email user) as [e|] eqn:Em; try discriminate.
  destruct (endsWith e "@margolispllc.com") eqn:Ee; [|discriminate].
  destruct (JSON_parse (raw_body req)) as [body|]; try discriminate.
  destruct (destructure body "body" "letterId") as [[[| | |i'| |]|]|] eqn:El;
    try discriminate.
  destruct (i' =? "")%string eqn:Ei; [discriminate|].
  intros [= <- <-] Ho. split; [reflexivity|].
  cbn [bind call serve_catch run perform]. rewrite Ho, Eu.
  rewrite Em, Ee, ?El. cbn [negb lift bind]. rewrite Ei.
  destruct (run (serve_catch (k h' i') c) o w) as [[r w'] t]. reflexivity.
Qed.

Lemma select_single (w : World) (who : Credentials) (i : string) (letter : Letter)
      (o : Oracle) :
  o _ (SelectLetterById who i) = NoFault ->
  single_row w who i = Some letter ->
  perform (SelectLetterById who i) (o _ (SelectLetterById who i)) w = (Data letter, w).
Proof.
  intros Ho. unfold single_row. cbn [perform]. rewrite Ho.
  destruct (filter _ _) as [|l [|l' rest]]; congruence.
Qed.

Lemma gated_run (req : Request) (h i : string) (o : Oracle) (w : World) :
  fetch_target w req = Some (h, i) ->
  o _ (GetUser h) = NoFault ->
  let x := run (serve_catch (FetchSignedDocument.lookup_letter env h i)
                  (fun e => Ret (json_response 500 [("error", JStr e)]))) o w in
  run (gated req) o w = (result_of x, world_of x, traced (GetUser h) :: trace_of x).
Proof.
  intros Ht Ho. destruct (with_letter_id_authorized req
    (FetchSignedDocument.lookup_letter env)
    (fun e => Ret (json_response 500 [("error", JStr e)])) h i o w Ht Ho) as [Hm Hr].
  unfold FetchSignedDocument.handler. rewrite Hm. exact Hr.
Qed.

Lemma service_run (req : Request) (h i : string) (o : Oracle) (w : World) :
  fetch_target w req = Some (h, i) ->
  o _ (GetUser h) = NoFault ->
  let x := run (serve_catch (FetchSignedDocumentService.lookup_letter env h i)
                  (fun e => Do (Console error "fetch-signed-document error:" e)
                               (fun _ => Ret (json_response 500 [("error", JStr e)])))) o w in
  run (service req) o w = (result_of x, world_of x, traced (GetUser h) :: trace_of x).
Proof.
  intros Ht Ho. destruct (with_letter_id_authorized req
    (FetchSignedDocumentService.lookup_letter env)
    (fun e => Do (Console error "fetch-signed-document error:" e)
                 (fun _ => Ret (json_response 500 [("error", JStr e)]))) h i o w Ht Ho)
    as [Hm Hr].
  unfold FetchSignedDocumentService.handler. rewrite Hm. exact Hr.
Qed.

(** C9.  An on-demand retrieval, by an authorised caller, of a letter that
    has neither a stored path nor a BoldSign document id fails with 400 and
    the error that names the missing link, which no other 400 of the
    endpoint carries; it has looked up the caller and the letter and
    called nothing else, so neither BoldSign nor the bucket; the world is
    as it was.  Both revisions of the endpoint. *)
Theorem missing_document_id_is_refused
        (req : Request) (h i : string) (letter : Letter) (o : Oracle) (w : World) :
  fetch_target w req = Some (h, i) ->
  o _ (GetUser h) = NoFault ->
  signed_pdf_path letter = None ->
  boldsign_document_id letter = None ->
  (o _ (SelectLetterById (Caller h) i) = NoFault ->
   single_row w (Caller h) i = Some letter ->
   (exists rest,
       result_of (run (gated req) o w) =
       json_response 400
         (("error", JStr "No BoldSign document linked to this letter") :: rest)) /\
   world_of (run (gated req) o w) = w /\
   trace_of (run (gated req) o w) =
     [traced (GetUser h); traced (SelectLetterById (Caller h) i)] /\
   downloads (trace_of (run (gated req) o w)) = 0 /\
   uploads (trace_of (run (gated req) o w)) = 0) /\
  (o _ (SelectLetterById ServiceRole i) = NoFault ->
   single_row w ServiceRole i = Some letter ->
   (exists rest,
       result_of (run (service req) o w) =
       json_response 400
         (("error", JStr "No BoldSign document linked to this letter") :: rest)) /\
   world_of (run (service req) o w) = w /\
   trace_of (run (service req) o w) =
     [traced (GetUser h); traced (SelectLetterById ServiceRole i)] /\
   downloads (trace_of (run (service req) o w)) = 0 /\
   uploads (trace_of (run (service req) o w)) = 0) /\
  "No BoldSign document linked to this letter" <> "Missing letterId" /\
  "No BoldSign document linked to this letter" <> "Document has not been signed yet".
Proof.
  intros Ht Ho Hp Hd. split; [|split; [|split; discriminate]].
  - intros Hs Hrow. rewrite (gated_run req h i o w Ht Ho). cbv zeta.
    unfold FetchSignedDocument.lookup_letter.
    cbn [bind call serve_catch]. rewrite run_do, (select_single _ _ _ _ _ Hs Hrow).
    cbn [fst snd]. rewrite Hp, Hd. cbn. eauto 6.
  - intros Hs Hrow. rewrite (service_run req h i o w Ht Ho). cbv zeta.
    unfold FetchSignedDocumentService.lookup_letter.
    cbn [bind call serve_catch]. rewrite run_do, (select_single _ _ _ _ _ Hs Hrow).
    cbn [fst snd]. rewrite Hp, Hd. cbn. eauto 6.
Qed.

Lemma gated_summary (req : Request) (o : Oracle) (w : World) :
  (exists h i l bytes,
      fetch_target w req = Some (h, i) /\
      o _ (GetUser h) = NoFault /\
      single_row w (Caller h) i = Some l /\
      result_of (run (gated req) o w) =
        json_response 200 [("ok", JBool true); ("path", JStr (storagePath l))] /\
      world_of (run (gated req) o w) =
        when (negb (broken (o _ (UpdateLetter (id l) [(col_signed_pdf_path, storagePath l)]))))
             (update_rows (id l) [(col_signed_pdf_path, storagePath l)])
             (put_object (storagePath l) bytes w) /\
      uploads (trace_of (run (gated req) o w)) = 1 /\
      downloads (trace_of (run (gated req) o w)) = 1) \/
  (world_of (run (gated req) o w) = w /\
   forall p, result_of (run (gated req) o w) <>
             json_response 200 [("ok", JBool true); ("path", JStr p)]).
Proof.
  unfold FetchSignedDocument.handler, FetchCommon.with_letter_id,
    FetchSignedDocument.lookup_letter, FetchSignedDocument.retrieve.
  crunch.
  all: try (right; split; [reflexivity | intros p; discriminate]).
  all: left;
    match goal with
    | Hs : context [SelectLetterById (Caller ?h) ?i],
      Hl : filter _ _ = [?l],
      Hd : context [BoldSignDownload ?d ?key] |- _ =>
        exists h, i, l, (http_body (boldsign w key d))
    end.
  all: repeat match goal with
              | H : negb _ = false |- _ => apply negb_false_iff in H
              end.
  all: split;
    [ unfold Observe.fetch_target;
      repeat match goal with
             | H : ?x = _ |- context [?x] => rewrite H
             end; reflexivity |].
  all: split; [assumption|].
  all: split;
    [ unfold single_row; cbn [visible];
      match goal with H : filter _ _ = [_] |- _ => rewrite H end; reflexivity |].
  all: split; [reflexivity|].
  all: split;
    [ repeat match goal with
             | H : context [UpdateLetter _ _] |- _ => rewrite H
             end; reflexivity |].
  all: auto.
Qed.

Lemma service_summary (req : Request) (o : Oracle) (w : World) :
  (exists h i l bytes,
      fetch_target w req = Some (h, i) /\
      o _ (GetUser h) = NoFault /\
      single_row w ServiceRole i = Some l /\
      result_of (run (service req) o w) =
        json_response 200 [("ok", JBool true); ("path", JStr (storagePath l))] /\
      world_of (run (service req) o w) =
        when (negb (broken (o _ (UpdateLetter (id l)
                                   (FetchSignedDocumentService.updateData l)))))
             (update_rows (id l) (FetchSignedDocumentService.updateData l))
             (put_object (storagePath l) bytes w) /\
      uploads (trace_of (run (service req) o w)) = 1 /\
      downloads (trace_of (run (service req) o w)) = 1) \/
  (world_of (run (service req) o w) = w /\
   forall p, result_of (run (service req) o w) <>
             json_response 200 [("ok", JBool true); ("path", JStr p)]).
Proof.
  unfold FetchSignedDocumentService.handler, FetchCommon.with_letter_id,
    FetchSignedDocumentService.lookup_letter, FetchSignedDocumentService.retrieve.
  crunch.
  all: try (right; split; [reflexivity | intros p; discriminate]).
  all: left;
    match goal with
    | Hu : context [GetUser ?h],
      Hs : context [SelectLetterById ServiceRole ?i],
      Hl : filter _ _ = [?l],
      Hd : context [BoldSignDownload ?d ?key] |- _ =>
        exists h, i, l, (http_body (boldsign w key d))
    end.
  all: repeat match goal with
              | H : negb _ = false |- _ => apply negb_false_iff in H
              end.
  all: split;
    [ unfold Observe.fetch_target;
      repeat match goal with
             | H : ?x = _ |- context [?x] => rewrite H
             end; reflexivity |].
  all: split; [assumption|].
  all: split;
    [ unfold single_row; cbn [visible];
      match goal with H : filter _ _ = [_] |- _ => rewrite H end; reflexivity |].
  all: split; [reflexivity|].
  all: split;
    [ repeat match goal with
             | H : context [UpdateLetter _ _] |- _ => rewrite H
             end; reflexivity |].
  all: auto.
Qed.

Lemma service_update_path (l l' : Letter) :
  signed_pdf_path (apply_update (FetchSignedDocumentService.updateData l) l') =
  Some (storagePath l).
Proof.
  unfold FetchSignedDocumentService.updateData.
  destruct (esign_status l) as [s|]; [destruct (s =? "completed")%string|]; reflexivity.
Qed.

(** The row [single()] finds after the row was updated by id. *)
Lemma single_row_updated (w : World) (who : Credentials) (i path : string)
      (bytes : list byte) (upd : LetterUpdate) (l : Letter) :
  single_row w who i = Some l ->
  single_row (update_rows (id l) upd (put_object path bytes w)) who i =
  Some (apply_update upd l).
Proof.
  unfold single_row, update_rows, put_object. cbn [engagement_letters set_letters set_bucket].
  intro H.
  rewrite filter_map_same.
  - destruct (filter _ (engagement_letters w)) as [|l0 [|l1 rest]] eqn:E; try discriminate.
    injection H as ->. cbn [map]. unfold has_id at 1. rewrite String.eqb_refl. reflexivity.
  - intro x. unfold has_id at 1 3.
    destruct (has_id (id l) x); rewrite ?apply_update_id; [|reflexivity].
    f_equal. destruct who; cbn; rewrite ?apply_update_id; reflexivity.
Qed.

Lemma gated_short_circuit (req : Request) (h i path : string) (letter : Letter)
      (o : Oracle) (w : World) :
  fetch_target w req = Some (h, i) ->
  o _ (GetUser h) = NoFault ->
  o _ (SelectLetterById (Caller h) i) = NoFault ->
  single_row w (Caller h) i = Some letter ->
  nonempty (signed_pdf_path letter) = Some path ->
  run (gated req) o w =
  (json_response 200
     [("ok", JBool true); ("path", JStr path); ("alreadyStored", JBool true)],
   w,
   [traced (GetUser h); traced (SelectLetterById (Caller h) i)]).
Proof.
  intros Ht Ho Hs Hrow Hp. rewrite (gated_run req h i o w Ht Ho). cbv zeta.
  unfold FetchSignedDocument.lookup_letter.
  cbn [bind call serve_catch]. rewrite run_do, (select_single _ _ _ _ _ Hs Hrow).
  cbn [fst snd]. rewrite Hp. reflexivity.
Qed.

Lemma service_short_circuit (req : Request) (h i path : string) (letter : Letter)
      (o : Oracle) (w : World) :
  fetch_target w req = Some (h, i) ->
  o _ (GetUser h) = NoFault ->
  o _ (SelectLetterById ServiceRole i) = NoFault ->
  single_row w ServiceRole i = Some letter ->
  nonempty (signed_pdf_path letter) = Some path ->
  run (service req) o w =
  (json_response 200
     [("ok", JBool true); ("path", JStr path); ("alreadyStored", JBool true)],
   w,
   [traced (GetUser h); traced (SelectLetterById ServiceRole i)]).
Proof.
  intros Ht Ho Hs Hrow Hp. rewrite (service_run req h i o w Ht Ho). cbv zeta.
  unfold FetchSignedDocumentService.lookup_letter.
  cbn [bind call serve_catch]. rewrite run_do, (select_single _ _ _ _ _ Hs Hrow).
  cbn [fst snd]. rewrite Hp. reflexivity.
Qed.

Lemma gated_twice (req : Request) (o1 o2 : Oracle) (w : World) (p : string) :
  result_of (run (gated req) o1 w) =
    json_response 200 [("ok", JBool true); ("path", JStr p)] ->
  (forall j upd, o1 _ (UpdateLetter j upd) = NoFault) ->
  (forall h, o2 _ (GetUser h) = NoFault) ->
  (forall who i, o2 _ (SelectLetterById who i) = NoFault) ->
  let x1 := run (gated req) o1 w in
  let x2 := run (gated req) o2 (world_of x1) in
  result_of x2 =
    json_response 200
      [("ok", JBool true); ("path", JStr p); ("alreadyStored", JBool true)] /\
  world_of x2 = world_of x1 /\
  uploads (trace_of x1 ++ trace_of x2) = 1 /\
  downloads (trace_of x1 ++ trace_of x2) = 1.
Proof.
  intros Hr Hu Hg Hs. cbv zeta.
  destruct (gated_summary req o1 w)
    as [(h & i & l & bytes & Ht & Ho & Hrow & Hr' & Hw & Hup & Hdl) | [_ Hno]].
  2:{ exfalso. apply (Hno p). exact Hr. }
  rewrite Hr' in Hr. injection Hr as <-.
  rewrite Hu in Hw. cbn [broken negb when] in Hw.
  rewrite uploads_app, downloads_app, Hup, Hdl, Hw.
  rewrite (gated_short_circuit req h i (storagePath l)
             (apply_update [(col_signed_pdf_path, storagePath l)] l) o2 _).
  - cbn. auto.
  - exact Ht.
  - apply Hg.
  - apply Hs.
  - apply single_row_updated. exact Hrow.
  - apply storagePath_nonempty.
Qed.

Lemma service_twice (req : Request) (o1 o2 : Oracle) (w : World) (p : string) :
  result_of (run (service req) o1 w) =
    json_response 200 [("ok", JBool true); ("path", JStr p)] ->
  (forall j upd, o1 _ (UpdateLetter j upd) = NoFault) ->
  (forall h, o2 _ (GetUser h) = NoFault) ->
  (forall who i, o2 _ (SelectLetterById who i) = NoFault) ->
  let x1 := run (service req) o1 w in
  let x2 := run (service req) o2 (world_of x1) in
  result_of x2 =
    json_response 200
      [("ok", JBool true); ("path", JStr p); ("alreadyStored", JBool true)] /\
  world_of x2 = world_of x1 /\
  uploads (trace_of x1 ++ trace_of x2) = 1 /\
  downloads (trace_of x1 ++ trace_of x2) = 1.
Proof.
  intros Hr Hu Hg Hs. cbv zeta.
  destruct (service_summary req o1 w)
    as [(h & i & l & bytes & Ht & Ho & Hrow & Hr' & Hw & Hup & Hdl) | [_ Hno]].
  2:{ exfalso. apply (Hno p). exact Hr. }
  rewrite Hr' in Hr. injection Hr as <-.
  rewrite Hu in Hw. cbn [broken negb when] in Hw.
  rewrite uploads_app, downloads_app, Hup, Hdl, Hw.
  rewrite (service_short_circuit req h i (storagePath l)
             (apply_update (FetchSignedDocumentService.updateData l) l) o2 _).
  - cbn. auto.
  - exact Ht.
  - apply Hg.
  - apply Hs.
  - apply single_row_updated. exact Hrow.
  - rewrite service_update_path. apply storagePath_nonempty.
Qed.

Lemma service_update_names_key (l : Letter) (path : string) :
  In (col_signed_pdf_path, path) (FetchSignedDocumentService.updateData l) ->
  path = storagePath l.
Proof.
  unfold FetchSignedDocumentService.updateData.
  destruct (esign_status l) as [s|]; [destruct (s =? "completed")%string|]; cbn;
    intuition congruence.
Qed.

Lemma single_in (P : Letter -> bool) (ls : list Letter) (l : Letter) :
  filter P ls = [l] -> In l ls.
Proof.
  intro H. assert (Hin : In l (filter P ls)) by (rewrite H; left; reflexivity).
  apply filter_In in Hin. apply Hin.
Qed.

Ltac canonical_leaf :=
  repeat (constructor; [cbn; try exact I|]); try constructor;
  match goal with
  | H : filter _ _ = [?l] |- exists _, _ =>
      exists l; split; [exact (single_in _ _ _ H) | reflexivity]
  | H : filter _ _ = [?l] |- forall _, _ =>
      let Hp := fresh in
      intros ? Hp; exists l; split; [exact (single_in _ _ _ H) | split; [reflexivity|]];
      first [ apply service_update_names_key; exact Hp
            | destruct Hp as [Hp|[]]; congruence ]
  end.

(** Every path the fetch writes is the key of a row. *)
Lemma gated_writes_canonical (req : Request) (o : Oracle) (w : World) :
  Forall (canonical w) (trace_of (run (gated req) o w)).
Proof.
  unfold FetchSignedDocument.handler, FetchCommon.with_letter_id,
    FetchSignedDocument.lookup_letter, FetchSignedDocument.retrieve.
  crunch.
  all: repeat (constructor; [cbn; try exact I|]); try constructor.
  all: canonical_leaf.
Qed.

Lemma service_writes_canonical (req : Request) (o : Oracle) (w : World) :
  Forall (canonical w) (trace_of (run (service req) o w)).
Proof.
  unfold FetchSignedDocumentService.handler, FetchCommon.with_letter_id,
    FetchSignedDocumentService.lookup_letter, FetchSignedDocumentService.retrieve.
  crunch.
  all: repeat (constructor; [cbn; try exact I|]); try constructor.
  all: canonical_leaf.
Qed.

End Fetch.

(** ** Requests in flight together *)

Lemma storagePath_later (l l' : Letter) : row_later l l' -> storagePath l' = storagePath l.
Proof. intros (Hi & Hc & _). unfold storagePath. rewrite Hi, Hc. reflexivity. Qed.

Lemma row_later_refl (l : Letter) : row_later l l.
Proof. unfold row_later. repeat split; auto. Qed.

Lemma row_later_trans (a b c : Letter) : row_later a b -> row_later b c -> row_later a c.
Proof.
  intros Hab Hbc. pose proof (storagePath_later a b Hab) as Hsp.
  destruct Hab as (Hi & Hc & Hd & Hp & Hs). destruct Hbc as (Hi' & Hc' & Hd' & Hp' & Hs').
  unfold row_later. repeat split; try congruence; auto.
  destruct Hp' as [Hp'|Hp']; destruct Hp as [Hp|Hp]; rewrite Hp'; auto;
    right; congruence.
Qed.

Lemma Forall2_refl_on {X : Type} (R : X -> X -> Prop) (xs : list X) :
  (forall x, R x x) -> Forall2 R xs xs.
Proof. intro H. induction xs; constructor; auto. Qed.

Lemma Forall2_trans_on {X : Type} (R : X -> X -> Prop) (xs ys zs : list X) :
  (forall a b c, R a b -> R b c -> R a c) ->
  Forall2 R xs ys -> Forall2 R ys zs -> Forall2 R xs zs.
Proof.
  intros HR Hxy. revert zs. induction Hxy; intros zs Hyz; inversion Hyz; subst;
    constructor; eauto.
Qed.

Lemma later_refl (w : World) : later w w.
Proof.
  unfold later. repeat split; auto. apply Forall2_refl_on, row_later_refl.
Qed.

Lemma later_trans (a b c : World) : later a b -> later b c -> later a c.
Proof.
  intros (Hl & Hb & Hu & Hr) (Hl' & Hb' & Hu' & Hr'). unfold later.
  repeat split; try congruence.
  eapply Forall2_trans_on; [apply row_later_trans | exact Hl | exact Hl'].
Qed.

(** A filter that looks at identity, owner and document only picks the
    same rows before and after. *)
Lemma filter_later (P : Letter -> bool) (ls ls' : list Letter) :
  (forall l l', row_later l l' -> P l' = P l) ->
  Forall2 row_later ls ls' ->
  Forall2 row_later (filter P ls) (filter P ls').
Proof.
  intros HP H. induction H as [|l l' ls ls' Hl Hls IH]; cbn; [constructor|].
  rewrite (HP l l' Hl). destruct (P l); [constructor|]; auto.
Qed.

Lemma has_id_later (i : string) (l l' : Letter) : row_later l l' -> has_id i l' = has_id i l.
Proof. intros (Hi & _). unfold has_id. rewrite Hi. reflexivity. Qed.

Lemma has_document_later (d : string) (l l' : Letter) :
  row_later l l' -> has_document d l' = has_document d l.
Proof. intros (_ & _ & Hd & _). unfold has_document. rewrite Hd. reflexivity. Qed.

Lemma rows_later (w w' : World) (i : string) (l : Letter) :
  later w w' -> rows w i = [l] -> exists l', rows w' i = [l'] /\ row_later l l'.
Proof.
  intros (Hl & _) Hr. unfold rows in *.
  pose proof (filter_later (has_id i) _ _ (has_id_later i) Hl) as H.
  rewrite Hr in H. inversion H as [|? l' ? rest' Hll Hrest Ea Eb]; subst.
  inversion Hrest; subst. exists l'. auto.
Qed.

Lemma known_letter_later (w w' : World) (d : string) (l : Letter) :
  later w w' -> known_letter w d = Some l ->
  exists l', known_letter w' d = Some l' /\ row_later l l'.
Proof.
  intros (Hl & _) Hk. unfold known_letter in *.
  pose proof (filter_later (has_document d) _ _ (has_document_later d) Hl) as H.
  destruct (filter (has_document d) (engagement_letters w)) as [|l0 rest]; [discriminate|].
  injection Hk as ->. inversion H as [|? l' ? rest' Hll Hrest Ea Eb]; subst.
  exists l'. cbn. auto.
Qed.

Lemma single_row_later (w w' : World) (who : Credentials) (i : string) (l : Letter) :
  later w w' -> single_row w who i = Some l ->
  exists l', single_row w' who i = Some l' /\ row_later l l'.
Proof.
  intros (Hl & _ & _ & Hrls) Hs. unfold single_row in *.
  assert (HP : forall a b, row_later a b ->
             has_id i b && visible w' who b = has_id i a && visible w who a).
  { intros a b Hab. rewrite (has_id_later i a b Hab). f_equal.
    destruct who; cbn; [reflexivity|]. rewrite Hrls. destruct Hab as (-> & _). reflexivity. }
  assert (H : Forall2 row_later
                (filter (fun l => has_id i l && visible w who l) (engagement_letters w))
                (filter (fun l => has_id i l && visible w' who l) (engagement_letters w'))).
  { clear Hs. induction Hl as [|a b ls ls' Hab Hls IH]; cbn; [constructor|].
    rewrite (HP a b Hab). destruct (has_id i a && visible w who a); [constructor|]; auto. }
  destruct (filter _ (engagement_letters w)) as [|l0 [|l1 rest]]; try discriminate.
  injection Hs as ->. inversion H as [|? l' ? rest' Hll Hrest Ea Eb]; subst.
  inversion Hrest; subst. exists l'. auto.
Qed.

(** ** Soundness of [tolerant] for [race] *)

Section Race.

Context {A B : Type}.

Lemma tolerant_later (p : Prog A) (Q : A -> World -> Prop) (w w1 : World) :
  tolerant p Q w -> later w w1 -> tolerant p Q w1.
Proof.
  destruct p as [a|X c k]; cbn; intros H L.
  - intros w' L'. apply H. eapply later_trans; eauto.
  - intros w2 L'. apply H. eapply later_trans; eauto.
Qed.

End Race.

Lemma tolerant_run {A : Type} (p : Prog A) (Q : A -> World -> Prop) (w : World) :
  tolerant p Q w ->
  later w (world_of (run p healthy w)) /\
  forall w', later (world_of (run p healthy w)) w' -> Q (result_of (run p healthy w)) w'.
Proof.
  revert w. induction p as [a|X c k IH]; intros w H.
  - cbn in *. split; [apply later_refl|]. exact H.
  - rewrite run_do. cbn [result_of world_of trace_of fst snd].
    cbn [tolerant] in H. destruct (H w (later_refl w)) as [Hstep Hk].
    unfold healthy at 1 2 4 5.
    destruct (IH _ _ Hk) as [Hl HQ]. split; [|exact HQ].
    eapply later_trans; eauto.
Qed.

(** Two tolerant programs that share a world both reach their
    postconditions, whatever the schedule. *)
Lemma race_sound {A B : Type} (sched : list bool) (p : Prog A) (q : Prog B)
      (P : A -> World -> Prop) (Q : B -> World -> Prop) (w : World) :
  tolerant p P w -> tolerant q Q w ->
  P (fst (fst (race sched p q w))) (snd (race sched p q w)) /\
  Q (snd (fst (race sched p q w))) (snd (race sched p q w)).
Proof.
  revert p q w. induction sched as [|[|] rest IH]; intros p q w Hp Hq.
  - cbn [race].
    destruct (tolerant_run p P w Hp) as [Lp HP].
    pose proof (tolerant_later q Q w _ Hq Lp) as Hq'.
    destruct (tolerant_run q Q _ Hq') as [Lq HQ].
    destruct (run p healthy w) as [[a w1] t1]. cbn in *.
    destruct (run q healthy w1) as [[b w2] t2]. cbn in *.
    split; [apply HP, Lq | apply HQ, later_refl].
  - cbn [race]. destruct p as [a|X c k].
    + destruct (tolerant_run q Q w Hq) as [Lq HQ].
      destruct (run q healthy w) as [[b w1] t1]. cbn in *.
      split; [apply Hp, Lq | apply HQ, later_refl].
    + cbn [tolerant] in Hp. destruct (Hp w (later_refl w)) as [Hstep Hk].
      destruct (perform c NoFault w) as [x w1]. cbn [fst snd] in *.
      apply IH; [exact Hk | eapply tolerant_later; eauto].
  - cbn [race]. destruct q as [b|X c k].
    + destruct (tolerant_run p P w Hp) as [Lp HP].
      destruct (run p healthy w) as [[a w1] t1]. cbn in *.
      split; [apply HP, later_refl | apply Hq, Lp].
    + cbn [tolerant] in Hq. destruct (Hq w (later_refl w)) as [Hstep Hk].
      destruct (perform c NoFault w) as [x w1]. cbn [fst snd] in *.
      apply IH; [eapply tolerant_later; eauto | exact Hk].
Qed.

(** ** Each call of the handlers is a [later] change *)

Lemma Forall2_map_on {X : Type} (R : X -> X -> Prop) (f : X -> X) (xs : list X) :
  (forall x, In x xs -> R x (f x)) -> Forall2 R xs (map f xs).
Proof.
  induction xs as [|x xs IH]; intro H; cbn; constructor.
  - apply H. left. reflexivity.
  - apply IH. intros y Hy. apply H. right. exact Hy.
Qed.

Lemma update_later (w : World) (i : string) (upd : LetterUpdate) (l : Letter) :
  rows w i = [l] ->
  row_later l (apply_update upd l) ->
  later w (update_rows i upd w).
Proof.
  intros Hr Hl. unfold later, update_rows. cbn. repeat split; auto.
  apply Forall2_map_on. intros x Hx.
  destruct (has_id i x) eqn:E; [|apply row_later_refl].
  assert (Hin : In x (rows w i)) by (apply filter_In; auto).
  rewrite Hr in Hin. destruct Hin as [<-|[]]. exact Hl.
Qed.

Lemma put_later (w : World) (path : string) (bytes : list byte) :
  later w (put_object path bytes w).
Proof.
  unfold later, put_object. cbn. repeat split; auto.
  apply Forall2_refl_on, row_later_refl.
Qed.

Lemma execute_later (w : World) (c s e : string) : later w (execute_rows c s e w).
Proof.
  unfold later, execute_rows. cbn. repeat split; auto.
  apply Forall2_refl_on, row_later_refl.
Qed.

Lemma completed_row_later (l : Letter) :
  row_later l (apply_update (updateData "Completed" "completed") l).
Proof. unfold row_later, signed_or_completed. cbn. repeat split; auto. Qed.

Lemma path_row_later (l : Letter) :
  row_later l (apply_update [(col_signed_pdf_path, storagePath l)] l).
Proof. unfold row_later. cbn. repeat split; auto. Qed.

Lemma service_row_later (l : Letter) :
  row_later l (apply_update (FetchSignedDocumentService.updateData l) l).
Proof.
  unfold row_later, FetchSignedDocumentService.updateData, signed_or_completed.
  destruct (esign_status l) as [s|] eqn:E.
  - destruct (String.eqb_spec s "completed"); cbn; repeat split; auto.
    rewrite E. auto.
  - cbn. repeat split; auto.
Qed.

Lemma stored_later (w w' : World) (i path : string) :
  stored w i path -> later w w' -> stored w' i path.
Proof.
  intros (l & Hr & Hp & Hs) L.
  destruct (rows_later w w' i l L Hr) as (l' & Hr' & Hll).
  exists l'. split; [exact Hr'|].
  pose proof (storagePath_later l l' Hll) as Hsp.
  destruct Hll as (_ & _ & _ & [Hp'|Hp'] & _); split; congruence.
Qed.

Lemma stored_after_update (w : World) (i : string) (upd : LetterUpdate) (l : Letter) :
  rows w i = [l] ->
  signed_pdf_path (apply_update upd l) = Some (storagePath l) ->
  stored (update_rows i upd w) i (storagePath l).
Proof.
  intros Hr Hp. exists (apply_update upd l). split; [|split].
  - unfold rows, update_rows in *. cbn [engagement_letters set_letters].
    rewrite filter_map_same.
    + rewrite Hr. cbn [map]. 
      assert (Hin : In l (filter (has_id i) (engagement_letters w)))
        by (rewrite Hr; left; reflexivity).
      apply filter_In in Hin. destruct Hin as [_ ->]. reflexivity.
    + intro x. destruct (has_id i x) eqn:E; [|exact E].
      unfold has_id in *. rewrite apply_update_id. exact E.
  - exact Hp.
  - apply storagePath_update.
Qed.

(** ** The push path and the pull path together *)

Section Convergence.

Variable hmac : string -> string -> string.
Variable JSON_parse : string -> Result JValue.
Variable env : Env.

Local Notation "'webhook'" := (BoldsignWebhook.handler hmac JSON_parse env).
Local Notation "'gated'" := (FetchSignedDocument.handler JSON_parse env).
Local Notation "'service'" := (FetchSignedDocumentService.handler JSON_parse env).

Ltac head_normal :=
  cbn [serve_catch bind call try_catch await_fetch ret throw lift tolerant
       BoldsignWebhook.acknowledge perform fst snd].

Ltac head_normal_upto_reply :=
  cbn [serve_catch bind call try_catch await_fetch ret throw lift tolerant
       BoldsignWebhook.acknowledge].

Lemma select_single_healthy (w : World) (who : Credentials) (i : string) (l : Letter) :
  single_row w who i = Some l ->
  perform (SelectLetterById who i) NoFault w = (Data l, w).
Proof. apply (select_single w who i l healthy eq_refl). Qed.

(** The Completed webhook tolerates interference and leaves the PDF
    stored under the letter's key. *)
Lemma webhook_tolerant (req : Request) (d key : string) (letter : Letter) (w0 : World) :
  classified hmac JSON_parse env req = Some ("Completed", "completed", d) ->
  known_letter w0 d = Some letter ->
  rows w0 (id letter) = [letter] ->
  nonempty (BOLDSIGN_API_KEY env) = Some key ->
  ok (boldsign w0 key d) = true ->
  tolerant (webhook req)
    (fun r w' =>
       r = json_response 200 [("ok", JBool true); ("status", JStr "completed")] /\
       stored w' (id letter) (storagePath letter)) w0.
Proof.
  intros Hcl Hk Hr Hkey Hok.
  rewrite (handler_classified _ _ _ _ Hcl).
  unfold BoldsignWebhook.reconcile. head_normal.
  intros w1 L1.
  destruct (known_letter_later _ _ _ _ L1 Hk) as (l1 & Hk1 & Hl1).
  rewrite (known_letter_select _ _ Hk1).
  change (BoldsignWebhook.is_completed (Some (JStr "Completed"))) with true.
  cbv beta iota. split; [apply later_refl|]. head_normal.
  assert (Hid : id l1 = id letter) by apply Hl1.
  assert (Hsp : storagePath l1 = storagePath letter) by (apply storagePath_later, Hl1).
  rewrite Hid.
  (* the status update *)
  intros w2 L2. pose proof (later_trans _ _ _ L1 L2) as L02.
  destruct (rows_later _ _ _ _ L02 Hr) as (l2 & Hr2 & Hl2).
  split; [apply (update_later _ _ _ _ Hr2), completed_row_later|].
  head_normal.
  unfold BoldsignWebhook.store_signed_pdf. rewrite Hkey, Hid, Hsp. head_normal.
  (* the download *)
  intros w3 L3.
  pose proof (later_trans _ _ _ L02
                (later_trans _ _ _ (update_later _ _ _ _ Hr2 (completed_row_later l2)) L3))
    as L03.
  split; [apply later_refl|].
  assert (Hb : boldsign w3 = boldsign w0) by apply L03.
  rewrite Hb, Hok. head_normal.
  (* the upload *)
  intros w4 L4. pose proof (later_trans _ _ _ L03 L4) as L04.
  split; [apply put_later|]. head_normal.
  (* the stored path *)
  intros w5 L5.
  pose proof (later_trans _ _ _ L04 (later_trans _ _ _ (put_later _ _ _) L5)) as L05.
  destruct (rows_later _ _ _ _ L05 Hr) as (l5 & Hr5 & Hl5).
  assert (Hsp5 : storagePath l5 = storagePath letter) by (apply storagePath_later, Hl5).
  assert (Hst : stored (update_rows (id letter) [(col_signed_pdf_path, storagePath letter)] w5)
                       (id letter) (storagePath letter)).
  { rewrite <- Hsp5. apply stored_after_update; [exact Hr5 | reflexivity]. }
  split.
  { apply (update_later _ _ _ _ Hr5). rewrite <- Hsp5. apply path_row_later. }
  head_normal.
  unfold BoldsignWebhook.execute_client.
  destruct (nonempty (client_id l1)) as [c|]; head_normal.
  2:{ intros w6 L6. split; [reflexivity | eapply stored_later; eauto]. }
  (* the client *)
  intros w6 L6. pose proof (stored_later _ _ _ _ Hst L6) as Hst6.
  split; [apply execute_later|]. head_normal.
  unfold BoldsignWebhook.notify_slack.
  destruct (nonempty (SLACK_WEBHOOK_URL env)) as [url|]; head_normal.
  2:{ intros w7 L7. split; [reflexivity|].
      eapply stored_later; [exact Hst6|].
      eapply later_trans; [apply execute_later | exact L7]. }
  (* the Slack notice *)
  intros w7 L7.
  pose proof (stored_later _ _ _ _ Hst6
                (later_trans _ _ _ (execute_later _ _ _ _) L7)) as Hst7.
  split; [apply later_refl|]. head_normal.
  intros w8 L8. pose proof (stored_later _ _ _ _ Hst7 L8) as Hst8.
  split; [apply later_refl|]. head_normal.
  intros w9 L9. split; [reflexivity | eapply stored_later; eauto].
Qed.

Lemma single_row_service (w : World) (l : Letter) :
  rows w (id l) = [l] -> single_row w ServiceRole (id l) = Some l.
Proof.
  unfold rows, single_row. intro H.
  rewrite (filter_ext _ (has_id (id l))), H; [reflexivity|].
  intro x. cbn. apply andb_true_r.
Qed.

Lemma single_row_caller (w : World) (h : string) (l : Letter) :
  rows w (id l) = [l] -> rls_letter w h (id l) = true ->
  single_row w (Caller h) (id l) = Some l.
Proof.
  unfold rows, single_row. intros H Hv.
  rewrite (filter_ext _ (has_id (id l))), H; [reflexivity|].
  intro x. cbn. unfold has_id. destruct (String.eqb_spec (id x) (id l)) as [E|E];
    [rewrite E, Hv|]; reflexivity.
Qed.

Lemma service_update_later (l l' : Letter) :
  storagePath l = storagePath l' ->
  row_later l' (apply_update (FetchSignedDocumentService.updateData l) l').
Proof.
  intro Hsp.
  unfold row_later, FetchSignedDocumentService.updateData, signed_or_completed.
  rewrite Hsp.
  destruct (esign_status l) as [s|]; [destruct (s =? "completed")%string|];
    cbn; repeat split; auto.
Qed.

(** The service-role fetch tolerates interference and answers with the
    letter's key. *)
Lemma service_tolerant (req : Request) (h d key : string) (letter : Letter) (w0 : World) :
  fetch_target JSON_parse w0 req = Some (h, id letter) ->
  rows w0 (id letter) = [letter] ->
  signed_pdf_path letter = None ->
  boldsign_document_id letter = Some d ->
  d <> "" ->
  nonempty (BOLDSIGN_API_KEY env) = Some key ->
  ok (boldsign w0 key d) = true ->
  http_body (boldsign w0 key d) <> [] ->
  tolerant (service req) (fun r _ => fetched (storagePath letter) r) w0.
Proof.
  intros Ht Hr Hp Hd Hne Hkey Hok Hbody.
  pose proof (single_row_service _ _ Hr) as Hs.
  unfold FetchSignedDocumentService.handler, FetchCommon.with_letter_id.
  unfold Observe.fetch_target in Ht.
  destruct (method req =? "OPTIONS")%string; [discriminate|].
  destruct (nonempty (authorization req)) as [h'|]; [|discriminate].
  destruct (auth_users w0 h') as [user|] eqn:Eu; try discriminate.
  destruct (email user) as [e|] eqn:Em; try discriminate.
  destruct (endsWith e "@margolispllc.com") eqn:Ee; [|discriminate].
  destruct (JSON_parse (raw_body req)) as [payload|]; try discriminate.
  destruct (destructure payload "body" "letterId") as [[[| | |i'| |]|]|] eqn:El;
    try discriminate.
  destruct (i' =? "")%string eqn:Ei; [discriminate|].
  injection Ht as -> ->.
  head_normal.
  (* the caller *)
  intros w1 L1.
  assert (Ha : auth_users w1 = auth_users w0) by apply L1.
  rewrite Ha, Eu. cbn [fst snd]. split; [apply later_refl|].
  cbv beta iota. rewrite Em, Ee, ?El.
  cbn [negb lift bind]. rewrite Ei.
  unfold FetchSignedDocumentService.lookup_letter. head_normal_upto_reply.
  (* the letter *)
  intros w2 L2. pose proof (later_trans _ _ _ L1 L2) as L02.
  destruct (single_row_later _ _ _ _ _ L02 Hs) as (l2 & Hs2 & Hl2).
  rewrite (select_single_healthy _ _ _ _ Hs2). cbn [fst snd].
  split; [apply later_refl|].
  assert (Hsp : storagePath l2 = storagePath letter) by (apply storagePath_later, Hl2).
  assert (Hid : id l2 = id letter) by apply Hl2.
  destruct Hl2 as (_ & _ & Hd2 & [Hp2|Hp2] & _).
  2:{ rewrite Hp2, storagePath_nonempty. head_normal.
      intros w3 L3. right. reflexivity. }
  rewrite Hp2, Hp, Hd2, Hd. cbn [nonempty].
  destruct (String.eqb_spec d ""); [contradiction|].
  unfold FetchSignedDocumentService.retrieve. rewrite Hkey, Hid, Hsp. head_normal.
  (* the download *)
  intros w3 L3. split; [apply later_refl|]. head_normal.
  intros w4 L4. pose proof (later_trans _ _ _ L02 (later_trans _ _ _ L3 L4)) as L04.
  split; [apply later_refl|].
  assert (Hb : boldsign w4 = boldsign w0) by apply L04.
  rewrite Hb, Hok. cbn [negb].
  destruct (http_body (boldsign w0 key d)) as [|b0 body] eqn:Eb; [contradiction|].
  cbn [length Nat.eqb]. head_normal.
  intros w5 L5. split; [apply later_refl|]. head_normal.
  (* the upload *)
  intros w6 L6. split; [apply put_later|]. head_normal.
  (* the stored path *)
  intros w7 L7.
  pose proof (later_trans _ _ _ L04
                (later_trans _ _ _ L5
                   (later_trans _ _ _ L6 (later_trans _ _ _ (put_later _ _ _) L7)))) as L07.
  destruct (rows_later _ _ _ _ L07 Hr) as (l7 & Hr7 & Hl7).
  split.
  { apply (update_later _ _ _ _ Hr7), service_update_later.
    rewrite Hsp. symmetry. apply storagePath_later, Hl7. }
  head_normal.
  intros w8 L8. split; [apply later_refl|]. head_normal.
  intros w9 L9. left. reflexivity.
Qed.

(** So does the gated fetch, for a letter that the caller may read: it
    answers with the letter's key, unless it reads the letter while that is
    neither signed nor completed, which can only be if it was neither to
    begin with. *)
Lemma gated_tolerant (req : Request) (h d key : string) (letter : Letter) (w0 : World) :
  fetch_target JSON_parse w0 req = Some (h, id letter) ->
  rows w0 (id letter) = [letter] ->
  rls_letter w0 h (id letter) = true ->
  signed_pdf_path letter = None ->
  boldsign_document_id letter = Some d ->
  d <> "" ->
  nonempty (BOLDSIGN_API_KEY env) = Some key ->
  ok (boldsign w0 key d) = true ->
  tolerant (gated req)
    (fun r _ =>
       fetched (storagePath letter) r \/
       (~ signed_or_completed letter /\
        r = json_response 400 [("error", JStr "Document has not been signed yet")])) w0.
Proof.
  intros Ht Hr Hv Hp Hd Hne Hkey Hok.
  pose proof (single_row_caller _ _ _ Hr Hv) as Hs.
  unfold FetchSignedDocument.handler, FetchCommon.with_letter_id.
  unfold Observe.fetch_target in Ht.
  destruct (method req =? "OPTIONS")%string; [discriminate|].
  destruct (nonempty (authorization req)) as [h'|]; [|discriminate].
  destruct (auth_users w0 h') as [user|] eqn:Eu; try discriminate.
  destruct (email user) as [e|] eqn:Em; try discriminate.
  destruct (endsWith e "@margolispllc.com") eqn:Ee; [|discriminate].
  destruct (JSON_parse (raw_body req)) as [body|]; try discriminate.
  destruct (destructure body "body" "letterId") as [[[| | |i'| |]|]|] eqn:El;
    try discriminate.
  destruct (i' =? "")%string eqn:Ei; [discriminate|].
  injection Ht as -> ->.
  head_normal.
  (* the caller *)
  intros w1 L1.
  assert (Ha : auth_users w1 = auth_users w0) by apply L1.
  rewrite Ha, Eu. cbn [fst snd]. split; [apply later_refl|].
  cbv beta iota. rewrite Em, Ee, ?El.
  cbn [negb lift bind]. rewrite Ei.
  unfold FetchSignedDocument.lookup_letter. head_normal_upto_reply.
  (* the letter *)
  intros w2 L2. pose proof (later_trans _ _ _ L1 L2) as L02.
  destruct (single_row_later _ _ _ _ _ L02 Hs) as (l2 & Hs2 & Hl2).
  rewrite (select_single_healthy _ _ _ _ Hs2). cbn [fst snd].
  split; [apply later_refl|].
  assert (Hsp : storagePath l2 = storagePath letter) by (apply storagePath_later, Hl2).
  assert (Hid : id l2 = id letter) by apply Hl2.
  destruct Hl2 as (_ & _ & Hd2 & [Hp2|Hp2] & Hst2).
  2:{ rewrite Hp2, storagePath_nonempty. head_normal.
      intros w3 L3. left. right. reflexivity. }
  rewrite Hp2, Hp, Hd2, Hd. cbn [nonempty].
  destruct (String.eqb_spec d ""); [contradiction|].
  destruct (match esign_status l2 with
            | Some s => (s =? "completed") || (s =? "signed")
            | None => false
            end%string) eqn:Hgate; cbn [negb].
  2:{ head_normal. intros w3 L3. right. split; [|reflexivity].
      intro Hsigned. destruct (Hst2 Hsigned) as [E|E]; rewrite E in Hgate; discriminate. }
  unfold FetchSignedDocument.retrieve. rewrite Hkey, Hid, Hsp. head_normal.
  (* the download *)
  intros w3 L3. pose proof (later_trans _ _ _ L02 L3) as L03.
  split; [apply later_refl|].
  assert (Hb : boldsign w3 = boldsign w0) by apply L03.
  rewrite Hb, Hok. cbn [negb]. head_normal.
  (* the upload *)
  intros w4 L4. split; [apply put_later|]. head_normal.
  (* the stored path *)
  intros w5 L5.
  pose proof (later_trans _ _ _ L03
                (later_trans _ _ _ L4 (later_trans _ _ _ (put_later _ _ _) L5))) as L05.
  destruct (rows_later _ _ _ _ L05 Hr) as (l5 & Hr5 & Hl5).
  split.
  { apply (update_later _ _ _ _ Hr5).
    rewrite <- (storagePath_later _ _ Hl5). apply path_row_later. }
  head_normal.
  intros w6 L6. left. left. reflexivity.
Qed.

Lemma known_letter_document (w : World) (d : string) (l : Letter) :
  known_letter w d = Some l -> boldsign_document_id l = Some d.
Proof.
  unfold known_letter. intro H.
  destruct (filter (has_document d) (engagement_letters w)) as [|l0 rest] eqn:E;
    [discriminate|].
  injection H as ->.
  assert (Hin : In l (filter (has_document d) (engagement_letters w)))
    by (rewrite E; left; reflexivity).
  apply filter_In in Hin. destruct Hin as [_ Hd]. unfold has_document in Hd.
  destruct (boldsign_document_id l) as [d'|]; [|discriminate].
  apply String.eqb_eq in Hd. congruence.
Qed.

(** The key as the template of line 148 spells it. *)
Local Notation "'key_of' l" :=
  (match client_id l with Some c => c | None => "null" end
     ++ "/" ++ id l ++ "_signed.pdf")%string (at level 10, l at level 9).

(** C6, as the code has it.  The key of a letter is
    [<client_id>/<id>_signed.pdf], with [null] for the client of a letter
    that has none, and every path a handler uploads to or writes on a
    letter, on the push path and on both revisions of the pull path, is the
    key of a row of the table.  When a Completed webhook and a fetch for
    the same letter, with no path stored yet, are in flight together and the
    platform is healthy, then under every schedule the webhook is answered
    200 and the letter ends with exactly its key stored.  The service-role
    fetch is answered 200 with that key.  So is the gated fetch if the
    letter was signed or completed already; if it was not, the gated fetch
    is answered either 200 with that key or, when it reads the letter before
    the webhook has marked it, 400 'Document has not been signed yet'. *)
Theorem deterministic_key_converges :
  (forall l : Letter,
      storagePath l = key_of l) /\
  (forall (req : Request) (o : Oracle) (w : World),
      Forall (canonical w) (trace_of (run (webhook req) o w)) /\
      Forall (canonical w) (trace_of (run (gated req) o w)) /\
      Forall (canonical w) (trace_of (run (service req) o w))) /\
  (forall (sched : list bool) (push pull : Request) (h d key : string)
          (letter : Letter) (w : World),
      classified hmac JSON_parse env push = Some ("Completed", "completed", d) ->
      known_letter w d = Some letter ->
      rows w (id letter) = [letter] ->
      signed_pdf_path letter = None ->
      d <> "" ->
      nonempty (BOLDSIGN_API_KEY env) = Some key ->
      ok (boldsign w key d) = true ->
      fetch_target JSON_parse w pull = Some (h, id letter) ->
      (http_body (boldsign w key d) <> [] ->
       let x := race sched (webhook push) (service pull) w in
       fst (fst x) = json_response 200 [("ok", JBool true); ("status", JStr "completed")] /\
       fetched (key_of letter) (snd (fst x)) /\
       stored (snd x) (id letter) (key_of letter)) /\
      (rls_letter w h (id letter) = true ->
       let x := race sched (webhook push) (gated pull) w in
       fst (fst x) = json_response 200 [("ok", JBool true); ("status", JStr "completed")] /\
       stored (snd x) (id letter) (key_of letter) /\
       (signed_or_completed letter ->
        fetched (key_of letter) (snd (fst x))) /\
       (fetched (key_of letter) (snd (fst x)) \/
        snd (fst x) =
          json_response 400 [("error", JStr "Document has not been signed yet")]))).
Proof.
  split; [reflexivity|]. split.
  - intros req o w. split; [|split].
    + apply webhook_writes_canonical.
    + apply gated_writes_canonical.
    + apply service_writes_canonical.
  - intros sched push pull h d key letter w Hcl Hk Hr Hp Hne Hkey Hok Ht.
    change (key_of letter) with (storagePath letter).
    pose proof (known_letter_document _ _ _ Hk) as Hd.
    pose proof (webhook_tolerant push d key letter w Hcl Hk Hr Hkey Hok) as Hw.
    split.
    + intros Hbody. cbv zeta.
      pose proof (service_tolerant pull h d key letter w Ht Hr Hp Hd Hne Hkey Hok Hbody)
        as Hf.
      destruct (race_sound sched _ _ _ _ w Hw Hf) as [[Ha Hst] Hb]. auto.
    + intros Hv. cbv zeta.
      pose proof (gated_tolerant pull h d key letter w Ht Hr Hv Hp Hd Hne Hkey Hok)
        as Hf.
      destruct (race_sound sched _ _ _ _ w Hw Hf) as [[Ha Hst] Hb].
      split; [exact Ha|]. split; [exact Hst|]. split.
      * intro Hsigned. destruct Hb as [Hb|[Hn _]]; [exact Hb | contradiction].
      * destruct Hb as [Hb|[_ Hb]]; auto.
Qed.

(** C3, as the code has it.  The on-demand fetch is idempotent, in both
    revisions: for a letter whose path is stored it answers with that path
    and [alreadyStored: true] after looking up the caller and the letter,
    and calls nothing else; so a fetch that retrieved and persisted the
    path, followed by another, gives the same path twice, the second time
    with [alreadyStored: true], with one download and one upload in all.
    The webhook has no such check: a Completed event delivered again
    downloads again (and uploads again, to the same key), and the stored
    path stays the letter's key. *)
Theorem fetch_is_idempotent_webhook_rewrites :
  (forall (req : Request) (h i path : string) (letter : Letter) (o : Oracle) (w : World),
      fetch_target JSON_parse w req = Some (h, i) ->
      o _ (GetUser h) = NoFault ->
      nonempty (signed_pdf_path letter) = Some path ->
      (o _ (SelectLetterById (Caller h) i) = NoFault ->
       single_row w (Caller h) i = Some letter ->
       run (gated req) o w =
       (json_response 200
          [("ok", JBool true); ("path", JStr path); ("alreadyStored", JBool true)],
        w, [traced (GetUser h); traced (SelectLetterById (Caller h) i)])) /\
      (o _ (SelectLetterById ServiceRole i) = NoFault ->
       single_row w ServiceRole i = Some letter ->
       run (service req) o w =
       (json_response 200
          [("ok", JBool true); ("path", JStr path); ("alreadyStored", JBool true)],
        w, [traced (GetUser h); traced (SelectLetterById ServiceRole i)]))) /\
  (forall (req : Request) (o1 o2 : Oracle) (w : World) (p : string),
      (forall j upd, o1 _ (UpdateLetter j upd) = NoFault) ->
      (forall h, o2 _ (GetUser h) = NoFault) ->
      (forall who i, o2 _ (SelectLetterById who i) = NoFault) ->
      (result_of (run (gated req) o1 w) =
         json_response 200 [("ok", JBool true); ("path", JStr p)] ->
       let x1 := run (gated req) o1 w in
       let x2 := run (gated req) o2 (world_of x1) in
       result_of x2 =
         json_response 200
           [("ok", JBool true); ("path", JStr p); ("alreadyStored", JBool true)] /\
       world_of x2 = world_of x1 /\
       uploads (trace_of x1 ++ trace_of x2) = 1 /\
       downloads (trace_of x1 ++ trace_of x2) = 1) /\
      (result_of (run (service req) o1 w) =
         json_response 200 [("ok", JBool true); ("path", JStr p)] ->
       let x1 := run (service req) o1 w in
       let x2 := run (service req) o2 (world_of x1) in
       result_of x2 =
         json_response 200
           [("ok", JBool true); ("path", JStr p); ("alreadyStored", JBool true)] /\
       world_of x2 = world_of x1 /\
       uploads (trace_of x1 ++ trace_of x2) = 1 /\
       downloads (trace_of x1 ++ trace_of x2) = 1)) /\
  (forall (req : Request) (d : string) (letter : Letter) (o : Oracle) (w : World),
      classified hmac JSON_parse env req = Some ("Completed", "completed", d) ->
      known_letter w d = Some letter ->
      o _ (SelectLettersByDocument d) = NoFault ->
      (forall l, In l (engagement_letters w) -> id l = id letter ->
                 signed_pdf_path l = Some (storagePath letter)) ->
      (forall l', In l' (engagement_letters (world_of (run (webhook req) o w))) ->
                  id l' = id letter -> signed_pdf_path l' = Some (storagePath letter)) /\
      (forall key, nonempty (BOLDSIGN_API_KEY env) = Some key ->
         In (traced (BoldSignDownload d key)) (trace_of (run (webhook req) o w))) /\
      (forall key, nonempty (BOLDSIGN_API_KEY env) = Some key ->
         o _ (BoldSignDownload d key) = NoFault ->
         ok (boldsign w key d) = true ->
         In (traced (StorageUpload (storagePath letter) (http_body (boldsign w key d))))
            (trace_of (run (webhook req) o w)))).
Proof.
  split; [|split].
  - intros req h i path letter o w Ht Ho Hp. split; intros Hs Hrow.
    + apply (gated_short_circuit JSON_parse env req h i path letter o w); assumption.
    + apply (service_short_circuit JSON_parse env req h i path letter o w); assumption.
  - intros req o1 o2 w p Hu Hg Hs. split; intro Hr.
    + apply (gated_twice JSON_parse env req o1 o2 w p); assumption.
    + apply (service_twice JSON_parse env req o1 o2 w p); assumption.
  - intros req d letter o w Hcl Hk Hsel Hall.
    eapply redelivery_keeps_path; eassumption.
Qed.

End Convergence.

(* ================================================================= *)
(** * Further properties *)

(** ** More of the webhook *)

Section WebhookExact.

Variable env : Env.

Lemma store_returns (letter : Letter) (d : string) (o : Oracle) (w : World) :
  result_of (run (BoldsignWebhook.store_signed_pdf env letter d) o w) = Ok tt.
Proof. exact (proj1 (store_signed_pdf_post env letter d o w)). Qed.

Lemma execute_client_returns (letter : Letter) (o : Oracle) (w : World) :
  result_of (run (BoldsignWebhook.execute_client env letter) o w) = Ok tt.
Proof. exact (proj1 (execute_client_post env letter o w)). Qed.

(** Lines 102-228 for a known letter, as the three stages the source runs
    one after the other. *)
Lemma reconcile_exact (ev st d : string) (letter : Letter) (o : Oracle) (w : World) :
  o _ (SelectLettersByDocument d) = NoFault ->
  known_letter w d = Some letter ->
  let u := UpdateLetter (id letter) (updateData ev st) in
  let w1 := when (negb (broken (o _ u))) (update_rows (id letter) (updateData ev st)) w in
  let s := run (if (ev =? "Completed")%string
                then BoldsignWebhook.store_signed_pdf env letter d else ret tt) o w1 in
  let c := run (if (ev =? "Completed")%string
                then BoldsignWebhook.execute_client env letter else ret tt) o (world_of s) in
  run (BoldsignWebhook.reconcile env (Some (JStr ev)) st d) o w =
  (Ok (json_response 200 [("ok", JBool true); ("status", JStr st)]),
   world_of c,
   traced (SelectLettersByDocument d) :: traced u
     :: update_failure_log (o _ u) ++ trace_of s ++ trace_of c).
Proof.
  intros Hsel Hknown u w1 s c.
  assert (Hs : result_of s = Ok tt).
  { subst s. destruct (ev =? "Completed")%string; [apply store_returns | reflexivity]. }
  assert (Hc : result_of c = Ok tt).
  { subst c. destruct (ev =? "Completed")%string; [apply execute_client_returns | reflexivity]. }
  unfold BoldsignWebhook.reconcile.
  rewrite run_bind, run_call. cbn [result_of world_of trace_of fst snd perform].
  rewrite Hsel. cbn [fst snd]. rewrite (known_letter_select _ _ Hknown).
  cbv beta iota zeta.
  change (BoldsignWebhook.is_completed (Some (JStr ev))) with (ev =? "Completed")%string.
  fold (updateData ev st). fold u.
  rewrite run_bind, run_call. cbn [result_of world_of trace_of fst snd].
  rewrite run_bind.
  match goal with
  | |- context [run ?m o (snd (perform u (o _ u) w))] =>
      assert (Hlog : run m o (snd (perform u (o _ u) w)) =
                     (Ok tt, w1, update_failure_log (o _ u)))
  end.
  { subst w1 u. destruct (o _ (UpdateLetter (id letter) (updateData ev st))); reflexivity. }
  rewrite Hlog. cbn [result_of world_of trace_of fst snd].
  unfold c, s in Hs, Hc |- *. clear c s Hlog.
  destruct (ev =? "Completed")%string.
  - rewrite run_bind, Hs. cbn [result_of world_of trace_of fst snd].
    rewrite run_bind, Hc. cbn. rewrite app_nil_r. reflexivity.
  - reflexivity.
Qed.

End WebhookExact.

Section WebhookStore.

Variable env : Env.

Lemma store_keyless (letter : Letter) (d : string) (o : Oracle) (w : World) :
  nonempty (BOLDSIGN_API_KEY env) = None ->
  run (BoldsignWebhook.store_signed_pdf env letter d) o w = (Ok tt, w, []).
Proof. intro Hk. unfold BoldsignWebhook.store_signed_pdf. rewrite Hk. reflexivity. Qed.

Lemma store_success (letter : Letter) (d key : string) (o : Oracle) (w : World) :
  nonempty (BOLDSIGN_API_KEY env) = Some key ->
  o _ (BoldSignDownload d key) = NoFault ->
  ok (boldsign w key d) = true ->
  o _ (StorageUpload (storagePath letter) (http_body (boldsign w key d))) = NoFault ->
  run (BoldsignWebhook.store_signed_pdf env letter d) o w =
  (Ok tt,
   when (negb (broken (o _ (UpdateLetter (id letter)
                              [(col_signed_pdf_path, storagePath letter)]))))
        (update_rows (id letter) [(col_signed_pdf_path, storagePath letter)])
        (put_object (storagePath letter) (http_body (boldsign w key d)) w),
   [traced (BoldSignDownload d key);
    traced (StorageUpload (storagePath letter) (http_body (boldsign w key d)));
    traced (UpdateLetter (id letter) [(col_signed_pdf_path, storagePath letter)])]).
Proof.
  intros Hk Hd Hok Hu. unfold BoldsignWebhook.store_signed_pdf. rewrite Hk.
  cbn [await_fetch bind call try_catch run perform]. rewrite Hd.
  cbn [bind ret try_catch run perform]. rewrite Hok.
  cbn [bind call try_catch run perform]. rewrite Hu.
  cbn [bind call ret try_catch run perform].
  destruct (o _ (UpdateLetter (id letter) [(col_signed_pdf_path, storagePath letter)]));
    reflexivity.
Qed.

(** Without a usable download or a successful upload nothing is written. *)
Lemma store_failure (letter : Letter) (d key : string) (o : Oracle) (w : World) :
  nonempty (BOLDSIGN_API_KEY env) = Some key ->
  broken (o _ (BoldSignDownload d key)) = true \/
  ok (boldsign w key d) = false \/
  broken (o _ (StorageUpload (storagePath letter) (http_body (boldsign w key d)))) = true ->
  world_of (run (BoldsignWebhook.store_signed_pdf env letter d) o w) = w /\
  forall i upd, ~ In (traced (UpdateLetter i upd))
                     (trace_of (run (BoldsignWebhook.store_signed_pdf env letter d) o w)).
Proof.
  intros Hk H. unfold BoldsignWebhook.store_signed_pdf. rewrite Hk.
  cbn [await_fetch bind call try_catch run perform].
  destruct (o _ (BoldSignDownload d key)) as [|e1].
  2:{ cbn. split; [reflexivity|]. intros i upd [F|[F|[]]]; discriminate F. }
  cbn [bind ret try_catch run perform].
  destruct (ok (boldsign w key d)).
  2:{ cbn. split; [reflexivity|]. intros i upd [F|[F|[]]]; discriminate F. }
  cbn [bind call try_catch run perform].
  destruct (o _ (StorageUpload _ _)) as [|e2].
  { cbn in H. destruct H as [H|[H|H]]; discriminate H. }
  cbn. split; [reflexivity|]. intros i upd [F|[F|[F|[]]]]; discriminate F.
Qed.

Lemma store_no_client_calls (letter : Letter) (d : string) (o : Oracle) (w : World) :
  filter touches_client
         (trace_of (run (BoldsignWebhook.store_signed_pdf env letter d) o w)) = [].
Proof. unfold BoldsignWebhook.store_signed_pdf. crunch; reflexivity. Qed.

Lemma store_keeps_clients (letter : Letter) (d : string) (o : Oracle) (w : World) :
  clients (world_of (run (BoldsignWebhook.store_signed_pdf env letter d) o w)) = clients w.
Proof.
  destruct (store_signed_pdf_post env letter d o w) as (_ & (b2 & b3 & bytes & Hw) & _).
  rewrite Hw, clients_when_update, clients_when_put. reflexivity.
Qed.

End WebhookStore.

Lemma boldsign_when_update (b : bool) (i : string) (upd : LetterUpdate) (w : World) :
  boldsign (when b (update_rows i upd) w) = boldsign w.
Proof. destruct b; reflexivity. Qed.

Lemma bucket_when_update (b : bool) (i : string) (upd : LetterUpdate) (w : World) :
  signed_letters (when b (update_rows i upd) w) = signed_letters w.
Proof. destruct b; reflexivity. Qed.

Lemma bucket_client_effect (env : Env) (o : Oracle) (b : bool) (letter : Letter) (w : World) :
  signed_letters (client_effect env o b letter w) = signed_letters w.
Proof.
  unfold client_effect. destruct b; [|reflexivity].
  destruct (nonempty (client_id letter)); [|reflexivity].
  destruct (negb _); reflexivity.
Qed.

Lemma map_map_same {X Y : Type} (f : X -> Y) (h : X -> X) (xs : list X) :
  (forall x, f (h x) = f x) -> map f (map h xs) = map f xs.
Proof. intro H. rewrite map_map. apply map_ext. exact H. Qed.

Lemma objects_at_put_same (w : World) (key : string) (bytes : list byte) :
  objects_at (put_object key bytes w) key = [bytes].
Proof.
  unfold objects_at, put_object, upsert. cbn [signed_letters set_bucket filter fst].
  rewrite String.eqb_refl. cbn [map snd]. f_equal.
  induction (signed_letters w) as [|[k b] rest IH]; [reflexivity|].
  cbn [filter fst]. destruct (k =? key)%string eqn:E; cbn [negb]; [exact IH|].
  cbn [filter fst]. rewrite E. exact IH.
Qed.

Lemma objects_at_put_other (w : World) (key key' : string) (bytes : list byte) :
  key' <> key -> objects_at (put_object key bytes w) key' = objects_at w key'.
Proof.
  intro Hne. unfold objects_at, put_object, upsert. cbn [signed_letters set_bucket filter fst].
  destruct (String.eqb_spec key key') as [E|_]; [congruence|]. f_equal.
  induction (signed_letters w) as [|[k b] rest IH]; [reflexivity|].
  cbn [filter fst]. destruct (String.eqb_spec k key) as [->|Hk]; cbn [negb].
  - destruct (String.eqb_spec key key') as [E|_]; [congruence | exact IH].
  - cbn [filter fst]. destruct (k =? key')%string; [f_equal|]; exact IH.
Qed.

Section WebhookMore.

Variable hmac : string -> string -> string.
Variable JSON_parse : string -> Result JValue.
Variable env : Env.

Local Notation "'handler'" := (BoldsignWebhook.handler hmac JSON_parse env).
Local Notation "'classified'" := (Observe.classified hmac JSON_parse env).

Lemma handler_completed_exact (req : Request) (st d : string) (letter : Letter)
      (o : Oracle) (w : World) :
  classified req = Some ("Completed", st, d) ->
  o _ (SelectLettersByDocument d) = NoFault ->
  known_letter w d = Some letter ->
  let u := UpdateLetter (id letter) (updateData "Completed" st) in
  let w1 := when (negb (broken (o _ u)))
                 (update_rows (id letter) (updateData "Completed" st)) w in
  let s := run (BoldsignWebhook.store_signed_pdf env letter d) o w1 in
  let c := run (BoldsignWebhook.execute_client env letter) o (world_of s) in
  run (handler req) o w =
  (json_response 200 [("ok", JBool true); ("status", JStr st)],
   world_of c,
   traced (SelectLettersByDocument d) :: traced u
     :: update_failure_log (o _ u) ++ trace_of s ++ trace_of c).
Proof.
  intros Hcl Hsel Hknown. rewrite (handler_classified _ _ _ _ Hcl).
  rewrite run_serve_catch.
  rewrite (reconcile_exact env "Completed" st d letter o w Hsel Hknown).
  reflexivity.
Qed.

Lemma handler_other_exact (req : Request) (ev st d : string) (letter : Letter)
      (o : Oracle) (w : World) :
  classified req = Some (ev, st, d) ->
  ev <> "Completed" ->
  o _ (SelectLettersByDocument d) = NoFault ->
  known_letter w d = Some letter ->
  run (handler req) o w =
  (json_response 200 [("ok", JBool true); ("status", JStr st)],
   when (negb (broken (o _ (UpdateLetter (id letter) [(col_esign_status, st)]))))
        (update_rows (id letter) [(col_esign_status, st)]) w,
   traced (SelectLettersByDocument d)
     :: traced (UpdateLetter (id letter) [(col_esign_status, st)])
     :: update_failure_log (o _ (UpdateLetter (id letter) [(col_esign_status, st)]))).
Proof.
  intros Hcl Hev Hsel Hknown. rewrite (handler_classified _ _ _ _ Hcl).
  rewrite run_serve_catch.
  rewrite (reconcile_exact env ev st d letter o w Hsel Hknown).
  unfold updateData.
  destruct (String.eqb_spec ev "Completed") as [E|_]; [contradiction|].
  cbn. rewrite app_nil_r. reflexivity.
Qed.

(** X1.  A classified event other than [Completed], for a known
    letter, makes two calls, the lookup and one update that names the
    status column alone (and logs if that update fails): nothing is
    downloaded, stored or sent, and approval status, stored path, clients
    and bucket are as they were. *)
Theorem other_events_write_only_the_status
        (req : Request) (ev st d : string) (letter : Letter) (o : Oracle) (w : World) :
  classified req = Some (ev, st, d) ->
  ev <> "Completed" ->
  o _ (SelectLettersByDocument d) = NoFault ->
  known_letter w d = Some letter ->
  let x := run (handler req) o w in
  trace_of x =
    traced (SelectLettersByDocument d)
      :: traced (UpdateLetter (id letter) [(col_esign_status, st)])
      :: update_failure_log (o _ (UpdateLetter (id letter) [(col_esign_status, st)])) /\
  downloads (trace_of x) = 0 /\
  uploads (trace_of x) = 0 /\
  filter touches_client (trace_of x) = [] /\
  clients (world_of x) = clients w /\
  signed_letters (world_of x) = signed_letters w /\
  map approval_status (engagement_letters (world_of x)) =
    map approval_status (engagement_letters w) /\
  map signed_pdf_path (engagement_letters (world_of x)) =
    map signed_pdf_path (engagement_letters w).
Proof.
  intros Hcl Hev Hsel Hknown x. subst x.
  rewrite (handler_other_exact req ev st d letter o w Hcl Hev Hsel Hknown).
  cbn [trace_of world_of fst snd].
  split; [reflexivity|].
  split; [destruct (o _ (UpdateLetter _ _)); reflexivity|].
  split; [destruct (o _ (UpdateLetter _ _)); reflexivity|].
  split; [destruct (o _ (UpdateLetter _ _)); reflexivity|].
  split; [apply clients_when_update|].
  split; [apply bucket_when_update|].
  rewrite letters_when_update.
  split; apply map_map_same; intro l; destruct (_ && _); reflexivity.
Qed.

(** X2.  A [Completed] event for a letter that has no client
    ([client_id] null or empty) updates no client row and sends no notice.
    The letter is still marked, and what is stored for a letter whose
    [client_id] is null goes under the folder named [null]. *)
Theorem completion_without_client
        (req : Request) (st d : string) (letter : Letter) (o : Oracle) (w : World) :
  classified req = Some ("Completed", st, d) ->
  o _ (SelectLettersByDocument d) = NoFault ->
  known_letter w d = Some letter ->
  nonempty (client_id letter) = None ->
  let x := run (handler req) o w in
  result_of x = json_response 200 [("ok", JBool true); ("status", JStr st)] /\
  filter touches_client (trace_of x) = [] /\
  clients (world_of x) = clients w /\
  In (traced (UpdateLetter (id letter)
                [(col_esign_status, st); (col_approval_status, "Executed")]))
     (trace_of x) /\
  (client_id letter = None ->
   forall path bytes, In (traced (StorageUpload path bytes)) (trace_of x) ->
                      path = ("null/" ++ id letter ++ "_signed.pdf")%string).
Proof.
  intros Hcl Hsel Hknown Hnone x.
  pose proof (handler_found hmac JSON_parse env req o w Hcl Hsel Hknown) as Hf.
  unfold post in Hf. fold x in Hf.
  destruct Hf as (_ & _ & _ & Hcan & _).
  subst x.
  rewrite (handler_completed_exact req st d letter o w Hcl Hsel Hknown) in Hcan |- *.
  cbn [result_of trace_of world_of fst snd] in Hcan |- *.
  assert (Hc : run (BoldsignWebhook.execute_client env letter) o
                   (world_of (run (BoldsignWebhook.store_signed_pdf env letter d) o
                      (when (negb (broken (o _ (UpdateLetter (id letter)
                                                  (updateData "Completed" st)))))
                            (update_rows (id letter) (updateData "Completed" st)) w))) =
               (Ok tt,
                world_of (run (BoldsignWebhook.store_signed_pdf env letter d) o
                      (when (negb (broken (o _ (UpdateLetter (id letter)
                                                  (updateData "Completed" st)))))
                            (update_rows (id letter) (updateData "Completed" st)) w)),
                [])).
  { unfold BoldsignWebhook.execute_client. rewrite Hnone. reflexivity. }
  rewrite Hc in Hcan |- *. cbn [trace_of world_of fst snd] in Hcan |- *.
  rewrite app_nil_r in Hcan |- *.
  split; [reflexivity|].
  split.
  { cbn [filter touches_client]. rewrite filter_app, store_no_client_calls, app_nil_r.
    destruct (o _ (UpdateLetter _ _)); reflexivity. }
  split; [rewrite store_keeps_clients; apply clients_when_update|].
  split; [right; left; reflexivity|].
  intros Hnull path bytes Hin.
  rewrite Forall_forall in Hcan. specialize (Hcan _ Hin). cbn in Hcan.
  rewrite Hcan. unfold storagePath. rewrite Hnull. reflexivity.
Qed.

(** X3.  When a [Completed] event's download succeeds and the
    upload is accepted, the bucket holds, under the letter's key, exactly
    the bytes BoldSign returned, and nothing else in the bucket has changed;
    if the path update goes through as well, every row of the letter
    carries that key. *)
Theorem completed_event_stores_the_download
        (req : Request) (st d key : string) (letter : Letter) (o : Oracle) (w : World) :
  classified req = Some ("Completed", st, d) ->
  o _ (SelectLettersByDocument d) = NoFault ->
  known_letter w d = Some letter ->
  nonempty (BOLDSIGN_API_KEY env) = Some key ->
  o _ (BoldSignDownload d key) = NoFault ->
  ok (boldsign w key d) = true ->
  o _ (StorageUpload (storagePath letter) (http_body (boldsign w key d))) = NoFault ->
  let w' := world_of (run (handler req) o w) in
  signed_letters w' =
    upsert (storagePath letter) (http_body (boldsign w key d)) (signed_letters w) /\
  objects_at w' (storagePath letter) = [http_body (boldsign w key d)] /\
  (forall other, other <> storagePath letter -> objects_at w' other = objects_at w other) /\
  (o _ (UpdateLetter (id letter) [(col_signed_pdf_path, storagePath letter)]) = NoFault ->
   forall l, In l (engagement_letters w') -> id l = id letter ->
             signed_pdf_path l = Some (storagePath letter)).
Proof.
  intros Hcl Hsel Hknown Hkey Hdl Hok Hup w'. subst w'.
  rewrite (handler_completed_exact req st d letter o w Hcl Hsel Hknown).
  cbn [world_of fst snd].
  set (u := UpdateLetter (id letter) (updateData "Completed" st)).
  set (w1 := when (negb (broken (o _ u)))
                  (update_rows (id letter) (updateData "Completed" st)) w).
  assert (Hb : boldsign w1 = boldsign w) by apply boldsign_when_update.
  rewrite <- Hb in Hok, Hup.
  rewrite (store_success env letter d key o w1 Hkey Hdl Hok Hup).
  cbn [world_of fst snd].
  destruct (execute_client_post env letter o
              (when (negb (broken (o _ (UpdateLetter (id letter)
                                         [(col_signed_pdf_path, storagePath letter)]))))
                    (update_rows (id letter) [(col_signed_pdf_path, storagePath letter)])
                    (put_object (storagePath letter) (http_body (boldsign w1 key d)) w1)))
    as (_ & Hw & _).
  rewrite Hw. clear Hw. rewrite Hb.
  assert (Hbucket :
    signed_letters
      (client_effect env o true letter
         (when (negb (broken (o _ (UpdateLetter (id letter)
                                    [(col_signed_pdf_path, storagePath letter)]))))
               (update_rows (id letter) [(col_signed_pdf_path, storagePath letter)])
               (put_object (storagePath letter) (http_body (boldsign w key d)) w1))) =
    signed_letters (put_object (storagePath letter) (http_body (boldsign w key d)) w)).
  { rewrite bucket_client_effect, bucket_when_update. unfold put_object.
    cbn [signed_letters set_bucket]. subst w1. rewrite bucket_when_update. reflexivity. }
  split; [rewrite Hbucket; reflexivity|].
  split; [unfold objects_at; rewrite Hbucket; apply objects_at_put_same|].
  split.
  { intros other Hne. unfold objects_at. rewrite Hbucket.
    apply objects_at_put_other. exact Hne. }
  intros Hpath l Hin Hid. rewrite Hpath in Hin. cbn [broken negb] in Hin.
  rewrite letters_client_effect in Hin. unfold when at 1 in Hin.
  unfold update_rows at 1 in Hin. cbn [engagement_letters set_letters] in Hin.
  apply in_map_iff in Hin. destruct Hin as (l0 & <- & _).
  unfold has_id in *. destruct (id l0 =? id letter)%string eqn:E.
  - reflexivity.
  - apply String.eqb_neq in E. contradiction.
Qed.

End WebhookMore.

Section WebhookMore2.

Variable hmac : string -> string -> string.
Variable JSON_parse : string -> Result JValue.
Variable env : Env.

Local Notation "'handler'" := (BoldsignWebhook.handler hmac JSON_parse env).
Local Notation "'classified'" := (Observe.classified hmac JSON_parse env).

(** X4.  When the artifact of a [Completed] event cannot be had (no
    API key, the download throws or is refused, or the upload is refused),
    the bucket and every stored path stay as they were and no path update is
    sent; the letter is still marked and the answer is still the 200. *)
Theorem failed_retrieval_stores_nothing
        (req : Request) (st d : string) (letter : Letter) (o : Oracle) (w : World) :
  classified req = Some ("Completed", st, d) ->
  o _ (SelectLettersByDocument d) = NoFault ->
  known_letter w d = Some letter ->
  (nonempty (BOLDSIGN_API_KEY env) = None \/
   exists key,
     nonempty (BOLDSIGN_API_KEY env) = Some key /\
     (broken (o _ (BoldSignDownload d key)) = true \/
      ok (boldsign w key d) = false \/
      broken (o _ (StorageUpload (storagePath letter) (http_body (boldsign w key d)))) = true)) ->
  let x := run (handler req) o w in
  result_of x = json_response 200 [("ok", JBool true); ("status", JStr st)] /\
  signed_letters (world_of x) = signed_letters w /\
  map signed_pdf_path (engagement_letters (world_of x)) =
    map signed_pdf_path (engagement_letters w) /\
  (forall i path, ~ In (traced (UpdateLetter i [(col_signed_pdf_path, path)])) (trace_of x)) /\
  In (traced (UpdateLetter (id letter)
                [(col_esign_status, st); (col_approval_status, "Executed")]))
     (trace_of x).
Proof.
  intros Hcl Hsel Hknown Hfail x. subst x.
  rewrite (handler_completed_exact hmac JSON_parse env req st d letter o w Hcl Hsel Hknown).
  cbn [result_of world_of trace_of fst snd].
  set (u := UpdateLetter (id letter) (updateData "Completed" st)).
  set (w1 := when (negb (broken (o _ u)))
                  (update_rows (id letter) (updateData "Completed" st)) w).
  assert (Hb : boldsign w1 = boldsign w) by apply boldsign_when_update.
  assert (Hs : world_of (run (BoldsignWebhook.store_signed_pdf env letter d) o w1) = w1 /\
               forall i upd,
                 ~ In (traced (UpdateLetter i upd))
                      (trace_of (run (BoldsignWebhook.store_signed_pdf env letter d) o w1))).
  { destruct Hfail as [Hk|(key & Hk & Hf)].
    - rewrite (store_keyless env letter d o w1 Hk). split; [reflexivity|]. intros i upd [].
    - apply (store_failure env letter d key o w1 Hk). rewrite Hb. exact Hf. }
  destruct Hs as [Hsw Hst]. rewrite Hsw.
  destruct (execute_client_post env letter o w1) as (_ & Hw & _).
  rewrite Hw.
  split; [reflexivity|].
  split; [rewrite bucket_client_effect; apply bucket_when_update|].
  split.
  { rewrite letters_client_effect. unfold w1. rewrite letters_when_update.
    apply map_map_same. intro l. destruct (_ && _); [|reflexivity].
    apply path_after_event. }
  split; [|right; left; reflexivity].
  intros i path [F|[F|Hin]]; [discriminate F | discriminate F |].
  apply in_app_or in Hin. destruct Hin as [Hin|Hin].
  { destruct (o _ u); cbn in Hin; [contradiction|]. destruct Hin as [F|[]]. discriminate F. }
  apply in_app_or in Hin. destruct Hin as [Hin|Hin]; [exact (Hst _ _ Hin)|].
  unfold BoldsignWebhook.execute_client, BoldsignWebhook.notify_slack in Hin.
  revert Hin. generalize w1. intro w2. clear.
  crunch; intuition discriminate.
Qed.

(** X5.  A classified event whose document id matches no letter, or whose
    lookup fails, is acknowledged with 200 and the message 'Document not
    found in system'; the handler has made the lookup, under the string
    form of the id, logged one warning, and written nothing, whatever the
    event type.  A handled event whose document id has no string form (an
    object with a [toString] property of its own, or an array that holds
    one) gets no lookup at all: building the query throws, the error is
    logged and the answer is 500. *)
Theorem unknown_document_is_acknowledged :
  (forall (req : Request) (ev st d : string) (o : Oracle) (w : World),
      classified req = Some (ev, st, d) ->
      (broken (o _ (SelectLettersByDocument d)) = true \/
       forall l, In l (engagement_letters w) -> boldsign_document_id l <> Some d) ->
      let x := run (handler req) o w in
      result_of x = json_response 200
                      [("ok", JBool true); ("message", JStr "Document not found in system")] /\
      world_of x = w /\
      exists detail,
        trace_of x =
        [traced (SelectLettersByDocument d);
         traced (Console warn "No engagement letter found for BoldSign document:" detail)]) /\
  (forall (req : Request) (payload : JValue) (e : string) (o : Oracle) (w : World),
      method req = "POST" ->
      BoldsignWebhook.signature_gate hmac env req = None ->
      JSON_parse (raw_body req) = Ok payload ->
      unqueryable payload = Some e ->
      run (handler req) o w =
      (json_response 500 [("error", JStr e)], w, [traced (Console error "Webhook error:" e)])).
Proof.
  split.
  - intros req ev st d o w Hcl H x. subst x.
    assert (Hk : broken (o _ (SelectLettersByDocument d)) = true \/ known_letter w d = None).
    { destruct H as [H|H]; [left; exact H | right].
      unfold known_letter.
      induction (engagement_letters w) as [|l ls IH]; [reflexivity|].
      cbn [filter]. unfold has_document at 1.
      destruct (boldsign_document_id l) as [d'|] eqn:E.
      - destruct (String.eqb_spec d' d) as [->|_].
        + exfalso. apply (H l); [left; reflexivity | exact E].
        + apply IH. intros l' Hin. apply H. right. exact Hin.
      - apply IH. intros l' Hin. apply H. right. exact Hin. }
    destruct (handler_unknown hmac JSON_parse env req o w Hcl Hk) as (Hr & Hw & Ht).
    split; [exact Hr|]. split; [exact Hw|]. exists d. exact Ht.
  - intros req payload e o w Hm Hg Hp Hq.
    unfold BoldsignWebhook.handler, BoldsignWebhook.authenticate.
    rewrite Hm, Hg. cbn [String.eqb Ascii.eqb Bool.eqb negb].
    assert (Hnn : payload <> JNull) by (intros ->; discriminate Hq).
    pose proof (@classify_table JSON_parse env _ _ o w Hp Hnn) as H. cbv zeta in H.
    rewrite Hq in H. exact H.
Qed.

End WebhookMore2.

(** ** The signature gate and the two event tables *)

Section Gate.

Variable hmac : string -> string -> string.
Variable JSON_parse : string -> Result JValue.

Lemma classify_reads_no_secret (env env' : Env) (rawBody : string) :
  BOLDSIGN_API_KEY env = BOLDSIGN_API_KEY env' ->
  SLACK_WEBHOOK_URL env = SLACK_WEBHOOK_URL env' ->
  today env = today env' ->
  BoldsignWebhook.classify JSON_parse env rawBody =
  BoldsignWebhook.classify JSON_parse env' rawBody.
Proof.
  destruct env as [s k u t], env' as [s' k' u' t']. cbn. intros -> -> ->.
  reflexivity.
Qed.

(** X7.  Verification only gates.  A POST that passes the gate is
    handled exactly as any other POST with the same body that passes it,
    whatever the secret and the signature header were; what the handler does
    then depends on the body, the API key, the Slack URL and the date.
    With no secret configured (unset or empty) every request passes. *)
Theorem verification_only_gates
        (env env' : Env) (req req' : Request) (o : Oracle) (w : World) :
  (nonempty (BOLDSIGN_WEBHOOK_SECRET env) = None ->
   BoldsignWebhook.signature_gate hmac env req = None) /\
  (BoldsignWebhook.signature_gate hmac env req = None ->
   BoldsignWebhook.signature_gate hmac env' req' = None ->
   method req' = method req ->
   raw_body req' = raw_body req ->
   BOLDSIGN_API_KEY env' = BOLDSIGN_API_KEY env ->
   SLACK_WEBHOOK_URL env' = SLACK_WEBHOOK_URL env ->
   today env' = today env ->
   run (BoldsignWebhook.handler hmac JSON_parse env' req') o w =
   run (BoldsignWebhook.handler hmac JSON_parse env req) o w).
Proof.
  split.
  - intro H. unfold BoldsignWebhook.signature_gate. rewrite H. reflexivity.
  - intros Hg Hg' Hm Hb Hk Hu Ht.
    unfold BoldsignWebhook.handler, BoldsignWebhook.authenticate.
    rewrite Hg, Hg', Hm, Hb.
    rewrite (classify_reads_no_secret env' env (raw_body req) Hk Hu Ht).
    unfold BoldsignWebhook.catch500. reflexivity.
Qed.

(** X8.  The set of handled events and the event-to-status map
    agree: an event type is handled exactly when it is a string that maps
    to a status, and the map sends different event types to different
    statuses.  So the bare acknowledgment [{ok: true}] for a handled but
    unmapped event is never the answer. *)
Theorem event_tables_agree :
  (forall v, BoldsignWebhook.handled v = true <->
             exists ev st, v = Some (JStr ev) /\ BoldsignWebhook.mapEventToStatus ev = Some st) /\
  (forall a b st, BoldsignWebhook.mapEventToStatus a = Some st ->
                  BoldsignWebhook.mapEventToStatus b = Some st -> a = b) /\
  (forall env req o w,
     result_of (run (BoldsignWebhook.handler hmac JSON_parse env req) o w) <>
     json_response 200 [("ok", JBool true)]).
Proof.
  split; [|split].
  - intro v. split.
    + destruct v as [[| | |s| |]|]; try discriminate.
      intro H. destruct (handled_is_mapped s H) as [st Hst]. eauto.
    + intros (ev & st & -> & H). apply (proj1 (@mapped_is_handled ev st H)).
  - intros a b st.
    unfold BoldsignWebhook.mapEventToStatus.
    repeat match goal with
           | |- context [if (a =? ?x)%string then _ else _] =>
               destruct (String.eqb_spec a x)
           end; try discriminate;
    repeat match goal with
           | |- context [if (b =? ?x)%string then _ else _] =>
               destruct (String.eqb_spec b x)
           end; try discriminate; intros [= <-] [= ]; congruence.
  - intros env req o w.
    destruct (Observe.classified hmac JSON_parse env req) as [[[ev st] d]|] eqn:Hcl.
    + rewrite (handler_classified _ _ _ _ Hcl), run_serve_catch.
      destruct (broken (o _ (SelectLettersByDocument d))) eqn:Eb.
      { destruct (reconcile_unknown env (Some (JStr ev)) st d o w (or_introl Eb))
          as (-> & _). discriminate. }
      destruct (known_letter w d) as [letter|] eqn:Ek.
      2:{ destruct (reconcile_unknown env (Some (JStr ev)) st d o w (or_intror Ek))
            as (-> & _). discriminate. }
      assert (Hsel : o _ (SelectLettersByDocument d) = NoFault).
      { destruct (o _ (SelectLettersByDocument d)); [reflexivity | discriminate]. }
      destruct (@reconcile_found env ev st d letter o w Hsel Ek) as (-> & _). discriminate.
    + revert Hcl.
      unfold Observe.classified, BoldsignWebhook.handler, BoldsignWebhook.authenticate,
        BoldsignWebhook.classify.
      destruct (method req =? "OPTIONS")%string; [discriminate|].
      destruct (method req =? "POST")%string; cbn [negb]; [|discriminate].
      destruct (BoldsignWebhook.signature_gate hmac env req) as [rej|] eqn:Eg.
      { intros _. cbn. pose proof (@gate_rejects_with_401 hmac env req rej Eg) as Hr.
        intro F. rewrite F in Hr. discriminate Hr. }
      destruct (JSON_parse (raw_body req)) as [payload|]; [|discriminate].
      destruct payload as [|b|n|s|items|fields]; [discriminate| | | | |].
      all: cbn [member lift bind].
      all: destruct (BoldsignWebhook.read_eventType _ _) as [[| | |ev'| |]|];
        destruct (BoldsignWebhook.read_documentId _ _) as [doc|];
        try (destruct (truthy (Some doc)) eqn:Et);
        try (destruct (BoldsignWebhook.mapEventToStatus ev') as [st'|] eqn:Emap);
        try (destruct (to_string doc) as [d'|] eqn:Edoc);
        intros Hx; try discriminate Hx; clear Hx;
        cbn [negb orb]; rewrite ?orb_true_r, ?orb_false_r;
        repeat match goal with
               | |- context [if ?c then _ else _] => destruct c eqn:?
               end;
        cbn; try discriminate.
      all: repeat match goal with
                  | H : negb _ = false |- _ => apply negb_false_iff in H
                  end.
      all: try match goal with
               | H : BoldsignWebhook.handled (Some (JStr ?e)) = true |- _ =>
                   destruct (handled_is_mapped e H); congruence
               end.
      all: try match goal with
               | H : BoldsignWebhook.handled _ = true |- _ => discriminate H
               end.
      all: try match goal with
               | H : truthy None = true |- _ => discriminate H
               end.
Qed.

End Gate.

(** ** The notice *)

Section Notice.

Variable hmac : string -> string -> string.
Variable JSON_parse : string -> Result JValue.
Variable env : Env.

Local Notation "'handler'" := (BoldsignWebhook.handler hmac JSON_parse env).
Local Notation "'classified'" := (Observe.classified hmac JSON_parse env).

(** What the notice says of a client row. *)
Local Notation "'name_of' row" :=
  (match row with
   | Some r =>
       match nonempty (entity_name r), nonempty (contact_name r) with
       | Some n, _ => n
       | None, Some n => n
       | None, None => "Unknown"
       end
   | None => "Unknown"
   end) (at level 10, only parsing).

Local Notation "'matter_of' row" :=
  (match row with
   | Some r => match nonempty (matter_type r) with Some m => m | None => "" end
   | None => ""
   end) (at level 10, only parsing).

Lemma notify_slack_posts (c url : string) (o : Oracle) (w : World) :
  nonempty (SLACK_WEBHOOK_URL env) = Some url ->
  In (traced (SlackPost url (name_of (notice_client o w c)) (matter_of (notice_client o w c))
                        (today env)))
     (trace_of (run (BoldsignWebhook.notify_slack env c) o w)).
Proof.
  intro Hu. unfold BoldsignWebhook.notify_slack, notice_client. rewrite Hu.
  cbn [try_catch bind call run perform].
  destruct (o _ (SelectClient c)) as [|e].
  - destruct (filter (fun r => cid r =? c)%string (clients w)) as [|r rest];
      cbn [firstn hd_error try_catch bind call await_fetch run perform].
    + destruct (o _ (SlackPost _ _ _ _)); cbn; auto.
    + destruct (o _ (SlackPost _ _ _ _)); cbn; auto.
  - cbn [try_catch bind call await_fetch run perform].
    destruct (o _ (SlackPost _ _ _ _)); cbn; auto.
Qed.

Lemma notice_client_depends (o : Oracle) (w w' : World) (c : string) :
  clients w' = clients w -> notice_client o w' c = notice_client o w c.
Proof. intro H. unfold notice_client. rewrite H. reflexivity. Qed.

Lemma notice_client_after_update (o : Oracle) (w : World) (c s e : string) :
  notice_client o (execute_rows c s e w) c =
  option_map (update_client s e) (notice_client o w c).
Proof.
  unfold notice_client, execute_rows. cbn [clients set_clients].
  destruct (o _ (SelectClient c)); [|reflexivity].
  rewrite filter_map_same.
  - destruct (filter (fun r => cid r =? c)%string (clients w)) as [|r rest] eqn:E;
      [reflexivity|].
    assert (Hr : (cid r =? c)%string = true).
    { assert (Hin : In r (filter (fun r => cid r =? c)%string (clients w)))
        by (rewrite E; left; reflexivity).
      apply filter_In in Hin. apply Hin. }
    cbn [map hd_error option_map]. rewrite Hr. reflexivity.
  - intro r. destruct (cid r =? c)%string eqn:E; cbn; rewrite E; reflexivity.
Qed.

Lemma execute_client_posts (letter : Letter) (c url : string) (o : Oracle) (w : World) :
  nonempty (client_id letter) = Some c ->
  nonempty (SLACK_WEBHOOK_URL env) = Some url ->
  In (traced (SlackPost url (name_of (notice_client o w c)) (matter_of (notice_client o w c))
                        (today env)))
     (trace_of (run (BoldsignWebhook.execute_client env letter) o w)).
Proof.
  intros Hc Hu. unfold BoldsignWebhook.execute_client. rewrite Hc.
  rewrite run_bind, run_call. cbn [result_of world_of trace_of fst snd].
  rewrite run_bind.
  destruct (o _ (UpdateClient c "Executed" (today env))) as [|e];
    cbn [perform fst snd run ret call result_of world_of trace_of].
  - pose proof (notify_slack_posts c url o (execute_rows c "Executed" (today env) w) Hu) as H.
    rewrite notice_client_after_update in H.
    destruct (notice_client o w c) as [r|]; cbn [option_map] in H;
      cbn; right; exact H.
  - pose proof (notify_slack_posts c url o w Hu) as H.
    cbn. right. right. exact H.
Qed.

(** X9.  The notice of a [Completed] event.  With a Slack URL
    configured and a client on the letter, exactly one POST to Slack is
    made, whether or not the status update, the download, the upload or the
    client update worked.  It names the client by [entity_name]; if that
    is empty, by [contact_name]; if both are empty, or the client row
    cannot be read, as 'Unknown'. *)
Theorem notice_names_the_client
        (req : Request) (st d c url : string) (letter : Letter) (o : Oracle) (w : World) :
  classified req = Some ("Completed", st, d) ->
  o _ (SelectLettersByDocument d) = NoFault ->
  known_letter w d = Some letter ->
  nonempty (client_id letter) = Some c ->
  nonempty (SLACK_WEBHOOK_URL env) = Some url ->
  let t := trace_of (run (handler req) o w) in
  notices t = 1 /\
  (notice_client o w c = None ->
   In (traced (SlackPost url "Unknown" "" (today env))) t) /\
  (forall r, notice_client o w c = Some r ->
     exists matter,
       (forall n, nonempty (entity_name r) = Some n ->
                  In (traced (SlackPost url n matter (today env))) t) /\
       (forall n, nonempty (entity_name r) = None -> nonempty (contact_name r) = Some n ->
                  In (traced (SlackPost url n matter (today env))) t) /\
       (nonempty (entity_name r) = None -> nonempty (contact_name r) = None ->
        In (traced (SlackPost url "Unknown" matter (today env))) t)).
Proof.
  intros Hcl Hsel Hknown Hc Hu t.
  assert (Hpost : In (traced (SlackPost url (name_of (notice_client o w c))
                                        (matter_of (notice_client o w c)) (today env))) t).
  { subst t.
    rewrite (handler_completed_exact hmac JSON_parse env req st d letter o w Hcl Hsel Hknown).
    cbn [trace_of snd]. right. right.
    apply in_or_app. right. apply in_or_app. right.
    rewrite <- (notice_client_depends o w
                  (world_of (run (BoldsignWebhook.store_signed_pdf env letter d) o
                     (when (negb (broken (o _ (UpdateLetter (id letter)
                                                 (updateData "Completed" st)))))
                           (update_rows (id letter) (updateData "Completed" st)) w))) c).
    - apply execute_client_posts; assumption.
    - rewrite store_keeps_clients. apply clients_when_update. }
  split.
  { apply Nat.le_antisymm.
    - apply webhook_notifies_at_most_once.
    - apply (notice_counted _ _ Hpost). reflexivity. }
  split.
  - intro Hn. rewrite Hn in Hpost. exact Hpost.
  - intros r Hr. rewrite Hr in Hpost.
    exists (match nonempty (matter_type r) with Some m => m | None => "" end).
    split; [|split].
    + intros n Hn. rewrite Hn in Hpost. exact Hpost.
    + intros n Hn1 Hn2. rewrite Hn1, Hn2 in Hpost. exact Hpost.
    + intros Hn1 Hn2. rewrite Hn1, Hn2 in Hpost. exact Hpost.
Qed.

End Notice.

(** ** Redelivery *)

Arguments store_effect : simpl never.
Arguments stored_bytes : simpl never.

Lemma world_ext (a b : World) :
  engagement_letters a = engagement_letters b ->
  clients a = clients b ->
  signed_letters a = signed_letters b ->
  boldsign a = boldsign b ->
  auth_users a = auth_users b ->
  rls_letter a = rls_letter b ->
  a = b.
Proof. destruct a, b. cbn. intros -> -> -> -> -> ->. reflexivity. Qed.

Section Redelivery.

Variable env : Env.
Variable o : Oracle.

Lemma store_world (letter : Letter) (d : string) (w : World) :
  world_of (run (BoldsignWebhook.store_signed_pdf env letter d) o w) =
  store_effect env o letter d w.
Proof.
  unfold store_effect, stored_bytes.
  destruct (nonempty (BOLDSIGN_API_KEY env)) as [key|] eqn:Hk.
  2:{ rewrite (store_keyless env letter d o w Hk). reflexivity. }
  destruct (o _ (BoldSignDownload d key)) as [|e] eqn:Hd.
  2:{ apply (store_failure env letter d key o w Hk). left. rewrite Hd. reflexivity. }
  destruct (ok (boldsign w key d)) eqn:Hok.
  2:{ apply (store_failure env letter d key o w Hk). right. left. exact Hok. }
  destruct (o _ (StorageUpload (storagePath letter) (http_body (boldsign w key d))))
    as [|e] eqn:Hu.
  2:{ apply (store_failure env letter d key o w Hk). right. right. rewrite Hu. reflexivity. }
  rewrite (store_success env letter d key o w Hk Hd Hok Hu). reflexivity.
Qed.

Lemma stored_bytes_depends (letter letter' : Letter) (d : string) (w w' : World) :
  id letter' = id letter ->
  client_id letter' = client_id letter ->
  boldsign w' = boldsign w ->
  stored_bytes env o letter' d w' = stored_bytes env o letter d w.
Proof.
  intros Hi Hc Hb. unfold stored_bytes, storagePath. rewrite Hi, Hc, Hb. reflexivity.
Qed.

Lemma delivered_depends (ev st d : string) (letter letter' : Letter) (w : World) :
  id letter' = id letter ->
  client_id letter' = client_id letter ->
  delivered env o ev st d letter' w = delivered env o ev st d letter w.
Proof.
  intros Hi Hc. unfold delivered, store_effect, client_effect.
  rewrite (stored_bytes_depends letter letter' d _ _ Hi Hc eq_refl).
  unfold storagePath. rewrite Hi, Hc. reflexivity.
Qed.

Lemma stored_bytes_after_status (letter : Letter) (d : string) (b : bool) (i : string)
      (upd : LetterUpdate) (w : World) :
  stored_bytes env o letter d (when b (update_rows i upd) w) = stored_bytes env o letter d w.
Proof. apply stored_bytes_depends; [reflexivity.. | apply boldsign_when_update]. Qed.

Lemma letters_delivered (ev st d : string) (letter : Letter) (w : World) :
  engagement_letters (delivered env o ev st d letter w) =
  map (after_event (negb (broken (o _ (UpdateLetter (id letter) (updateData ev st)))))
                   (path_written env o ev d letter w) ev st letter)
      (engagement_letters w).
Proof.
  unfold delivered, path_written, store_effect.
  destruct (ev =? "Completed")%string; cbn [andb].
  - rewrite letters_client_effect, stored_bytes_after_status.
    destruct (stored_bytes env o letter d w) as [bytes|]; cbn [andb].
    + rewrite letters_when_update. unfold put_object.
      cbn [engagement_letters set_bucket]. rewrite letters_when_update, map_map.
      reflexivity.
    + rewrite letters_when_update. apply map_ext. intro l. unfold after_event.
      cbn [andb]. reflexivity.
  - rewrite letters_when_update. apply map_ext. intro l. unfold after_event.
    cbn [andb]. reflexivity.
Qed.

Lemma bucket_delivered (ev st d : string) (letter : Letter) (w : World) :
  signed_letters (delivered env o ev st d letter w) =
  match (if (ev =? "Completed")%string then stored_bytes env o letter d w else None) with
  | Some bytes => upsert (storagePath letter) bytes (signed_letters w)
  | None => signed_letters w
  end.
Proof.
  unfold delivered, store_effect.
  destruct (ev =? "Completed")%string.
  - rewrite bucket_client_effect, stored_bytes_after_status.
    destruct (stored_bytes env o letter d w) as [bytes|].
    + rewrite bucket_when_update. unfold put_object. cbn [signed_letters set_bucket].
      rewrite bucket_when_update. reflexivity.
    + apply bucket_when_update.
  - apply bucket_when_update.
Qed.

Lemma clients_delivered (ev st d : string) (letter : Letter) (w : World) :
  clients (delivered env o ev st d letter w) =
  clients (client_effect env o (ev =? "Completed")%string letter w).
Proof.
  unfold delivered, store_effect.
  destruct (ev =? "Completed")%string.
  - apply clients_client_effect.
    destruct (stored_bytes _ _ _ _ _); rewrite ?clients_when_update; unfold put_object;
      cbn [clients set_bucket]; rewrite ?clients_when_update; reflexivity.
  - unfold client_effect. apply clients_when_update.
Qed.

Lemma rest_when (b : bool) (f : World -> World) (w w0 : World) :
  (boldsign (f w) = boldsign w0 /\ auth_users (f w) = auth_users w0 /\
   rls_letter (f w) = rls_letter w0) ->
  (boldsign w = boldsign w0 /\ auth_users w = auth_users w0 /\
   rls_letter w = rls_letter w0) ->
  boldsign (when b f w) = boldsign w0 /\ auth_users (when b f w) = auth_users w0 /\
  rls_letter (when b f w) = rls_letter w0.
Proof. destruct b; cbn [when]; auto. Qed.

Lemma rest_delivered (ev st d : string) (letter : Letter) (w : World) :
  boldsign (delivered env o ev st d letter w) = boldsign w /\
  auth_users (delivered env o ev st d letter w) = auth_users w /\
  rls_letter (delivered env o ev st d letter w) = rls_letter w.
Proof.
  unfold delivered, store_effect, client_effect.
  set (w1 := when _ (update_rows (id letter) (updateData ev st)) w).
  assert (H1 : boldsign w1 = boldsign w /\ auth_users w1 = auth_users w /\
               rls_letter w1 = rls_letter w).
  { apply rest_when; auto. }
  destruct (ev =? "Completed")%string; [|exact H1].
  set (w2 := match stored_bytes env o letter d w1 with Some _ => _ | None => _ end).
  assert (H2 : boldsign w2 = boldsign w /\ auth_users w2 = auth_users w /\
               rls_letter w2 = rls_letter w).
  { subst w2. destruct (stored_bytes env o letter d w1); [|exact H1].
    apply rest_when; exact H1. }
  destruct (nonempty (client_id letter)); [|exact H2].
  apply rest_when; exact H2.
Qed.

Lemma after_event_idempotent (b1 b3 : bool) (ev st : string) (letter l : Letter) :
  after_event b1 b3 ev st letter (after_event b1 b3 ev st letter l) =
  after_event b1 b3 ev st letter l.
Proof.
  destruct l as [i c dd s a p]. unfold after_event, has_id, updateData.
  cbn [id]. destruct (i =? id letter)%string eqn:E;
    destruct b1, b3, (ev =? "Completed")%string; do 4 (cbn; rewrite ?E); reflexivity.
Qed.

Lemma upsert_idempotent (key : string) (bytes : list byte) (b : list (string * list byte)) :
  upsert key bytes (upsert key bytes b) = upsert key bytes b.
Proof.
  unfold upsert. cbn [filter fst]. rewrite String.eqb_refl. cbn [negb]. f_equal.
  induction b as [|[k x] rest IH]; [reflexivity|].
  cbn [filter fst]. destruct (k =? key)%string eqn:E; cbn [negb]; [exact IH|].
  cbn [filter fst]. rewrite E. cbn [negb]. f_equal. exact IH.
Qed.

Lemma client_effect_idempotent (b : bool) (letter : Letter) (w w' : World) :
  clients w' = clients (client_effect env o b letter w) ->
  clients (client_effect env o b letter w') = clients (client_effect env o b letter w).
Proof.
  intro H. unfold client_effect in *. destruct b; [|exact H].
  destruct (nonempty (client_id letter)) as [c|]; [|exact H].
  destruct (negb _); unfold when in *; [|exact H].
  unfold execute_rows in *. cbn [clients set_clients] in *. rewrite H, map_map.
  apply map_ext. intro r. destruct (cid r =? c)%string eqn:E; cbn; rewrite E; reflexivity.
Qed.

Lemma delivered_idempotent (ev st d : string) (letter : Letter) (w : World) :
  delivered env o ev st d letter (delivered env o ev st d letter w) =
  delivered env o ev st d letter w.
Proof.
  destruct (rest_delivered ev st d letter w) as (Hb & Ha & Hr).
  destruct (rest_delivered ev st d letter (delivered env o ev st d letter w))
    as (Hb' & Ha' & Hr').
  assert (Hs : stored_bytes env o letter d (delivered env o ev st d letter w) =
               stored_bytes env o letter d w).
  { apply stored_bytes_depends; [reflexivity.. | exact Hb]. }
  apply world_ext; try congruence.
  - rewrite letters_delivered. unfold path_written. rewrite Hs.
    fold (path_written env o ev d letter w). rewrite letters_delivered, map_map.
    apply map_ext. intro l. apply after_event_idempotent.
  - transitivity (clients (client_effect env o (ev =? "Completed")%string letter w));
      [|symmetry; apply clients_delivered].
    rewrite clients_delivered. apply client_effect_idempotent. apply clients_delivered.
  - rewrite bucket_delivered, Hs, (bucket_delivered ev st d letter w).
    destruct (if (ev =? "Completed")%string then stored_bytes env o letter d w else None);
      [apply upsert_idempotent | reflexivity].
Qed.

End Redelivery.

Section RedeliveryHandler.

Variable hmac : string -> string -> string.
Variable JSON_parse : string -> Result JValue.
Variable env : Env.

Local Notation "'handler'" := (BoldsignWebhook.handler hmac JSON_parse env).
Local Notation "'classified'" := (Observe.classified hmac JSON_parse env).

Lemma handler_delivers (req : Request) (ev st d : string) (letter : Letter)
      (o : Oracle) (w : World) :
  classified req = Some (ev, st, d) ->
  o _ (SelectLettersByDocument d) = NoFault ->
  known_letter w d = Some letter ->
  result_of (run (handler req) o w) =
    json_response 200 [("ok", JBool true); ("status", JStr st)] /\
  world_of (run (handler req) o w) = delivered env o ev st d letter w.
Proof.
  intros Hcl Hsel Hknown. rewrite (handler_classified _ _ _ _ Hcl), run_serve_catch.
  rewrite (reconcile_exact env ev st d letter o w Hsel Hknown).
  cbn [result_of world_of fst snd]. split; [reflexivity|].
  unfold delivered. destruct (ev =? "Completed")%string.
  - destruct (execute_client_post env letter o
                (world_of (run (BoldsignWebhook.store_signed_pdf env letter d) o
                   (when (negb (broken (o _ (UpdateLetter (id letter) (updateData ev st)))))
                         (update_rows (id letter) (updateData ev st)) w))))
      as (_ & Hw & _).
    rewrite Hw, store_world. reflexivity.
  - reflexivity.
Qed.

Lemma after_event_other (b1 b3 : bool) (ev st : string) (letter l : Letter) :
  id l <> id letter -> after_event b1 b3 ev st letter l = l.
Proof.
  intro Hne. apply String.eqb_neq in Hne.
  unfold after_event, has_id. rewrite Hne, andb_false_r.
  cbv zeta. rewrite Hne, andb_false_r. reflexivity.
Qed.

(** X6.  The webhook writes to one letter only.  Whatever the request and
    whatever fails, either nothing at all has changed, or the request is a
    classified event whose document resolves to a letter, and then: the rows
    of every other letter id are as they were; the client rows are as they
    were, except, for a [Completed] event, those of that letter's client;
    the bucket holds what it held under every key, except, for a
    [Completed] event, the letter's own; and the provider, the users and the
    row-level policy are as they were. *)
Theorem webhook_touches_only_its_letter (req : Request) (o : Oracle) (w : World) :
  let w' := world_of (run (handler req) o w) in
  w' = w \/
  exists ev st d letter,
    classified req = Some (ev, st, d) /\
    known_letter w d = Some letter /\
    Forall2 (fun l l' => id l <> id letter -> l' = l)
            (engagement_letters w) (engagement_letters w') /\
    Forall2 (fun c c' => (ev = "Completed" -> client_id letter <> Some (cid c)) -> c' = c)
            (clients w) (clients w') /\
    (forall key, (ev = "Completed" -> key <> storagePath letter) ->
                 objects_at w' key = objects_at w key) /\
    boldsign w' = boldsign w /\ auth_users w' = auth_users w /\ rls_letter w' = rls_letter w.
Proof.
  intro w'. subst w'.
  destruct (classified req) as [[[ev st] d]|] eqn:Hcl.
  2:{ left. apply (handler_unclassified hmac JSON_parse env req o w Hcl). }
  destruct (broken (o _ (SelectLettersByDocument d))) eqn:Eb.
  { left. apply (handler_unknown hmac JSON_parse env req o w Hcl (or_introl Eb)). }
  destruct (known_letter w d) as [letter|] eqn:Ek.
  2:{ left. apply (handler_unknown hmac JSON_parse env req o w Hcl (or_intror Ek)). }
  assert (Hsel : o _ (SelectLettersByDocument d) = NoFault).
  { destruct (o _ (SelectLettersByDocument d)); [reflexivity | discriminate]. }
  right. exists ev, st, d, letter.
  destruct (handler_delivers req ev st d letter o w Hcl Hsel Ek) as [_ ->].
  split; [reflexivity|]. split; [exact Ek|].
  split; [|split; [|split; [|apply rest_delivered]]].
  - rewrite letters_delivered. apply Forall2_map_on.
    intros l _ Hne. apply after_event_other, Hne.
  - rewrite clients_delivered. unfold client_effect.
    destruct (String.eqb_spec ev "Completed") as [->|Hne].
    2:{ rewrite <- (map_id (clients w)) at 2. apply Forall2_map_on. reflexivity. }
    destruct (nonempty (client_id letter)) as [c|] eqn:Ec.
    2:{ rewrite <- (map_id (clients w)) at 2. apply Forall2_map_on. reflexivity. }
    destruct (negb _); unfold when.
    2:{ rewrite <- (map_id (clients w)) at 2. apply Forall2_map_on. reflexivity. }
    unfold execute_rows. cbn [clients set_clients]. apply Forall2_map_on.
    intros r _ Hr. destruct (String.eqb_spec (cid r) c) as [E|_]; [|reflexivity].
    exfalso. apply (Hr eq_refl). unfold nonempty in Ec.
    destruct (client_id letter) as [c'|]; [|discriminate].
    destruct (c' =? "")%string; [discriminate|]. congruence.
  - intros key Hkey. unfold objects_at. rewrite bucket_delivered.
    destruct (String.eqb_spec ev "Completed") as [->|_]; [|reflexivity].
    destruct (stored_bytes env o letter d w) as [bytes|]; [|reflexivity].
    apply (objects_at_put_other w (storagePath letter) key bytes), Hkey. reflexivity.
Qed.

(** X10.  Redelivery is idempotent.  Handling the same request a
    second time, with the platform behaving as it did the first time,
    gives the same answer and leaves letters, clients and bucket exactly as
    the first handling left them, whatever the request and whatever is
    broken. *)
Theorem redelivery_is_idempotent (req : Request) (o : Oracle) (w : World) :
  let first := run (handler req) o w in
  let second := run (handler req) o (world_of first) in
  result_of second = result_of first /\ world_of second = world_of first.
Proof.
  intros first second. subst first second.
  destruct (classified req) as [[[ev st] d]|] eqn:Hcl.
  2:{ destruct (handler_unclassified hmac JSON_parse env req o w Hcl) as [Hw _].
      rewrite !Hw. auto. }
  destruct (broken (o _ (SelectLettersByDocument d))) eqn:Eb.
  { destruct (handler_unknown hmac JSON_parse env req o w Hcl (or_introl Eb))
      as (_ & Hw & _). rewrite !Hw. auto. }
  destruct (known_letter w d) as [letter|] eqn:Ek.
  2:{ destruct (handler_unknown hmac JSON_parse env req o w Hcl (or_intror Ek))
      as (_ & Hw & _). rewrite !Hw. auto. }
  assert (Hsel : o _ (SelectLettersByDocument d) = NoFault).
  { destruct (o _ (SelectLettersByDocument d)); [reflexivity | discriminate]. }
  destruct (handler_delivers req ev st d letter o w Hcl Hsel Ek) as [Hr Hw].
  rewrite Hr, Hw.
  set (letter' := after_event
                    (negb (broken (o _ (UpdateLetter (id letter) (updateData ev st)))))
                    (path_written env o ev d letter w) ev st letter letter).
  assert (Ek' : known_letter (delivered env o ev st d letter w) d = Some letter').
  { apply (known_letter_map
             (after_event (negb (broken (o _ (UpdateLetter (id letter) (updateData ev st)))))
                          (path_written env o ev d letter w) ev st letter) w).
    - intro l. apply after_event_document.
    - apply letters_delivered.
    - exact Ek. }
  destruct (handler_delivers req ev st d letter' o _ Hcl Hsel Ek') as [Hr' Hw'].
  rewrite Hr', Hw'. split; [reflexivity|].
  rewrite (delivered_depends env o ev st d letter letter').
  - apply delivered_idempotent.
  - apply after_event_id.
  - apply after_event_client.
Qed.

End RedeliveryHandler.

(** ** More of the fetch endpoint *)

Section FetchMore.

Variable JSON_parse : string -> Result JValue.
Variable env : Env.

Local Notation "'gated'" := (FetchSignedDocument.handler JSON_parse env).
Local Notation "'service'" := (FetchSignedDocumentService.handler JSON_parse env).
Local Notation "'fetch_target'" := (Observe.fetch_target JSON_parse).

(** X11.  Both revisions turn a stranger away before they read the
    body or touch a table: no [Authorization] header, 401 and not a single
    call; a header that resolves to no user, 401 after the user lookup; a
    user whose e-mail does not end in the firm's domain (or who has none),
    403 after the user lookup.  The world is as it was. *)
Theorem strangers_are_turned_away
        (handle : Request -> Prog Response) (req : Request) (o : Oracle) (w : World) :
  In handle [gated; service] ->
  (method req =? "OPTIONS")%string = false ->
  (nonempty (authorization req) = None ->
   run (handle req) o w =
   (json_response 401 [("error", JStr "Missing authorization")], w, [])) /\
  (forall h,
     nonempty (authorization req) = Some h ->
     broken (o _ (GetUser h)) = true \/ auth_users w h = None ->
     run (handle req) o w =
     (json_response 401 [("error", JStr "Unauthorized")], w, [traced (GetUser h)])) /\
  (forall h user,
     nonempty (authorization req) = Some h ->
     o _ (GetUser h) = NoFault ->
     auth_users w h = Some user ->
     match email user with
     | Some e => endsWith e "@margolispllc.com"
     | None => false
     end = false ->
     run (handle req) o w =
     (json_response 403 [("error", JStr "Forbidden")], w, [traced (GetUser h)])).
Proof.
  intros Hin Hm.
  assert (Hh : handle = gated \/ handle = service).
  { destruct Hin as [<-|[<-|[]]]; auto. }
  clear Hin.
  split; [|split].
  - intro Ha.
    destruct Hh as [-> | ->];
      unfold FetchSignedDocument.handler, FetchSignedDocumentService.handler,
        FetchCommon.with_letter_id; rewrite Hm, Ha; reflexivity.
  - intros h Ha Hu.
    destruct Hh as [-> | ->];
      unfold FetchSignedDocument.handler, FetchSignedDocumentService.handler,
        FetchCommon.with_letter_id; rewrite Hm, Ha;
      cbn [bind call serve_catch run perform];
      (destruct (o _ (GetUser h)) as [|e]; [|reflexivity]);
      (destruct Hu as [Hu|Hu]; [discriminate Hu|]); rewrite Hu; reflexivity.
  - intros h user Ha Ho Hu He.
    destruct Hh as [-> | ->];
      unfold FetchSignedDocument.handler, FetchSignedDocumentService.handler,
        FetchCommon.with_letter_id; rewrite Hm, Ha;
      cbn [bind call serve_catch run perform]; rewrite Ho, Hu, He; reflexivity.
Qed.

(** X12.  For a member of the firm, both revisions ask for a
    [letterId] that is a non-empty string: a body that is an object (or any
    JSON value but [null]) without one is answered 400 'Missing letterId';
    a body that is not JSON, or is [null], ends in the [catch] block with
    500.  Only the user lookup has been made, the world is as it was. *)
Theorem letter_id_is_required
        (handle : Request -> Prog Response) (req : Request) (h : string) (user : User)
        (o : Oracle) (w : World) :
  In handle [gated; service] ->
  (method req =? "OPTIONS")%string = false ->
  nonempty (authorization req) = Some h ->
  o _ (GetUser h) = NoFault ->
  auth_users w h = Some user ->
  match email user with
  | Some e => endsWith e "@margolispllc.com"
  | None => false
  end = true ->
  let x := run (handle req) o w in
  (forall b,
     JSON_parse (raw_body req) = Ok b ->
     b <> JNull ->
     match prop b "letterId" with
     | Some (JStr i) => (i =? "")%string
     | _ => true
     end = true ->
     x = (json_response 400 [("error", JStr "Missing letterId")], w, [traced (GetUser h)])) /\
  (forall e,
     JSON_parse (raw_body req) = Thrown e \/
     (JSON_parse (raw_body req) = Ok JNull /\
      e = "Cannot destructure property 'letterId' of 'body' as it is null.") ->
     result_of x = json_response 500 [("error", JStr e)] /\
     world_of x = w /\
     filter (fun c => match c with traced (Console _ _ _) => false | _ => true end)
            (trace_of x) = [traced (GetUser h)]).
Proof.
  intros Hin Hm Ha Ho Hu He x.
  assert (Hh : handle = gated \/ handle = service).
  { destruct Hin as [<-|[<-|[]]]; auto. }
  clear Hin. subst x.
  split.
  - intros b Hb Hnn Hl.
    assert (Hd : destructure b "body" "letterId" = Ok (prop b "letterId")).
    { destruct b; try reflexivity. contradiction. }
    destruct Hh as [-> | ->];
      unfold FetchSignedDocument.handler, FetchSignedDocumentService.handler,
        FetchCommon.with_letter_id; rewrite Hm, Ha;
      cbn [bind call serve_catch run perform]; rewrite Ho, Hu, He, Hb, Hd;
      cbn [negb lift bind];
      (destruct (prop b "letterId") as [[| | |i| |]|]; try reflexivity);
      rewrite Hl; reflexivity.
  - intros e [Hb|[Hb ->]].
    + destruct Hh as [-> | ->];
        unfold FetchSignedDocument.handler, FetchSignedDocumentService.handler,
          FetchCommon.with_letter_id; rewrite Hm, Ha;
        cbn [bind call serve_catch run perform]; rewrite Ho, Hu, He, Hb;
        cbn; auto.
    + destruct Hh as [-> | ->];
        unfold FetchSignedDocument.handler, FetchSignedDocumentService.handler,
          FetchCommon.with_letter_id; rewrite Hm, Ha;
        cbn [bind call serve_catch run perform]; rewrite Ho, Hu, He, Hb;
        cbn; auto.
Qed.

Lemma select_missing (w : World) (who : Credentials) (i : string) (o : Oracle) :
  broken (o _ (SelectLetterById who i)) = true \/ single_row w who i = None ->
  exists e, perform (SelectLetterById who i) (o _ (SelectLetterById who i)) w = (DbError e, w).
Proof.
  unfold single_row. cbn [perform].
  destruct (o _ (SelectLetterById who i)) as [|e]; [|eauto].
  intros [H|H]; [discriminate H|].
  destruct (filter _ _) as [|l [|l' rest]]; [eauto | discriminate | eauto].
Qed.

(** X13.  A letter id that does not resolve to exactly one row the
    querying client can see is answered 404 'Letter not found' after the two
    lookups, and nothing is written.  The status-gated revision queries
    with the caller's credentials, so a letter that row-level security
    hides from the caller is not found; the other revision queries with
    the service role. *)
Theorem unknown_letter_is_not_found
        (req : Request) (h i : string) (o : Oracle) (w : World) :
  fetch_target w req = Some (h, i) ->
  o _ (GetUser h) = NoFault ->
  (broken (o _ (SelectLetterById (Caller h) i)) = true \/
   single_row w (Caller h) i = None ->
   run (gated req) o w =
   (json_response 404 [("error", JStr "Letter not found")], w,
    [traced (GetUser h); traced (SelectLetterById (Caller h) i)])) /\
  (broken (o _ (SelectLetterById ServiceRole i)) = true \/
   single_row w ServiceRole i = None ->
   exists detail,
     run (service req) o w =
     (json_response 404 [("error", JStr "Letter not found"); ("detail", JStr detail)], w,
      [traced (GetUser h); traced (SelectLetterById ServiceRole i)])) /\
  (forall who, (forall l, In l (engagement_letters w) -> id l <> i) ->
               single_row w who i = None) /\
  (rls_letter w h i = false -> single_row w (Caller h) i = None).
Proof.
  intros Ht Ho. split; [|split; [|split]].
  - intro H. destruct (select_missing w (Caller h) i o H) as [e He].
    rewrite (gated_run JSON_parse env req h i o w Ht Ho). cbv zeta.
    unfold FetchSignedDocument.lookup_letter.
    cbn [bind call serve_catch]. rewrite run_do, He. reflexivity.
  - intro H. destruct (select_missing w ServiceRole i o H) as [e He].
    rewrite (service_run JSON_parse env req h i o w Ht Ho). cbv zeta.
    unfold FetchSignedDocumentService.lookup_letter.
    cbn [bind call serve_catch]. rewrite run_do, He. exists e. reflexivity.
  - intros who H. unfold single_row.
    replace (filter (fun l => has_id i l && visible w who l) (engagement_letters w))
      with (@nil Letter); [reflexivity|].
    symmetry. induction (engagement_letters w) as [|l ls IH]; [reflexivity|].
    cbn [filter]. unfold has_id at 1.
    destruct (String.eqb_spec (id l) i) as [E|_].
    + exfalso. apply (H l); [left; reflexivity | exact E].
    + cbn [andb]. apply IH. intros l' Hin. apply H. right. exact Hin.
  - intro Hr. unfold single_row.
    replace (filter (fun l => has_id i l && visible w (Caller h) l) (engagement_letters w))
      with (@nil Letter); [reflexivity|].
    symmetry. induction (engagement_letters w) as [|l ls IH]; [reflexivity|].
    cbn [filter visible]. unfold has_id at 1.
    destruct (String.eqb_spec (id l) i) as [->|_]; [rewrite Hr|]; exact IH.
Qed.

End FetchMore.

Section FetchRetrieval.

Variable JSON_parse : string -> Result JValue.
Variable env : Env.

Local Notation "'gated'" := (FetchSignedDocument.handler JSON_parse env).
Local Notation "'service'" := (FetchSignedDocumentService.handler JSON_parse env).
Local Notation "'fetch_target'" := (Observe.fetch_target JSON_parse).
Local Notation "'gated_catch'" := (fun e : string => Ret (json_response 500 [("error", JStr e)])).
Local Notation "'service_catch'" :=
  (fun e : string => Do (Console error "fetch-signed-document error:" e)
                        (fun _ => Ret (json_response 500 [("error", JStr e)]))).

(** An eligible letter takes the gated revision to the retrieval. *)
Lemma gated_eligible_run (req : Request) (h i d : string) (letter : Letter)
      (o : Oracle) (w : World) :
  fetch_target w req = Some (h, i) ->
  o _ (GetUser h) = NoFault ->
  o _ (SelectLetterById (Caller h) i) = NoFault ->
  single_row w (Caller h) i = Some letter ->
  nonempty (signed_pdf_path letter) = None ->
  nonempty (boldsign_document_id letter) = Some d ->
  signed_or_completed letter ->
  let x := run (serve_catch (FetchSignedDocument.retrieve env letter d) gated_catch) o w in
  run (gated req) o w =
  (result_of x, world_of x,
   traced (GetUser h) :: traced (SelectLetterById (Caller h) i) :: trace_of x).
Proof.
  intros Ht Ho Hs Hrow Hp Hd Hst.
  rewrite (gated_run JSON_parse env req h i o w Ht Ho). cbv zeta.
  unfold FetchSignedDocument.lookup_letter.
  cbn [bind call serve_catch]. rewrite run_do, (select_single _ _ _ _ _ Hs Hrow).
  cbn [fst snd]. rewrite Hp, Hd.
  assert (Hg : negb match esign_status letter with
                    | Some s => (s =? "completed")%string || (s =? "signed")%string
                    | None => false
                    end = false).
  { destruct Hst as [-> | ->]; reflexivity. }
  rewrite Hg. reflexivity.
Qed.

Lemma service_eligible_run (req : Request) (h i d : string) (letter : Letter)
      (o : Oracle) (w : World) :
  fetch_target w req = Some (h, i) ->
  o _ (GetUser h) = NoFault ->
  o _ (SelectLetterById ServiceRole i) = NoFault ->
  single_row w ServiceRole i = Some letter ->
  nonempty (signed_pdf_path letter) = None ->
  nonempty (boldsign_document_id letter) = Some d ->
  let x := run (serve_catch (FetchSignedDocumentService.retrieve env letter d) service_catch)
               o w in
  run (service req) o w =
  (result_of x, world_of x,
   traced (GetUser h) :: traced (SelectLetterById ServiceRole i) :: trace_of x).
Proof.
  intros Ht Ho Hs Hrow Hp Hd.
  rewrite (service_run JSON_parse env req h i o w Ht Ho). cbv zeta.
  unfold FetchSignedDocumentService.lookup_letter.
  cbn [bind call serve_catch]. rewrite run_do, (select_single _ _ _ _ _ Hs Hrow).
  cbn [fst snd]. rewrite Hp, Hd. reflexivity.
Qed.

(** X14.  The status gate.  The revision that has it refuses a linked
    letter whose status is neither [signed] nor [completed] with 400
    'Document has not been signed yet', before BoldSign is asked and with
    nothing written; the service-role revision has no such gate and goes on
    to the download for the same letter. *)
Theorem unsigned_letter_is_refused_by_the_gate
        (req : Request) (h i d : string) (letter : Letter) (o : Oracle) (w : World) :
  fetch_target w req = Some (h, i) ->
  o _ (GetUser h) = NoFault ->
  nonempty (signed_pdf_path letter) = None ->
  nonempty (boldsign_document_id letter) = Some d ->
  esign_status letter <> Some "signed" ->
  esign_status letter <> Some "completed" ->
  (o _ (SelectLetterById (Caller h) i) = NoFault ->
   single_row w (Caller h) i = Some letter ->
   run (gated req) o w =
   (json_response 400 [("error", JStr "Document has not been signed yet")], w,
    [traced (GetUser h); traced (SelectLetterById (Caller h) i)])) /\
  (o _ (SelectLetterById ServiceRole i) = NoFault ->
   single_row w ServiceRole i = Some letter ->
   forall key, nonempty (BOLDSIGN_API_KEY env) = Some key ->
               In (traced (BoldSignDownload d key)) (trace_of (run (service req) o w))).
Proof.
  intros Ht Ho Hp Hd Hs1 Hs2. split.
  - intros Hs Hrow.
    rewrite (gated_run JSON_parse env req h i o w Ht Ho). cbv zeta.
    unfold FetchSignedDocument.lookup_letter.
    cbn [bind call serve_catch]. rewrite run_do, (select_single _ _ _ _ _ Hs Hrow).
    cbn [fst snd]. rewrite Hp, Hd.
    assert (Hg : negb match esign_status letter with
                      | Some s => (s =? "completed")%string || (s =? "signed")%string
                      | None => false
                      end = true).
    { destruct (esign_status letter) as [s|]; [|reflexivity].
      destruct (String.eqb_spec s "completed") as [->|_]; [congruence|].
      destruct (String.eqb_spec s "signed") as [->|_]; [congruence|]. reflexivity. }
    rewrite Hg. reflexivity.
  - intros Hs Hrow key Hk.
    rewrite (service_eligible_run req h i d letter o w Ht Ho Hs Hrow Hp Hd).
    cbn [trace_of snd]. right. right.
    unfold FetchSignedDocumentService.retrieve. rewrite Hk.
    cbn [bind call await_fetch serve_catch]. rewrite run_do. cbn [trace_of snd perform fst].
    right. rewrite run_do. cbn [trace_of snd]. left. reflexivity.
Qed.

(** X15.  What can go wrong once an eligible letter is being
    retrieved, in either revision: no API key, 500 and BoldSign is not
    asked; the download throws, 500 with the error's message; BoldSign
    refuses, 502; the bucket refuses the upload (of a download that the
    service-role revision would not have refused as empty), 500 'Failed to
    store PDF' and no path is written to the letter.  In every case the
    world is as it was. *)
Theorem retrieval_failures_are_reported
        (handle : Request -> Prog Response) (who : Credentials)
        (req : Request) (h i d : string) (letter : Letter) (o : Oracle) (w : World) :
  In (handle, who) [(gated, Caller h); (service, ServiceRole)] ->
  fetch_target w req = Some (h, i) ->
  o _ (GetUser h) = NoFault ->
  o _ (SelectLetterById who i) = NoFault ->
  single_row w who i = Some letter ->
  nonempty (signed_pdf_path letter) = None ->
  nonempty (boldsign_document_id letter) = Some d ->
  (who = Caller h -> signed_or_completed letter) ->
  let x := run (handle req) o w in
  (nonempty (BOLDSIGN_API_KEY env) = None ->
   result_of x = json_response 500 [("error", JStr "BoldSign API key not configured")] /\
   world_of x = w /\ downloads (trace_of x) = 0 /\ uploads (trace_of x) = 0) /\
  (forall key e,
     nonempty (BOLDSIGN_API_KEY env) = Some key ->
     o _ (BoldSignDownload d key) = Broken e ->
     result_of x = json_response 500 [("error", JStr e)] /\
     world_of x = w /\ uploads (trace_of x) = 0) /\
  (forall key,
     nonempty (BOLDSIGN_API_KEY env) = Some key ->
     o _ (BoldSignDownload d key) = NoFault ->
     ok (boldsign w key d) = false ->
     (exists rest,
        result_of x = json_response 502
                        (("error", JStr "Failed to download from BoldSign") :: rest)) /\
     world_of x = w /\ uploads (trace_of x) = 0) /\
  (forall key e,
     nonempty (BOLDSIGN_API_KEY env) = Some key ->
     o _ (BoldSignDownload d key) = NoFault ->
     ok (boldsign w key d) = true ->
     (who = ServiceRole -> http_body (boldsign w key d) <> []) ->
     o _ (StorageUpload (storagePath letter) (http_body (boldsign w key d))) = Broken e ->
     result_of x = json_response 500
                     [("error", JStr "Failed to store PDF"); ("detail", JStr e)] /\
     world_of x = w /\
     forall j upd, ~ In (traced (UpdateLetter j upd)) (trace_of x)).
Proof.
  intros Hin Ht Ho Hs Hrow Hp Hd Hst x. subst x.
  destruct Hin as [[= <- <-]|[[= <- <-]|[]]].
  - rewrite (gated_eligible_run req h i d letter o w Ht Ho Hs Hrow Hp Hd (Hst eq_refl)).
    cbn [result_of world_of trace_of fst snd].
    unfold FetchSignedDocument.retrieve.
    split; [|split; [|split]].
    + intros Hk. rewrite Hk. cbn. auto.
    + intros key e Hk Hdl. rewrite Hk.
      cbn [bind call await_fetch serve_catch run perform]. rewrite Hdl. cbn. auto.
    + intros key Hk Hdl Hok. rewrite Hk.
      cbn [bind call await_fetch serve_catch run perform]. rewrite Hdl.
      cbn [bind ret serve_catch run perform]. rewrite Hok. cbn. eauto.
    + intros key e Hk Hdl Hok _ Hup. rewrite Hk.
      cbn [bind call await_fetch serve_catch run perform]. rewrite Hdl.
      cbn [bind ret serve_catch run perform]. rewrite Hok.
      cbn [negb bind call serve_catch run perform]. rewrite Hup. cbn.
      split; [reflexivity|]. split; [reflexivity|].
      intros j upd [F|[F|[F|[F|[]]]]]; discriminate F.
  - rewrite (service_eligible_run req h i d letter o w Ht Ho Hs Hrow Hp Hd).
    cbn [result_of world_of trace_of fst snd].
    unfold FetchSignedDocumentService.retrieve.
    split; [|split; [|split]].
    + intros Hk. rewrite Hk. cbn. auto.
    + intros key e Hk Hdl. rewrite Hk.
      cbn [bind call await_fetch serve_catch run perform]. rewrite Hdl. cbn. auto.
    + intros key Hk Hdl Hok. rewrite Hk.
      cbn [bind call await_fetch serve_catch run perform]. rewrite Hdl.
      cbn [bind ret serve_catch run perform]. rewrite Hok. cbn. eauto.
    + intros key e Hk Hdl Hok Hne Hup. specialize (Hne eq_refl). rewrite Hk.
      cbn [bind call await_fetch serve_catch run perform]. rewrite Hdl.
      cbn [bind ret serve_catch run perform]. rewrite Hok.
      destruct (http_body (boldsign w key d)) as [|b0 bs] eqn:Eb; [contradiction|].
      cbn [negb length Nat.eqb bind call serve_catch run perform]. rewrite Hup. cbn.
      split; [reflexivity|]. split; [reflexivity|].
      intros j upd [F|[F|[F|[F|[F|[F|[F|[]]]]]]]]; discriminate F.
Qed.

(** X16.  The fetch endpoint, in either revision, changes nothing
    unless it answers with the fresh success [{ok: true, path}]: every
    refusal, every failure and the answer for a letter already stored leave
    letters, clients and bucket as they were, whatever the request and
    whatever fails. *)
Theorem fetch_writes_only_on_success
        (handle : Request -> Prog Response) (req : Request) (o : Oracle) (w : World) :
  In handle [gated; service] ->
  (forall path, result_of (run (handle req) o w) <>
                json_response 200 [("ok", JBool true); ("path", JStr path)]) ->
  world_of (run (handle req) o w) = w.
Proof.
  intros [<-|[<-|[]]] Hne.
  - destruct (gated_summary JSON_parse env req o w)
      as [(h & i & l & bytes & _ & _ & _ & Hr & _)|[Hw _]]; [|exact Hw].
    exfalso. exact (Hne _ Hr).
  - destruct (service_summary JSON_parse env req o w)
      as [(h & i & l & bytes & _ & _ & _ & Hr & _)|[Hw _]]; [|exact Hw].
    exfalso. exact (Hne _ Hr).
Qed.

Lemma bucket_after_fetch (b : bool) (i key : string) (upd : LetterUpdate)
      (bytes : list byte) (w : World) :
  signed_letters (when b (update_rows i upd) (put_object key bytes w)) =
  upsert key bytes (signed_letters w).
Proof. rewrite bucket_when_update. reflexivity. Qed.

Lemma objects_after_fetch (b : bool) (i key : string) (upd : LetterUpdate)
      (bytes : list byte) (w : World) :
  objects_at (when b (update_rows i upd) (put_object key bytes w)) key = [bytes].
Proof.
  unfold objects_at. rewrite bucket_when_update. apply objects_at_put_same.
Qed.

(** X17.  A first successful retrieval, in either revision: the
    answer is 200 with the letter's key; the bucket holds under that key
    exactly the bytes BoldSign returned; and when the row update goes
    through, the letter read back carries that key as its stored path. *)
Theorem fresh_fetch_stores_the_download
        (handle : Request -> Prog Response) (who : Credentials)
        (req : Request) (h i d key : string) (letter : Letter) (o : Oracle) (w : World) :
  In (handle, who) [(gated, Caller h); (service, ServiceRole)] ->
  fetch_target w req = Some (h, i) ->
  o _ (GetUser h) = NoFault ->
  o _ (SelectLetterById who i) = NoFault ->
  single_row w who i = Some letter ->
  nonempty (signed_pdf_path letter) = None ->
  nonempty (boldsign_document_id letter) = Some d ->
  (who = Caller h -> signed_or_completed letter) ->
  nonempty (BOLDSIGN_API_KEY env) = Some key ->
  o _ (BoldSignDownload d key) = NoFault ->
  ok (boldsign w key d) = true ->
  http_body (boldsign w key d) <> [] ->
  o _ (StorageUpload (storagePath letter) (http_body (boldsign w key d))) = NoFault ->
  let x := run (handle req) o w in
  result_of x = json_response 200 [("ok", JBool true); ("path", JStr (storagePath letter))] /\
  signed_letters (world_of x) =
    upsert (storagePath letter) (http_body (boldsign w key d)) (signed_letters w) /\
  objects_at (world_of x) (storagePath letter) = [http_body (boldsign w key d)] /\
  clients (world_of x) = clients w /\
  downloads (trace_of x) = 1 /\
  uploads (trace_of x) = 1 /\
  ((forall upd, o _ (UpdateLetter (id letter) upd) = NoFault) ->
   exists letter',
     single_row (world_of x) who i = Some letter' /\
     signed_pdf_path letter' = Some (storagePath letter') /\
     storagePath letter' = storagePath letter).
Proof.
  intros Hin Ht Ho Hs Hrow Hp Hd Hst Hk Hdl Hok Hne Hup x. subst x.
  destruct Hin as [[= <- <-]|[[= <- <-]|[]]].
  - rewrite (gated_eligible_run req h i d letter o w Ht Ho Hs Hrow Hp Hd (Hst eq_refl)).
    cbn [result_of world_of trace_of fst snd].
    unfold FetchSignedDocument.retrieve. rewrite Hk.
    cbn [bind call await_fetch serve_catch run perform]. rewrite Hdl.
    cbn [bind ret serve_catch run perform]. rewrite Hok.
    cbn [negb bind call serve_catch run perform]. rewrite Hup.
    cbn [bind call ret serve_catch run perform].
    destruct (o _ (UpdateLetter (id letter) [(col_signed_pdf_path, storagePath letter)]))
      as [|e] eqn:Eu; cbn [result_of world_of trace_of fst snd].
    + split; [reflexivity|]. split; [reflexivity|].
      split; [apply (objects_after_fetch true)|].
      split; [reflexivity|]. split; [reflexivity|]. split; [reflexivity|].
      intros _. exists (apply_update [(col_signed_pdf_path, storagePath letter)] letter).
      split; [apply single_row_updated; exact Hrow|].
      rewrite storagePath_update. split; reflexivity.
    + split; [reflexivity|]. split; [reflexivity|].
      split; [apply objects_at_put_same|].
      split; [reflexivity|]. split; [reflexivity|]. split; [reflexivity|].
      intros Hall. rewrite Hall in Eu. discriminate Eu.
  - rewrite (service_eligible_run req h i d letter o w Ht Ho Hs Hrow Hp Hd).
    cbn [result_of world_of trace_of fst snd].
    unfold FetchSignedDocumentService.retrieve. rewrite Hk.
    cbn [bind call await_fetch serve_catch run perform]. rewrite Hdl.
    cbn [bind ret serve_catch run perform]. rewrite Hok.
    destruct (http_body (boldsign w key d)) as [|b0 bs] eqn:Eb; [contradiction|].
    cbn [negb length Nat.eqb bind call serve_catch run perform]. rewrite Hup.
    cbn [bind call ret serve_catch run perform].
    destruct (o _ (UpdateLetter (id letter) (FetchSignedDocumentService.updateData letter)))
      as [|e] eqn:Eu; cbn [bind call ret serve_catch run perform
                             result_of world_of trace_of fst snd].
    + split; [reflexivity|]. split; [reflexivity|].
      split; [apply (objects_after_fetch true)|].
      split; [reflexivity|]. split; [reflexivity|]. split; [reflexivity|].
      intros _.
      exists (apply_update (FetchSignedDocumentService.updateData letter) letter).
      split; [apply single_row_updated; exact Hrow|].
      rewrite storagePath_update, service_update_path. split; reflexivity.
    + split; [reflexivity|]. split; [reflexivity|].
      split; [apply objects_at_put_same|].
      split; [reflexivity|]. split; [reflexivity|]. split; [reflexivity|].
      intros Hall. rewrite Hall in Eu. discriminate Eu.
Qed.

(** X18.  What a successful retrieval does to the status.  The
    service-role revision writes [completed] along with the path, whatever
    the status was (a letter still [sent] is corrected); the status-gated
    revision writes the path alone, so the status stays [signed] or
    [completed] as it was.  Neither touches the approval status. *)
Theorem fetch_corrects_the_status_in_one_revision_only
        (req : Request) (h i d key : string) (letter : Letter) (o : Oracle) (w : World) :
  fetch_target w req = Some (h, i) ->
  o _ (GetUser h) = NoFault ->
  nonempty (signed_pdf_path letter) = None ->
  nonempty (boldsign_document_id letter) = Some d ->
  nonempty (BOLDSIGN_API_KEY env) = Some key ->
  o _ (BoldSignDownload d key) = NoFault ->
  ok (boldsign w key d) = true ->
  http_body (boldsign w key d) <> [] ->
  o _ (StorageUpload (storagePath letter) (http_body (boldsign w key d))) = NoFault ->
  (forall upd, o _ (UpdateLetter (id letter) upd) = NoFault) ->
  (o _ (SelectLetterById ServiceRole i) = NoFault ->
   single_row w ServiceRole i = Some letter ->
   exists letter',
     single_row (world_of (run (service req) o w)) ServiceRole i = Some letter' /\
     esign_status letter' = Some "completed" /\
     approval_status letter' = approval_status letter) /\
  (o _ (SelectLetterById (Caller h) i) = NoFault ->
   single_row w (Caller h) i = Some letter ->
   signed_or_completed letter ->
   exists letter',
     single_row (world_of (run (gated req) o w)) (Caller h) i = Some letter' /\
     esign_status letter' = esign_status letter /\
     approval_status letter' = approval_status letter).
Proof.
  intros Ht Ho Hp Hd Hk Hdl Hok Hne Hup Hall. split.
  - intros Hs Hrow.
    rewrite (service_eligible_run req h i d letter o w Ht Ho Hs Hrow Hp Hd).
    cbn [result_of world_of trace_of fst snd].
    unfold FetchSignedDocumentService.retrieve. rewrite Hk.
    cbn [bind call await_fetch serve_catch run perform]. rewrite Hdl.
    cbn [bind ret serve_catch run perform]. rewrite Hok.
    destruct (http_body (boldsign w key d)) as [|b0 bs] eqn:Eb; [contradiction|].
    cbn [negb length Nat.eqb bind call serve_catch run perform]. rewrite Hup.
    cbn [bind call ret serve_catch run perform]. rewrite Hall.
    cbn [bind call ret serve_catch run perform world_of fst snd].
    exists (apply_update (FetchSignedDocumentService.updateData letter) letter).
    split; [apply single_row_updated; exact Hrow|].
    unfold FetchSignedDocumentService.updateData.
    destruct (esign_status letter) as [s|] eqn:Es.
    + destruct (String.eqb_spec s "completed") as [->|_]; cbn; auto.
    + cbn. auto.
  - intros Hs Hrow Hst.
    rewrite (gated_eligible_run req h i d letter o w Ht Ho Hs Hrow Hp Hd Hst).
    cbn [result_of world_of trace_of fst snd].
    unfold FetchSignedDocument.retrieve. rewrite Hk.
    cbn [bind call await_fetch serve_catch run perform]. rewrite Hdl.
    cbn [bind ret serve_catch run perform]. rewrite Hok.
    cbn [negb bind call serve_catch run perform]. rewrite Hup.
    cbn [bind call ret serve_catch run perform]. rewrite Hall.
    cbn [world_of fst snd].
    exists (apply_update [(col_signed_pdf_path, storagePath letter)] letter).
    split; [apply single_row_updated; exact Hrow|]. split; reflexivity.
Qed.

(** X19.  A download that succeeds with an empty body.  The
    service-role revision refuses it with 502 'BoldSign returned empty
    response' and stores nothing; the status-gated revision has no such
    check, stores the empty object under the letter's key and answers
    200. *)
Theorem empty_download_is_refused_in_one_revision_only
        (req : Request) (h i d key : string) (letter : Letter) (o : Oracle) (w : World) :
  fetch_target w req = Some (h, i) ->
  o _ (GetUser h) = NoFault ->
  nonempty (signed_pdf_path letter) = None ->
  nonempty (boldsign_document_id letter) = Some d ->
  nonempty (BOLDSIGN_API_KEY env) = Some key ->
  o _ (BoldSignDownload d key) = NoFault ->
  ok (boldsign w key d) = true ->
  http_body (boldsign w key d) = [] ->
  (o _ (SelectLetterById ServiceRole i) = NoFault ->
   single_row w ServiceRole i = Some letter ->
   result_of (run (service req) o w) =
     json_response 502 [("error", JStr "BoldSign returned empty response")] /\
   world_of (run (service req) o w) = w /\
   uploads (trace_of (run (service req) o w)) = 0) /\
  (o _ (SelectLetterById (Caller h) i) = NoFault ->
   single_row w (Caller h) i = Some letter ->
   signed_or_completed letter ->
   o _ (StorageUpload (storagePath letter) []) = NoFault ->
   result_of (run (gated req) o w) =
     json_response 200 [("ok", JBool true); ("path", JStr (storagePath letter))] /\
   objects_at (world_of (run (gated req) o w)) (storagePath letter) = [[]]).
Proof.
  intros Ht Ho Hp Hd Hk Hdl Hok Hempty. split.
  - intros Hs Hrow.
    rewrite (service_eligible_run req h i d letter o w Ht Ho Hs Hrow Hp Hd).
    cbn [result_of world_of trace_of fst snd].
    unfold FetchSignedDocumentService.retrieve. rewrite Hk.
    cbn [bind call await_fetch serve_catch run perform]. rewrite Hdl.
    cbn [bind ret serve_catch run perform]. rewrite Hok, Hempty.
    cbn. auto.
  - intros Hs Hrow Hst Hup.
    rewrite (gated_eligible_run req h i d letter o w Ht Ho Hs Hrow Hp Hd Hst).
    cbn [result_of world_of trace_of fst snd].
    unfold FetchSignedDocument.retrieve. rewrite Hk.
    cbn [bind call await_fetch serve_catch run perform]. rewrite Hdl.
    cbn [bind ret serve_catch run perform]. rewrite Hok, Hempty.
    cbn [negb bind call serve_catch run perform]. rewrite Hup.
    cbn [bind call ret serve_catch run perform].
    destruct (o _ (UpdateLetter (id letter) [(col_signed_pdf_path, storagePath letter)]));
      cbn [result_of world_of fst snd]; (split; [reflexivity|]).
    + apply (objects_after_fetch true).
    + apply objects_at_put_same.
Qed.

End FetchRetrieval.

(** ** Push, then pull *)

Lemma fetch_target_depends (JSON_parse : string -> Result JValue) (w w' : World)
      (req : Request) :
  auth_users w' = auth_users w ->
  Observe.fetch_target JSON_parse w' req = Observe.fetch_target JSON_parse w req.
Proof. intro H. unfold Observe.fetch_target. rewrite H. reflexivity. Qed.

Lemma single_row_map (h : Letter -> Letter) (w w' : World) (who : Credentials) (i : string)
      (l : Letter) :
  (forall x, id (h x) = id x) ->
  engagement_letters w' = map h (engagement_letters w) ->
  rls_letter w' = rls_letter w ->
  single_row w who i = Some l ->
  single_row w' who i = Some (h l).
Proof.
  intros Hid Hw Hr. unfold single_row. rewrite Hw, filter_map_same.
  - replace (filter (fun x => has_id i x && visible w' who x) (engagement_letters w))
      with (filter (fun x => has_id i x && visible w who x) (engagement_letters w)).
    + destruct (filter _ (engagement_letters w)) as [|l0 [|l1 rest]]; try discriminate.
      intros [= ->]. reflexivity.
    + apply filter_ext. intro x. destruct who; cbn [visible]; rewrite ?Hr; reflexivity.
  - intro x. unfold has_id. rewrite Hid. destruct who; cbn [visible]; rewrite ?Hid; reflexivity.
Qed.

Section PushThenPull.

Variable hmac : string -> string -> string.
Variable JSON_parse : string -> Result JValue.
Variable env env' : Env.

Local Notation "'webhook'" := (BoldsignWebhook.handler hmac JSON_parse env).
Local Notation "'classified'" := (Observe.classified hmac JSON_parse env).
Local Notation "'gated'" := (FetchSignedDocument.handler JSON_parse env').
Local Notation "'service'" := (FetchSignedDocumentService.handler JSON_parse env').
Local Notation "'fetch_target'" := (Observe.fetch_target JSON_parse).

(** X20.  Push, then pull.  Once a [Completed] event has stored the
    signed PDF and written its path, an on-demand fetch of that letter, in
    either revision and whatever its own configuration, answers 200 with
    that path and [alreadyStored: true] after its two lookups: it asks
    BoldSign nothing, uploads nothing and changes nothing. *)
Theorem fetch_after_completed_event_is_already_stored
        (handle : Request -> Prog Response) (who : Credentials)
        (hook req : Request) (st d key h : string) (letter : Letter)
        (o1 o2 : Oracle) (w : World) :
  In (handle, who) [(gated, Caller h); (service, ServiceRole)] ->
  classified hook = Some ("Completed", st, d) ->
  o1 _ (SelectLettersByDocument d) = NoFault ->
  known_letter w d = Some letter ->
  nonempty (BOLDSIGN_API_KEY env) = Some key ->
  o1 _ (BoldSignDownload d key) = NoFault ->
  ok (boldsign w key d) = true ->
  o1 _ (StorageUpload (storagePath letter) (http_body (boldsign w key d))) = NoFault ->
  o1 _ (UpdateLetter (id letter) [(col_signed_pdf_path, storagePath letter)]) = NoFault ->
  fetch_target w req = Some (h, id letter) ->
  o2 _ (GetUser h) = NoFault ->
  o2 _ (SelectLetterById who (id letter)) = NoFault ->
  single_row w who (id letter) = Some letter ->
  let w1 := world_of (run (webhook hook) o1 w) in
  run (handle req) o2 w1 =
  (json_response 200
     [("ok", JBool true); ("path", JStr (storagePath letter)); ("alreadyStored", JBool true)],
   w1,
   [traced (GetUser h); traced (SelectLetterById who (id letter))]).
Proof.
  intros Hin Hcl Hsel Hknown Hk Hdl Hok Hup Hpath Ht Ho Hs Hrow w1. subst w1.
  destruct (handler_delivers hmac JSON_parse env hook "Completed" st d letter o1 w
              Hcl Hsel Hknown) as [_ Hw].
  rewrite Hw.
  destruct (rest_delivered env o1 "Completed" st d letter w) as (Hb & Ha & Hr).
  assert (Hpw : path_written env o1 "Completed" d letter w = true).
  { unfold path_written, stored_bytes. rewrite Hk, Hdl, Hok, Hup, Hpath. reflexivity. }
  pose proof (letters_delivered env o1 "Completed" st d letter w) as Hl.
  rewrite Hpw in Hl.
  set (b1 := negb (broken (o1 _ (UpdateLetter (id letter) (updateData "Completed" st))))) in *.
  assert (Hrow' : single_row (delivered env o1 "Completed" st d letter w) who (id letter) =
                  Some (after_event b1 true "Completed" st letter letter)).
  { apply (single_row_map (after_event b1 true "Completed" st letter) w);
      [intro x; apply after_event_id | exact Hl | exact Hr | exact Hrow]. }
  assert (Hp : nonempty (signed_pdf_path (after_event b1 true "Completed" st letter letter)) =
               Some (storagePath letter)).
  { rewrite after_event_path. unfold has_id. rewrite String.eqb_refl. cbn [andb].
    apply storagePath_nonempty. }
  rewrite <- (fetch_target_depends JSON_parse w _ req Ha) in Ht.
  destruct Hin as [[= <- <-]|[[= <- <-]|[]]].
  - apply (gated_short_circuit JSON_parse env' req h (id letter) _ _ o2 _ Ht Ho Hs Hrow' Hp).
  - apply (service_short_circuit JSON_parse env' req h (id letter) _ _ o2 _ Ht Ho Hs Hrow' Hp).
Qed.

End PushThenPull.

(** ** Storage keys *)

Lemma string_length_append (a b : string) :
  String.length (a ++ b)%string = String.length a + String.length b.
Proof. induction a as [|c a IH]; cbn; [reflexivity | rewrite IH; reflexivity]. Qed.

Lemma string_append_cancel_r (a b t : string) : (a ++ t = b ++ t)%string -> a = b.
Proof.
  revert b. induction a as [|c a IH]; intros [|c' b] H; cbn in H.
  - reflexivity.
  - exfalso. apply (f_equal String.length) in H. cbn in H.
    rewrite string_length_append in H. lia.
  - exfalso. apply (f_equal String.length) in H. cbn in H.
    rewrite string_length_append in H. lia.
  - injection H as -> H. f_equal. apply IH. exact H.
Qed.

Lemma first_slash_splits (a b x y : string) :
  has_slash a = false -> has_slash b = false ->
  (a ++ String "/" x = b ++ String "/" y)%string -> a = b /\ x = y.
Proof.
  revert b. induction a as [|c a IH]; intros [|c' b] Ha Hb H; cbn in H, Ha, Hb.
  - injection H as ->. auto.
  - injection H as <- _. discriminate Hb.
  - injection H as -> _. discriminate Ha.
  - injection H as -> H. apply orb_false_iff in Ha, Hb.
    destruct (IH b (proj2 Ha) (proj2 Hb) H) as [-> ->]. auto.
Qed.

(** X21.  The storage key determines the letter: two letters of
    clients whose ids hold no slash (they are UUIDs) have the same key only
    if they have the same client and the same letter id.  Conversely the
    key is a function of those two columns alone. *)
Theorem storage_keys_do_not_collide (l l' : Letter) (c c' : string) :
  client_id l = Some c ->
  client_id l' = Some c' ->
  has_slash c = false ->
  has_slash c' = false ->
  (storagePath l = storagePath l' <-> c = c' /\ id l = id l').
Proof.
  intros Hc Hc' Hs Hs'. unfold storagePath. rewrite Hc, Hc'. cbn [interpolate]. split.
  - intro H. apply first_slash_splits in H; [|assumption..].
    destruct H as [-> H]. split; [reflexivity|].
    apply string_append_cancel_r in H. exact H.
  - intros [-> ->]. reflexivity.
Qed.

(** ** Sending, then the webhook *)

Section SendThenWebhook.

Variable hmac : string -> string -> string.
Variable JSON_parse : string -> Result JValue.
Variable env : Env.

Local Notation "'handler'" := (BoldsignWebhook.handler hmac JSON_parse env).
Local Notation "'classified'" := (Observe.classified hmac JSON_parse env).

Local Notation "'linked' d l" :=
  (mkLetter (id l) (client_id l) (Some d) (Some "sent") (Some "Approved") (signed_pdf_path l))
  (at level 10, d at level 9, l at level 9, only parsing).

Lemma rows_after_link (w : World) (i d : string) :
  rows (link_rows i d w) i = map (fun l => linked d l) (rows w i).
Proof.
  unfold rows, link_rows. cbn [engagement_letters set_letters].
  induction (engagement_letters w) as [|l ls IH]; [reflexivity|].
  cbn [map filter]. destruct (has_id i l) eqn:E.
  - unfold has_id at 1. cbn [id]. unfold has_id in E. rewrite E. cbn [map]. f_equal. exact IH.
  - rewrite E. exact IH.
Qed.

Lemma known_after_link (w : World) (i d : string) (l : Letter) :
  rows w i = [l] ->
  (forall l', In l' (engagement_letters w) -> boldsign_document_id l' <> Some d) ->
  known_letter (link_rows i d w) d = Some (linked d l).
Proof.
  unfold rows, known_letter, link_rows. cbn [engagement_letters set_letters].
  induction (engagement_letters w) as [|l0 ls IH]; [discriminate|].
  intros Hrows Hfresh. cbn [map filter] in *.
  destruct (has_id i l0) eqn:E.
  - injection Hrows as -> _. unfold has_document at 1. cbn [boldsign_document_id].
    rewrite String.eqb_refl. reflexivity.
  - assert (Hd : has_document d l0 = false).
    { unfold has_document. destruct (boldsign_document_id l0) as [d'|] eqn:Ed; [|reflexivity].
      apply String.eqb_neq. intros ->. apply (Hfresh l0); [left; reflexivity | exact Ed]. }
    rewrite Hd. apply IH; [exact Hrows|]. intros l' Hin. apply Hfresh. right. exact Hin.
Qed.

(** X30.  Sending, then the webhook.  Before a letter is linked, an event
    for its document is acknowledged as 'Document not found in system'.
    Once send-for-esignature has written the document id to the letter
    (which also makes it [sent] and [Approved]), the same event finds that
    letter: it is answered with its status, and the letter carries that
    status, and [Executed] if the event is [Completed]. *)
Theorem linked_letter_is_found_by_the_webhook
        (req : Request) (ev st d i : string) (l : Letter) (o : Oracle) (w : World) :
  classified req = Some (ev, st, d) ->
  i <> "" ->
  d <> "" ->
  rows w i = [l] ->
  (forall l', In l' (engagement_letters w) -> boldsign_document_id l' <> Some d) ->
  o _ (SelectLettersByDocument d) = NoFault ->
  o _ (UpdateLetter i (updateData ev st)) = NoFault ->
  let w1 := link_letter (Some i) (Some d) false w in
  result_of (run (handler req) o w) =
    json_response 200 [("ok", JBool true); ("message", JStr "Document not found in system")] /\
  (exists l1, known_letter w1 d = Some l1 /\ id l1 = i /\
              esign_status l1 = Some "sent" /\ approval_status l1 = Some "Approved") /\
  result_of (run (handler req) o w1) =
    json_response 200 [("ok", JBool true); ("status", JStr st)] /\
  exists l2,
    rows (world_of (run (handler req) o w1)) i = [l2] /\
    boldsign_document_id l2 = Some d /\
    esign_status l2 = Some st /\
    (ev = "Completed" -> approval_status l2 = Some "Executed").
Proof.
  intros Hcl Hi Hd Hrows Hfresh Hsel Hupd w1.
  assert (Hil : id l = i).
  { assert (Hin : In l (rows w i)) by (rewrite Hrows; left; reflexivity).
    unfold rows in Hin. apply filter_In in Hin. destruct Hin as [_ Hin].
    unfold has_id in Hin. apply String.eqb_eq. exact Hin. }
  subst i.
  assert (Hw1 : w1 = link_rows (id l) d w).
  { subst w1. unfold link_letter, nonempty.
    destruct (String.eqb_spec (id l) "") as [E|_]; [contradiction|].
    destruct (String.eqb_spec d "") as [->|_]; [contradiction|]. reflexivity. }
  rewrite Hw1. clear w1 Hw1.
  pose proof (known_after_link w (id l) d l Hrows Hfresh) as Hknown.
  split.
  { apply (handler_unknown hmac JSON_parse env req o w Hcl). right.
    unfold known_letter.
    replace (filter (has_document d) (engagement_letters w)) with (@nil Letter);
      [reflexivity|].
    symmetry. induction (engagement_letters w) as [|l0 ls IH]; [reflexivity|].
    cbn [filter]. unfold has_document at 1.
    destruct (boldsign_document_id l0) as [d'|] eqn:Ed.
    - destruct (String.eqb_spec d' d) as [->|_].
      + exfalso. apply (Hfresh l0); [left; reflexivity | exact Ed].
      + apply IH. intros l' Hin. apply Hfresh. right. exact Hin.
    - apply IH. intros l' Hin. apply Hfresh. right. exact Hin. }
  split.
  { eexists. split; [exact Hknown|]. cbn. auto. }
  destruct (handler_found hmac JSON_parse env req o (link_rows (id l) d w) Hcl Hsel Hknown)
    as (Hr & (b3 & Hl & _) & _).
  split; [exact Hr|].
  cbn [id] in Hl. rewrite Hupd in Hl. cbn [broken negb] in Hl.
  set (after := after_event true b3 ev st (linked d l)) in *.
  exists (after (linked d l)).
  split.
  { unfold rows at 1. rewrite Hl, filter_map_same.
    - fold (rows (link_rows (id l) d w) (id l)). rewrite rows_after_link, Hrows. reflexivity.
    - intro x. unfold has_id, after. rewrite after_event_id. reflexivity. }
  split; [unfold after; rewrite after_event_document; reflexivity|].
  split.
  { unfold after. rewrite after_event_status. cbn [id andb].
    unfold has_id. cbn [id]. rewrite String.eqb_refl. reflexivity. }
  intros Hev. unfold after. apply after_event_approval; [|exact Hev].
  unfold has_id. cbn [id]. apply String.eqb_refl.
Qed.

End SendThenWebhook.

(** ** Input validation *)

Section ValidationFacts.

Import Validation.

Lemma nullable_matches (r : Regex) : nullable r = true <-> matches r [].
Proof.
  induction r as [| |p|r1 IH1 r2 IH2|r1 IH1 r2 IH2|r IH]; cbn.
  - split; [discriminate | intro H; inversion H].
  - split; [constructor | reflexivity].
  - split; [discriminate | intro H; inversion H].
  - rewrite andb_true_iff, IH1, IH2. split.
    + intros [H1 H2]. exact (m_seq _ _ [] [] H1 H2).
    + intro H. inversion H as [| |? ? s1 s2 H1 H2| | | |]; subst.
      match goal with
      | E : s1 ++ s2 = [] |- _ => apply app_eq_nil in E; destruct E as [-> ->]
      end.
      auto.
  - rewrite orb_true_iff, IH1, IH2. split.
    + intros [H|H]; [apply m_alt_l | apply m_alt_r]; exact H.
    + intro H. inversion H; subst; auto.
  - split; [constructor | reflexivity].
Qed.

Lemma star_cons (r : Regex) (c : N) (s : list N) :
  matches (Star r) (c :: s) ->
  exists s1 s2, s = s1 ++ s2 /\ matches r (c :: s1) /\ matches (Star r) s2.
Proof.
  intro H. remember (Star r) as q eqn:Eq. remember (c :: s) as cs eqn:Ecs.
  revert r c s Eq Ecs.
  induction H as [| | | | | |r' s1 s2 H1 _ H2 IH2]; intros r0 c0 s0 Eq Ecs; try discriminate.
  injection Eq as ->.
  destruct s1 as [|c1 s1].
  - cbn in Ecs. apply (IH2 r0 c0 s0 eq_refl Ecs).
  - cbn in Ecs. injection Ecs as -> <-. exists s1, s2. auto.
Qed.

Lemma deriv_matches (r : Regex) (c : N) (s : list N) :
  matches (deriv c r) s <-> matches r (c :: s).
Proof.
  revert s. induction r as [| |p|r1 IH1 r2 IH2|r1 IH1 r2 IH2|r IH]; intro s; cbn.
  - split; intro H; inversion H.
  - split; intro H; inversion H.
  - destruct (p c) eqn:E; split; intro H; inversion H; subst.
    + apply m_class. exact E.
    + constructor.
    + congruence.
  - assert (Hseq : matches (Seq (deriv c r1) r2) s \/ (nullable r1 = true /\ matches (deriv c r2) s)
                   <-> matches (Seq r1 r2) (c :: s)).
    { split.
      - intros [H|[Hn H]].
        + inversion H as [| |? ? s1 s2 H1 H2| | | |]; subst.
          apply IH1 in H1. exact (m_seq _ _ (c :: s1) s2 H1 H2).
        + apply IH2 in H. apply nullable_matches in Hn.
          exact (m_seq _ _ [] (c :: s) Hn H).
      - intro H. inversion H as [| |? ? s1 s2 H1 H2| | | |]; subst.
        destruct s1 as [|c1 s1].
        + match goal with E : [] ++ s2 = c :: s |- _ => cbn in E; subst s2 end.
          right. split; [apply nullable_matches; exact H1 | apply IH2; exact H2].
        + match goal with
          | E : (c1 :: s1) ++ s2 = c :: s |- _ => cbn in E; injection E as -> <-
          end.
          left. constructor; [apply IH1; exact H1 | exact H2]. }
    rewrite <- Hseq. destruct (nullable r1).
    + split.
      * intro H. inversion H; subst; auto.
      * intros [H|[_ H]]; [apply m_alt_l | apply m_alt_r]; exact H.
    + split; [auto|]. intros [H|[F _]]; [exact H | discriminate F].
  - split.
    + intro H. inversion H; subst; [apply m_alt_l; apply IH1 | apply m_alt_r; apply IH2]; assumption.
    + intro H. inversion H; subst; [apply m_alt_l; apply IH1 | apply m_alt_r; apply IH2]; assumption.
  - split.
    + intro H. inversion H as [| |? ? s1 s2 H1 H2| | | |]; subst.
      apply IH in H1. exact (m_star_more _ (c :: s1) s2 H1 H2).
    + intro H. apply star_cons in H. destruct H as (s1 & s2 & -> & H1 & H2).
      constructor; [apply IH; exact H1 | exact H2].
Qed.

(** The matcher decides the pattern. *)
Lemma test_anchored_matches (r : Regex) (s : list N) :
  test_anchored r s = true <-> matches r s.
Proof.
  unfold test_anchored. revert r.
  induction s as [|c s IH]; intro r; cbn.
  - apply nullable_matches.
  - rewrite IH. apply deriv_matches.
Qed.

Lemma star_any (s : list N) : matches (Star any) s.
Proof.
  induction s as [|c s IH]; [constructor|].
  apply (m_star_more any [c] s); [constructor; reflexivity | exact IH].
Qed.

Lemma star_class (p : N -> bool) (s : list N) :
  matches (Star (Class p)) s <-> Forall (fun c => p c = true) s.
Proof.
  split.
  - intro H. remember (Star (Class p)) as q eqn:Eq.
    induction H as [| | | | | |r s1 s2 H1 _ H2 IH2]; try discriminate.
    + constructor.
    + injection Eq as ->. inversion H1; subst. constructor; auto.
  - induction 1 as [|c s Hc _ IH]; [constructor|].
    apply (m_star_more (Class p) [c] s); [constructor; exact Hc | exact IH].
Qed.

Lemma plus_class (p : N -> bool) (s : list N) :
  matches (Plus (Class p)) s <-> s <> [] /\ Forall (fun c => p c = true) s.
Proof.
  unfold Plus. split.
  - intro H. inversion H as [| |? ? s1 s2 H1 H2| | | |]; subst.
    inversion H1; subst. apply star_class in H2. split; [discriminate|].
    constructor; assumption.
  - intros [Hne Hall]. destruct s as [|c s]; [contradiction|].
    inversion Hall; subst.
    apply (m_seq (Class p) (Star (Class p)) [c] s); [constructor; assumption|].
    apply star_class. assumption.
Qed.

Lemma search_matches (p : N -> bool) (s : list N) :
  test (Class p) s = true <-> exists c, In c s /\ p c = true.
Proof.
  unfold test. rewrite test_anchored_matches. split.
  - intro H. inversion H as [| |? ? s1 s2 _ H2| | | |]; subst.
    inversion H2 as [| |? ? s3 s4 H3 _| | | |]; subst.
    inversion H3; subst. exists c. split; [|assumption].
    apply in_or_app. right. left. reflexivity.
  - intros (c & Hin & Hp). apply in_split in Hin. destruct Hin as (a & b & ->).
    apply m_seq; [apply star_any|].
    apply (m_seq (Class p) (Star any) [c] b); [constructor; exact Hp | apply star_any].
Qed.

Lemma search_existsb (p : N -> bool) (s : list N) :
  test (Class p) s = existsb p s.
Proof.
  apply eq_true_iff_eq. rewrite search_matches, existsb_exists. reflexivity.
Qed.

Lemma hasCRLF_holds (s : list N) : hasCRLF s = true -> In CR s \/ In LF s.
Proof.
  unfold hasCRLF. rewrite search_matches.
  intros (c & Hin & Hp). apply orb_true_iff in Hp. unfold is_unit in Hp.
  destruct Hp as [Hp|Hp]; apply N.eqb_eq in Hp; subst; auto.
Qed.

(** X22.  [hasCRLF] is true exactly of the strings that hold a
    carriage return or a line feed, wherever it stands; so a string made of
    parts that pass the check passes it. *)
Theorem hasCRLF_finds_every_line_break :
  (forall s, hasCRLF s = true <-> In CR s \/ In LF s) /\
  (forall a b, hasCRLF (a ++ b) = hasCRLF a || hasCRLF b).
Proof.
  split.
  - intro s. split; [apply hasCRLF_holds|].
    unfold hasCRLF. rewrite search_matches.
    intros [H|H]; [exists CR | exists LF]; auto.
  - intros a b. unfold hasCRLF. rewrite !search_existsb. apply existsb_app.
Qed.

Lemma emailRegex_parts (s : list N) :
  test_anchored emailRegex s = true ->
  exists l d t,
    s = l ++ AT :: d ++ DOT :: t /\
    l <> [] /\ d <> [] /\ t <> [] /\
    Forall (fun c => address_char c = true) (l ++ d ++ t).
Proof.
  rewrite test_anchored_matches. unfold emailRegex. intro H.
  inversion H as [| |? ? l s2 Hl H2| | | |]; subst.
  inversion H2 as [| |? ? a s3 Ha H3| | | |]; subst.
  inversion H3 as [| |? ? d s4 Hd H4| | | |]; subst.
  inversion H4 as [| |? ? dt t Hdt Ht| | | |]; subst.
  inversion Ha as [|? c Hc| | | | |]; subst.
  inversion Hdt as [|? c' Hc'| | | | |]; subst.
  unfold is_unit in Hc, Hc'. apply N.eqb_eq in Hc, Hc'. subst.
  apply plus_class in Hl, Hd, Ht.
  destruct Hl as [Hl1 Hl2], Hd as [Hd1 Hd2], Ht as [Ht1 Ht2].
  exists l, d, t. split; [reflexivity|].
  repeat (split; [assumption|]).
  apply Forall_app. split; [assumption|]. apply Forall_app. split; assumption.
Qed.

(** X23.  The e-mail pattern accepts exactly the strings of the
    form [local@domain.rest] in which the three parts are non-empty and
    hold neither white space nor [@]. *)
Theorem emailRegex_accepts_exactly :
  forall s,
    test_anchored emailRegex s = true <->
    exists l d t,
      s = l ++ AT :: d ++ DOT :: t /\
      l <> [] /\ d <> [] /\ t <> [] /\
      Forall (fun c => address_char c = true) (l ++ d ++ t).
Proof.
  intro s. split; [apply emailRegex_parts|].
  intros (l & d & t & -> & Hl & Hd & Ht & Hall).
  apply Forall_app in Hall. destruct Hall as [Hal Hall].
  apply Forall_app in Hall. destruct Hall as [Had Hat].
  apply test_anchored_matches. unfold emailRegex.
  apply m_seq; [apply plus_class; auto|].
  apply (m_seq (Class (is_unit AT)) _ [AT]); [constructor; reflexivity|].
  apply m_seq; [apply plus_class; auto|].
  apply (m_seq (Class (is_unit DOT)) _ [DOT]); [constructor; reflexivity|].
  apply plus_class; auto.
Qed.

Lemma address_char_facts (c : N) :
  address_char c = true ->
  c <> AT /\ white_space c = false /\ (is_unit CR c || is_unit LF c) = false.
Proof.
  unfold address_char. rewrite negb_true_iff, orb_false_iff. intros [Hw Ha].
  split; [|split].
  - intros ->. discriminate Ha.
  - exact Hw.
  - unfold white_space in Hw. rewrite !orb_false_iff in Hw.
    destruct Hw as [[[[[[[[[[Hr _] _] _] _] _] _] _] _] _] _].
    unfold in_range, is_unit, CR, LF in *.
    destruct (N.eqb_spec c 13) as [->|_]; [discriminate Hr|].
    destruct (N.eqb_spec c 10) as [->|_]; [discriminate Hr|]. reflexivity.
Qed.

(** X24.  An address the e-mail pattern accepts has exactly one
    [@], no white space, hence no line break ([hasCRLF] is false of it), a
    dot somewhere after the [@], and at least five code units. *)
Theorem accepted_address_has_one_at_and_no_space :
  forall s,
    test_anchored emailRegex s = true ->
    count_occ N.eq_dec s AT = 1 /\
    Forall (fun c => white_space c = false) s /\
    hasCRLF s = false /\
    (exists l r, s = l ++ AT :: r /\ In DOT r) /\
    5 <= length s.
Proof.
  intros s H. apply emailRegex_parts in H.
  destruct H as (l & d & t & -> & Hl & Hd & Ht & Hall).
  apply Forall_app in Hall. destruct Hall as [Hal Hall].
  apply Forall_app in Hall. destruct Hall as [Had Hat].
  assert (Hcount : forall x, Forall (fun c => address_char c = true) x ->
                             count_occ N.eq_dec x AT = 0).
  { intros x Hx. apply count_occ_not_In. intro Hin.
    rewrite Forall_forall in Hx. destruct (address_char_facts _ (Hx _ Hin)) as [F _].
    apply F. reflexivity. }
  assert (Hws : forall x, Forall (fun c => address_char c = true) x ->
                          Forall (fun c => white_space c = false) x).
  { intros x Hx. eapply Forall_impl; [|exact Hx]. intros c Hc.
    apply (address_char_facts _ Hc). }
  split; [|split; [|split; [|split]]].
  - rewrite count_occ_app. cbn [count_occ].
    destruct (N.eq_dec AT AT) as [_|F]; [|contradiction].
    rewrite count_occ_app. cbn [count_occ].
    destruct (N.eq_dec DOT AT) as [F|_]; [discriminate F|].
    rewrite (Hcount l Hal), (Hcount d Had), (Hcount t Hat). reflexivity.
  - apply Forall_app. split; [auto|]. constructor; [reflexivity|].
    apply Forall_app. split; [auto|]. constructor; [reflexivity | auto].
  - destruct (hasCRLF (l ++ AT :: d ++ DOT :: t)) eqn:E; [|reflexivity].
    exfalso. unfold hasCRLF in E. apply search_matches in E.
    destruct E as (c & Hin & Hp).
    assert (Hc : address_char c = true \/ c = AT \/ c = DOT).
    { rewrite Forall_forall in Hal, Had, Hat.
      apply in_app_or in Hin. destruct Hin as [Hin|[<-|Hin]]; auto.
      apply in_app_or in Hin. destruct Hin as [Hin|[<-|Hin]]; auto. }
    destruct Hc as [Hc|[-> | ->]]; [|discriminate Hp|discriminate Hp].
    destruct (address_char_facts _ Hc) as (_ & _ & F). congruence.
  - exists l, (d ++ DOT :: t). split; [reflexivity|].
    apply in_or_app. right. left. reflexivity.
  - rewrite length_app. cbn [length]. rewrite length_app. cbn [length].
    destruct l; [contradiction|]. destruct d; [contradiction|]. destruct t; [contradiction|].
    cbn [length]. lia.
Qed.

Lemma firstn_of_map {X Y : Type} (f : X -> Y) (n : nat) (xs : list X) :
  firstn n (map f xs) = map f (firstn n xs).
Proof.
  revert xs. induction n as [|n IH]; intros [|x xs]; cbn; [reflexivity.. |].
  rewrite IH. reflexivity.
Qed.

Lemma safe_underscore : unsafe_char UNDERSCORE = false.
Proof. reflexivity. Qed.

(** X25.  Whatever the name, the sanitised file name holds only
    letters, digits, dots, underscores and hyphens, so no path separator
    and no line break; it is the first 255 code units of the name with the
    others replaced, so never longer than 255 and never longer than the
    name. *)
Lemma sanitizeFilename_safe (name : list N) :
  Forall (fun c => unsafe_char c = false) (sanitizeFilename name).
Proof.
  unfold sanitizeFilename, replace_all. rewrite firstn_of_map.
  apply Forall_map, Forall_forall. intros c _.
  destruct (unsafe_char c) eqn:E; [apply safe_underscore | exact E].
Qed.

Theorem sanitizeFilename_is_safe_and_bounded :
  forall name,
    Forall (fun c => unsafe_char c = false) (sanitizeFilename name) /\
    length (sanitizeFilename name) = Nat.min MAX_FILENAME_LENGTH (length name) /\
    length (sanitizeFilename name) <= MAX_FILENAME_LENGTH /\
    hasCRLF (sanitizeFilename name) = false /\
    ~ In 47%N (sanitizeFilename name) /\
    ~ In 92%N (sanitizeFilename name).
Proof.
  intro name.
  pose proof (sanitizeFilename_safe name) as Hsafe.
  split; [exact Hsafe|].
  split.
  { unfold sanitizeFilename, replace_all. rewrite length_firstn, length_map. reflexivity. }
  split.
  { unfold sanitizeFilename. apply firstn_le_length. }
  rewrite Forall_forall in Hsafe.
  split; [|split].
  - destruct (hasCRLF (sanitizeFilename name)) eqn:E; [|reflexivity].
    apply hasCRLF_holds in E.
    destruct E as [E|E]; apply Hsafe in E; discriminate E.
  - intro Hin. apply Hsafe in Hin. discriminate Hin.
  - intro Hin. apply Hsafe in Hin. discriminate Hin.
Qed.

(** X26.  Sanitising is idempotent, and a name of at most 255
    code units that holds only safe characters is left as it is. *)
Theorem sanitizeFilename_is_idempotent :
  (forall name, sanitizeFilename (sanitizeFilename name) = sanitizeFilename name) /\
  (forall name,
     Forall (fun c => unsafe_char c = false) name ->
     length name <= MAX_FILENAME_LENGTH ->
     sanitizeFilename name = name).
Proof.
  assert (Hid : forall name,
             Forall (fun c => unsafe_char c = false) name ->
             length name <= MAX_FILENAME_LENGTH ->
             sanitizeFilename name = name).
  { intros name Hsafe Hlen. unfold sanitizeFilename, replace_all.
    rewrite firstn_all2 by (rewrite length_map; exact Hlen).
    rewrite <- (map_id name) at 2. apply map_ext_in. intros c Hin.
    rewrite Forall_forall in Hsafe. rewrite (Hsafe c Hin). reflexivity. }
  split; [|exact Hid].
  intro name. apply Hid; [apply sanitizeFilename_safe|].
  unfold sanitizeFilename. apply firstn_le_length.
Qed.

(** ** The checks on a request body *)

Ltac split_ifs :=
  repeat match goal with
         | |- context [if ?c then _ else _] => destruct c eqn:?
         end.

Lemma len_bound (limit : N) (s : list N) : (limit <? len s)%N = false -> (len s <= limit)%N.
Proof. intro H. apply N.ltb_ge. exact H. Qed.

Lemma truthy_string (s : list N) : truthy (Some (VStr s)) = true -> s <> [].
Proof. intros H ->. discriminate H. Qed.

(** X27.  What the send-email function hands to the mail provider.  The
    recipient has the shape of an address and no line break, the subject
    has no line break and at most 500 code units, the HTML at most 512 KiB,
    and none of the three is empty; a reply-to is there only if it has the
    shape of an address; an attachment is there only with a non-empty
    content of at most 14 MiB of base64 and a file name of at most 255 safe
    characters.  A reply-to that is a string but not an address, and an
    attachment without a file name, are dropped without a word. *)
Theorem accepted_email_is_well_formed (body : Json) (e : Email) :
  send_email_payload body = Passed e ->
  (read body "to" = Some (VStr (email_to e)) /\
   read body "subject" = Some (VStr (email_subject e)) /\
   read body "html" = Some (VStr (email_html e))) /\
  (test_anchored emailRegex (email_to e) = true /\ hasCRLF (email_to e) = false) /\
  (email_subject e <> [] /\ hasCRLF (email_subject e) = false /\
   (len (email_subject e) <= 500)%N) /\
  (email_html e <> [] /\ (len (email_html e) <= 524288)%N) /\
  (forall r, email_reply_to e = Some r ->
             read body "replyTo" = Some (VStr r) /\
             test_anchored emailRegex r = true /\ hasCRLF r = false) /\
  (forall f a, email_attachment e = Some (f, a) ->
               read body "attachmentBase64" = Some (VStr a) /\
               a <> [] /\ (len a <= 14680064)%N /\
               Forall (fun c => unsafe_char c = false) f /\ length f <= 255) /\
  (forall r, read body "replyTo" = Some (VStr r) ->
             test_anchored emailRegex r = false -> email_reply_to e = None) /\
  (as_string (read body "attachmentFilename") = None -> email_attachment e = None).
Proof.
  unfold send_email_payload.
  destruct (check_keys email_keys body) as [status0 error0| |[]]; try discriminate.
  cbv zeta.
  destruct (negb (truthy (read body "to")) || negb (truthy (read body "subject"))
            || negb (truthy (read body "html"))) eqn:Hreq; [discriminate|].
  rewrite !orb_false_iff, !negb_false_iff in Hreq. destruct Hreq as [[Hto Hsub] Hhtml].
  destruct (read body "to") as [[| | |to| |]|]; try discriminate.
  destruct (read body "subject") as [[| | |subject| |]|]; try discriminate.
  destruct (read body "html") as [[| | |html| |]|]; try discriminate.
  cbn [as_string].
  destruct (hasCRLF to || hasCRLF subject) eqn:Hcr; [discriminate|].
  apply orb_false_iff in Hcr. destruct Hcr as [Hcr1 Hcr2].
  destruct (match as_string (read body "replyTo") with
            | Some r => hasCRLF r
            | None => false
            end) eqn:Hrcr; [discriminate|].
  destruct (MAX_SUBJECT_LENGTH <? len subject)%N eqn:Hls; [discriminate|].
  destruct (MAX_HTML_LENGTH <? len html)%N eqn:Hlh; [discriminate|].
  destruct (negb (test_anchored emailRegex to)) eqn:Hre; [discriminate|].
  apply negb_false_iff in Hre.
  destruct (match as_string (read body "attachmentBase64") with
            | Some a => (MAX_ATTACHMENT_BASE64_LENGTH <? len a)%N
            | None => false
            end) eqn:Hla; [discriminate|].
  intros [= <-]. cbn [email_to email_subject email_html email_reply_to email_attachment].
  split; [auto|]. split; [auto|].
  split; [split; [apply truthy_string; exact Hsub | split; [exact Hcr2 | apply len_bound; exact Hls]]|].
  split; [split; [apply truthy_string; exact Hhtml | apply len_bound; exact Hlh]|].
  split.
  { intros r Hr. destruct (read body "replyTo") as [[| | |r0| |]|]; try discriminate.
    cbn [as_string] in *. destruct (test_anchored emailRegex r0) eqn:E; [|discriminate].
    injection Hr as <-. auto. }
  split.
  { intros f a Hfa.
    destruct (read body "attachmentBase64") as [[| | |a0| |]|]; try discriminate.
    destruct (read body "attachmentFilename") as [[| | |f0| |]|]; try discriminate.
    cbn [as_string] in *. destruct (0 <? len a0)%N eqn:E; [|discriminate].
    injection Hfa as <- <-.
    split; [reflexivity|]. split.
    { intros ->. discriminate E. }
    split; [apply len_bound; exact Hla|].
    split; [apply sanitizeFilename_safe|].
    unfold sanitizeFilename. apply firstn_le_length. }
  split.
  { intros r Hr Hno. rewrite Hr. cbn [as_string]. rewrite Hno. reflexivity. }
  intros Hf. rewrite Hf. destruct (as_string (read body "attachmentBase64")); reflexivity.
Qed.

Lemma same_key_eq (a b : list N) : same_key a b = true <-> a = b.
Proof. unfold same_key. destruct (list_eq_dec N.eq_dec a b); split; congruence. Qed.

Lemma insert_index_In (k : list N) (n : N) (sorted : list (list N * N)) (x : list N) :
  In x (map fst (insert_index k n sorted)) <-> x = k \/ In x (map fst sorted).
Proof.
  induction sorted as [|[k' n'] rest IH]; cbn [insert_index map fst In].
  - intuition.
  - destruct (n <=? n')%N; cbn [map fst In]; [intuition|]. rewrite IH. intuition.
Qed.

Lemma ordered_keys_In (keys : list (list N)) (x : list N) :
  In x (ordered_keys keys) <-> In x keys.
Proof.
  unfold ordered_keys. rewrite in_app_iff, filter_In.
  assert (H : In x (map fst (fold_right
                (fun k acc => match array_index k with
                              | Some n => insert_index k n acc
                              | None => acc
                              end) [] keys))
              <-> In x keys /\ array_index x <> None).
  { induction keys as [|k rest IH]; cbn [fold_right In map]; [intuition|].
    destruct (array_index k) as [n|] eqn:E.
    - rewrite insert_index_In, IH. split.
      + intros [->|[H1 H2]]; [split; [auto | congruence] | auto].
      + intros [[<-|H1] H2]; auto.
    - rewrite IH. split.
      + intros [H1 H2]. auto.
      + intros [[<-|H1] H2]; [congruence | auto]. }
  rewrite H. destruct (array_index x); intuition congruence.
Qed.

Lemma first_occurrences_In (seen keys : list (list N)) (x : list N) :
  In x (first_occurrences seen keys) <-> In x keys /\ ~ In x seen.
Proof.
  revert seen. induction keys as [|k rest IH]; intro seen; cbn [first_occurrences In].
  - intuition.
  - destruct (existsb (same_key k) seen) eqn:E.
    + rewrite IH. apply existsb_exists in E. destruct E as (y & Hy & Hk).
      apply same_key_eq in Hk. subst y. split.
      * intros [H1 H2]. auto.
      * intros [[<-|H1] H2]; [contradiction | auto].
    + cbn [In]. rewrite IH. cbn [In].
      assert (Hk : ~ In k seen).
      { intro Hin. apply Bool.not_true_iff_false in E. apply E.
        apply existsb_exists. exists k. split; [exact Hin | apply same_key_eq; reflexivity]. }
      destruct (list_eq_dec N.eq_dec k x) as [->|Hne]; intuition.
Qed.

Lemma check_keys_refuses (allowed : list string) (fields : list (list N * Json))
      (k : list N) (v : Json) :
  In (k, v) fields ->
  (forall a, In a allowed -> units a <> k) ->
  exists k',
    check_keys allowed (VObj fields) = Refused 400 (units "Invalid payload field: " ++ k') /\
    In k' (map fst fields) /\
    (forall a, In a allowed -> units a <> k').
Proof.
  intros Hin Hbad. unfold check_keys. cbn [object_keys].
  set (bad := fun k0 => negb (existsb (fun a => same_key k0 (units a)) allowed)).
  destruct (find bad (ordered_keys (first_occurrences [] (map fst fields)))) as [k'|] eqn:E.
  - exists k'. split; [reflexivity|].
    apply find_some in E. destruct E as [Hk' Hb].
    apply ordered_keys_In, first_occurrences_In in Hk'. split; [apply Hk'|].
    intros a Ha Heq. unfold bad in Hb. apply negb_true_iff in Hb.
    apply Bool.not_true_iff_false in Hb. apply Hb.
    apply existsb_exists. exists a. split; [exact Ha | apply same_key_eq; auto].
  - exfalso.
    assert (Hk : In k (ordered_keys (first_occurrences [] (map fst fields)))).
    { apply ordered_keys_In, first_occurrences_In. split; [|intros []].
      apply in_map_iff. exists (k, v). auto. }
    pose proof (find_none _ _ E k Hk) as Hb. unfold bad in Hb.
    apply negb_false_iff, existsb_exists in Hb. destruct Hb as (a & Ha & Hs).
    apply same_key_eq in Hs. exact (Hbad a Ha (eq_sym Hs)).
Qed.

(** X28.  Both sending functions look at the keys of the body before
    anything else.  An object with a key outside the allowed ones is
    refused with 400 and a message that names such a key, whatever its
    other fields hold; a body that is a non-empty string or array is
    refused the same way for its key [0]; the body [null] raises the
    TypeError that the [catch] block answers with 500. *)
Theorem unexpected_field_is_refused :
  (forall fields k v,
     In (k, v) fields ->
     (forall a, In a email_keys -> units a <> k) ->
     exists k',
       send_email_payload (VObj fields) =
         Refused 400 (units "Invalid payload field: " ++ k') /\
       In k' (map fst fields) /\ (forall a, In a email_keys -> units a <> k')) /\
  (forall fields k v,
     In (k, v) fields ->
     (forall a, In a esignature_keys -> units a <> k) ->
     exists k',
       check_signature_request (VObj fields) =
         Refused 400 (units "Invalid payload field: " ++ k') /\
       In k' (map fst fields) /\ (forall a, In a esignature_keys -> units a <> k')) /\
  (forall body,
     (exists c s, body = VStr (c :: s)) \/ (exists i items, body = VArr (i :: items)) ->
     send_email_payload body = Refused 400 (units "Invalid payload field: 0") /\
     check_signature_request body = Refused 400 (units "Invalid payload field: 0")) /\
  (send_email_payload VNull = Raised /\ check_signature_request VNull = Raised).
Proof.
  split; [|split; [|split]].
  - intros fields k v Hin Hbad.
    destruct (check_keys_refuses email_keys fields k v Hin Hbad) as (k' & Hc & Hk).
    exists k'. split; [|exact Hk]. unfold send_email_payload. rewrite Hc. reflexivity.
  - intros fields k v Hin Hbad.
    destruct (check_keys_refuses esignature_keys fields k v Hin Hbad) as (k' & Hc & Hk).
    exists k'. split; [|exact Hk]. unfold check_signature_request. rewrite Hc. reflexivity.
  - intros body [(c & s & ->)|(i & items & ->)]; split; reflexivity.
  - split; reflexivity.
Qed.

(** X29.  What the send-for-esignature function lets through to
    BoldSign.  The signer's address has the shape of an address; neither
    it, nor the signer's name, nor the title holds a line break; none of
    them, nor the PDF, is empty; the title has at most 500 code units and a
    message that is a string at most 2000.  The file name, the message
    when it is not a string, the client id, the letter id and the page
    number are taken as they come; the name under which the PDF is sent
    is made of at most 255 safe characters, and a file name that is truthy
    and not a string raises a TypeError when that name is made. *)
Theorem accepted_signature_request_is_well_formed (body : Json) (r : SignatureRequest) :
  check_signature_request body = Passed r ->
  (read body "pdfBase64" = Some (VStr (pdfBase64 r)) /\
   read body "signerName" = Some (VStr (signerName r)) /\
   read body "signerEmail" = Some (VStr (signerEmail r)) /\
   read body "title" = Some (VStr (title r))) /\
  (test_anchored emailRegex (signerEmail r) = true /\ hasCRLF (signerEmail r) = false) /\
  (pdfBase64 r <> [] /\ signerName r <> [] /\ title r <> []) /\
  (hasCRLF (signerName r) = false /\ hasCRLF (title r) = false) /\
  (len (title r) <= 500)%N /\
  (forall m, message r = Some (VStr m) -> (len m <= 2000)%N) /\
  (fileName r = read body "fileName" /\ message r = read body "message" /\
   clientId r = read body "clientId" /\ letterId r = read body "letterId" /\
   signaturePageNumber r = read body "signaturePageNumber") /\
  (forall name, safeName (fileName r) = Passed name ->
                Forall (fun c => unsafe_char c = false) name /\ length name <= 255) /\
  (truthy (fileName r) = true -> as_string (fileName r) = None ->
   safeName (fileName r) = Raised).
Proof.
  unfold check_signature_request.
  destruct (check_keys esignature_keys body) as [status0 error0| |[]]; try discriminate.
  cbv zeta.
  destruct (negb (truthy (read body "pdfBase64")) || negb (truthy (read body "signerName"))
            || negb (truthy (read body "signerEmail")) || negb (truthy (read body "title")))
    eqn:Hreq; [discriminate|].
  rewrite !orb_false_iff, !negb_false_iff in Hreq.
  destruct Hreq as [[[Hpdf Hname] Hemail] Htitle].
  destruct (read body "pdfBase64") as [[| | |pdf| |]|]; try discriminate.
  destruct (read body "signerName") as [[| | |name| |]|]; try discriminate.
  destruct (read body "signerEmail") as [[| | |addr| |]|]; try discriminate.
  destruct (read body "title") as [[| | |ttl| |]|]; try discriminate.
  cbn [as_string].
  destruct (hasCRLF addr || hasCRLF name || hasCRLF ttl) eqn:Hcr; [discriminate|].
  rewrite !orb_false_iff in Hcr. destruct Hcr as [[Hc1 Hc2] Hc3].
  destruct (negb (test_anchored emailRegex addr)) eqn:Hre; [discriminate|].
  apply negb_false_iff in Hre.
  destruct (MAX_TITLE_LENGTH <? len ttl)%N eqn:Hlt; [discriminate|].
  destruct (match as_string (read body "message") with
            | Some m => (MAX_MESSAGE_LENGTH <? len m)%N
            | None => false
            end) eqn:Hlm; [discriminate|].
  intros [= <-].
  cbn [pdfBase64 signerName signerEmail title fileName message clientId letterId
       signaturePageNumber].
  split; [auto|]. split; [auto|].
  split; [split; [|split]; apply truthy_string; assumption|].
  split; [auto|].
  split; [apply len_bound; exact Hlt|].
  split.
  { intros m Hm. rewrite Hm in Hlm. cbn [as_string] in Hlm. apply len_bound. exact Hlm. }
  split; [auto 6|].
  split.
  { intros nm. unfold safeName.
    destruct (truthy (read body "fileName")).
    - destruct (read body "fileName") as [[| | |s| |]|]; try discriminate.
      change (firstn 255 (replace_all unsafe_char UNDERSCORE s)) with (sanitizeFilename s).
      intro H. injection H as <-.
      split; [apply sanitizeFilename_safe | apply (firstn_le_length MAX_FILENAME_LENGTH)].
    - change (firstn 255 (replace_all unsafe_char UNDERSCORE (units "Engagement_Letter.pdf")))
        with (sanitizeFilename (units "Engagement_Letter.pdf")).
      intro H. injection H as <-.
      split; [apply sanitizeFilename_safe | apply (firstn_le_length MAX_FILENAME_LENGTH)]. }
  intros Ht Hs. unfold safeName. rewrite Ht.
  destruct (read body "fileName") as [[| | |s| |]|]; try reflexivity. discriminate Hs.
Qed.

End ValidationFacts.

(* ================================================================= *)
(** * The properties on the sample deployment *)

Import Fixture.

(** A POST with a forged signature, against a configured secret. *)
Lemma bad_signature_witness :
  let x := run (webhook guarded_env (signed_post (Some "forged") (event "Completed" "doc-1")))
               healthy (world (Some "sent") None) in
  code (result_of x) = 401 /\ world_of x = world (Some "sent") None /\ trace_of x = [].
Proof.
  apply (@bad_signature_is_rejected_untouched hmac JSON_parse guarded_env
           (signed_post (Some "forged") (event "Completed" "doc-1")) "s3cret" healthy
           (world (Some "sent") None)).
  - reflexivity.
  - reflexivity.
  - discriminate.
  - vm_compute. discriminate.
Defined.


(** A Completed event while the database refuses the status write. *)
Lemma status_update_failure_witness :
  let x := run (webhook open_env (post (event "Completed" "doc-1")))
               status_write_down (world (Some "signed") None) in
  result_of x = json_response 200 [("ok", JBool true); ("status", JStr "completed")] /\
  In (traced (Console error "Failed to update esign_status:" "connection reset"))
     (trace_of x) /\
  map esign_status (engagement_letters (world_of x)) = [Some "signed"; Some "sent"].
Proof.
  destruct (@status_update_failure_is_swallowed hmac JSON_parse open_env
              (post (event "Completed" "doc-1")) "Completed" "completed" "doc-1"
              "connection reset" (letter1 (Some "signed") None) status_write_down
              (world (Some "signed") None))
    as (Hr & Hlog & Hst & _).
  - vm_compute. reflexivity.
  - vm_compute. reflexivity.
  - reflexivity.
  - reflexivity.
  - split; [exact Hr|]. split; [exact Hlog | exact Hst].
Defined.

(** Sent, Completed, Viewed, in that order. *)
Lemma last_write_wins_witness :
  exists letter',
    known_letter
      (deliver_all (webhook open_env)
         [(post (event "Sent" "doc-1"), healthy);
          (post (event "Completed" "doc-1"), healthy);
          (post (event "Viewed" "doc-1"), healthy)]
         (world None None)) "doc-1" = Some letter' /\
    id letter' = "letter-1" /\ esign_status letter' = Some "viewed".
Proof.
  apply (proj2 (@last_write_wins hmac JSON_parse open_env)
           (post (event "Sent" "doc-1")) (post (event "Completed" "doc-1"))
           (post (event "Viewed" "doc-1")) "doc-1" (letter1 None None)
           healthy healthy healthy (world None None)).
  all: vm_compute; reflexivity.
Defined.

(** A completed letter and a late Viewed event. *)
Lemma completed_unless_overwritten_witness :
  let w := world (Some "completed") None in
  let l' := mkLetter "letter-1" (Some "client-1") (Some "doc-1") (Some "viewed") None None in
  esign_status l' = Some "completed" \/
  exists ev st d letter,
    classified hmac JSON_parse open_env (post (event "Viewed" "doc-1")) = Some (ev, st, d) /\
    ev <> "Completed" /\
    known_letter w d = Some letter /\ id letter = "letter-1" /\
    esign_status l' = Some st /\ st <> "completed".
Proof.
  apply (@completed_unless_overwritten hmac JSON_parse open_env
           (post (event "Viewed" "doc-1")) healthy (world (Some "completed") None)
           "letter-1").
  - intros l [<-|[<-|[]]] H; [reflexivity | discriminate H].
  - vm_compute. left. reflexivity.
  - reflexivity.
Defined.

(** A Completed event with everything configured and healthy. *)
Lemma completion_side_effects_witness :
  let x := run (webhook open_env (post (event "Completed" "doc-1")))
               healthy (world (Some "signed") None) in
  result_of x = json_response 200 [("ok", JBool true); ("status", JStr "completed")] /\
  In (traced (UpdateClient "client-1" "Executed" "2026-02-16")) (trace_of x) /\
  In (traced (BoldSignDownload "doc-1" "api-key")) (trace_of x).
Proof.
  destruct (@completion_side_effects hmac JSON_parse open_env
              (post (event "Completed" "doc-1")) "doc-1" "client-1"
              (letter1 (Some "signed") None) healthy (world (Some "signed") None))
    as (Hr & _ & Hc & Hd & _).
  - vm_compute. reflexivity.
  - vm_compute. reflexivity.
  - reflexivity.
  - reflexivity.
  - discriminate.
  - split; [exact Hr|]. split; [exact Hc|]. apply Hd. reflexivity.
Defined.

(** A fetch for the letter that was never linked to a document. *)
Lemma missing_document_id_witness :
  (exists rest,
      result_of (run (fetch_service open_env (fetch "letter-2")) healthy (world None None)) =
      json_response 400
        (("error", JStr "No BoldSign document linked to this letter") :: rest)) /\
  (exists rest,
      result_of (run (fetch_gated open_env (fetch "letter-2")) healthy (world None None)) =
      json_response 400
        (("error", JStr "No BoldSign document linked to this letter") :: rest)).
Proof.
  destruct (@missing_document_id_is_refused JSON_parse open_env (fetch "letter-2")
              staff "letter-2" letter2 healthy (world None None))
    as (Hg & Hs & _).
  - vm_compute. reflexivity.
  - reflexivity.
  - reflexivity.
  - reflexivity.
  - split.
    + apply Hs; [reflexivity | vm_compute; reflexivity].
    + apply Hg; [reflexivity | vm_compute; reflexivity].
Defined.

(** The webhook and a fetch, interleaved call by call: the service-role
    fetch for a letter that was sent, the gated fetch for one that was
    signed. *)
Lemma deterministic_key_witness :
  let sched := [true; false; true; false; false; true; false; true] in
  let push := webhook open_env (post (event "Completed" "doc-1")) in
  let x := race sched push (fetch_service open_env (fetch "letter-1"))
                (world (Some "sent") None) in
  let y := race sched push (fetch_gated open_env (fetch "letter-1"))
                (world (Some "signed") None) in
  (fst (fst x) = json_response 200 [("ok", JBool true); ("status", JStr "completed")] /\
   fetched "client-1/letter-1_signed.pdf" (snd (fst x)) /\
   stored (snd x) "letter-1" "client-1/letter-1_signed.pdf") /\
  (fst (fst y) = json_response 200 [("ok", JBool true); ("status", JStr "completed")] /\
   stored (snd y) "letter-1" "client-1/letter-1_signed.pdf" /\
   fetched "client-1/letter-1_signed.pdf" (snd (fst y))).
Proof.
  split.
  - refine (proj1 (proj2 (proj2 (@deterministic_key_converges hmac JSON_parse open_env))
             [true; false; true; false; false; true; false; true]
             (post (event "Completed" "doc-1")) (fetch "letter-1") staff "doc-1" "api-key"
             (letter1 (Some "sent") None) (world (Some "sent") None)
             _ _ _ _ _ _ _ _) _).
    + vm_compute. reflexivity.
    + vm_compute. reflexivity.
    + vm_compute. reflexivity.
    + reflexivity.
    + discriminate.
    + reflexivity.
    + reflexivity.
    + vm_compute. reflexivity.
    + vm_compute. discriminate.
  - destruct (proj2 (proj2 (proj2 (@deterministic_key_converges hmac JSON_parse open_env))
                [true; false; true; false; false; true; false; true]
                (post (event "Completed" "doc-1")) (fetch "letter-1") staff "doc-1" "api-key"
                (letter1 (Some "signed") None) (world (Some "signed") None)
                ltac:(vm_compute; reflexivity) ltac:(vm_compute; reflexivity)
                ltac:(vm_compute; reflexivity) eq_refl ltac:(discriminate)
                eq_refl eq_refl ltac:(vm_compute; reflexivity)) eq_refl)
      as (Ha & Hst & Hf & _).
    split; [exact Ha|]. split; [exact Hst|]. apply Hf. left. reflexivity.
Defined.

(** A fetch for a letter whose path is stored. *)
Lemma fetch_is_idempotent_witness :
  run (fetch_service open_env (fetch "letter-1")) healthy
      (world (Some "completed") (Some stored_key)) =
  (json_response 200
     [("ok", JBool true); ("path", JStr stored_key); ("alreadyStored", JBool true)],
   world (Some "completed") (Some stored_key),
   [traced (GetUser staff); traced (SelectLetterById ServiceRole "letter-1")]).
Proof.
  apply (proj1 (@fetch_is_idempotent_webhook_rewrites hmac JSON_parse open_env)
           (fetch "letter-1") staff "letter-1" stored_key
           (letter1 (Some "completed") (Some stored_key)) healthy
           (world (Some "completed") (Some stored_key))).
  - vm_compute. reflexivity.
  - reflexivity.
  - reflexivity.
  - reflexivity.
  - vm_compute. reflexivity.
Defined.

(** The string form of some numbers and lists, as JavaScript gives it. *)
Lemma to_string_samples :
  map to_string
      [JNum 42; JNum (-7); JNum 9007199254740992; JNum 9007199254740993;
       JNum 12345678901234567890; JNum (10 ^ 21); JNum (10 ^ 23); JNum (2 ^ 1024);
       JArr [JNum 1; JNull; JStr "a"; JArr [JBool true; JNum 2]];
       JObj [("documentId", JStr "doc-1")]; JObj [("toString", JNull)];
       JArr [JStr "a"; JObj [("toString", JNum 1)]]] =
  [Ok "42"; Ok "-7"; Ok "9007199254740992"; Ok "9007199254740992";
   Ok "12345678901234567000"; Ok "1e+21"; Ok "1e+23"; Ok "Infinity";
   Ok "1,,a,true,2";
   Ok "[object Object]"; Thrown "Cannot convert object to primitive value";
   Thrown "Cannot convert object to primitive value"].
Proof. vm_compute. reflexivity. Qed.

(** C1 as stated fails: a Viewed event that arrives after completion takes
    the letter from [completed] to [viewed]. *)
Lemma late_viewed_regresses_completed :
  status_of (world (Some "completed") None) "letter-1" = Some "completed" /\
  status_of (world_of (run (webhook open_env (post (event "Viewed" "doc-1"))) healthy
                           (world (Some "completed") None)))
            "letter-1" = Some "viewed".
Proof. split; vm_compute; reflexivity. Qed.

(** C3 as stated fails: a Completed event delivered again for a letter
    whose path is stored downloads and uploads once more. *)
Lemma redelivered_completed_downloads_again :
  let w := world (Some "completed") (Some stored_key) in
  let x := run (webhook open_env (post (event "Completed" "doc-1"))) healthy w in
  path_of w "letter-1" = Some stored_key /\
  downloads (trace_of x) = 1 /\ uploads (trace_of x) = 1.
Proof. repeat split; vm_compute; reflexivity. Qed.

(** C4 as stated fails: without a BoldSign API key the Completed event is
    acknowledged and the client is updated, but no retrieval is
    attempted. *)
Lemma keyless_completed_skips_retrieval :
  let w := world (Some "signed") None in
  let x := run (webhook keyless_env (post (event "Completed" "doc-1"))) healthy w in
  classified hmac JSON_parse keyless_env (post (event "Completed" "doc-1")) =
    Some ("Completed", "completed", "doc-1") /\
  known_letter w "doc-1" = Some (letter1 (Some "signed") None) /\
  code (result_of x) = 200 /\
  In (traced (UpdateClient "client-1" "Executed" "2026-02-16")) (trace_of x) /\
  downloads (trace_of x) = 0 /\ uploads (trace_of x) = 0.
Proof. repeat split; vm_compute; auto. Qed.

(** C6 as stated fails: a gated fetch that reads a letter still [sent]
    before the Completed webhook has marked it is refused, while the
    webhook goes on to store the PDF under the letter's key. *)
Lemma gated_fetch_ahead_of_completion_is_refused :
  let x := race [false; false]
                (webhook open_env (post (event "Completed" "doc-1")))
                (fetch_gated open_env (fetch "letter-1"))
                (world (Some "sent") None) in
  fst (fst x) = json_response 200 [("ok", JBool true); ("status", JStr "completed")] /\
  snd (fst x) = json_response 400 [("error", JStr "Document has not been signed yet")] /\
  path_of (snd x) "letter-1" = Some "client-1/letter-1_signed.pdf".
Proof. repeat split; vm_compute; reflexivity. Qed.


(** C8 as stated fails: a POST whose body is not JSON, or is [null], or
    carries a document id that has no string form, is answered 500. *)
Lemma malformed_body_gets_500 :
  code (result_of (run (webhook open_env (mkRequest "POST" None None "not json")) healthy
                       (world None None))) = 500 /\
  code (result_of (run (webhook open_env (post JNull)) healthy (world None None))) = 500 /\
  code (result_of (run (webhook open_env (post (flat_event unprintable_id))) healthy
                       (world None None))) = 500.
Proof. repeat split; vm_compute; reflexivity. Qed.

(** ** The further properties on the sample deployment *)

Import Cases.

(** A Viewed event for a letter that was sent. *)
Lemma other_events_witness :
  let x := run (webhook open_env (post (event "Viewed" "doc-1"))) healthy
               (world (Some "sent") None) in
  trace_of x = [traced (SelectLettersByDocument "doc-1");
                traced (UpdateLetter "letter-1" [(col_esign_status, "viewed")])] /\
  clients (world_of x) = [client1] /\
  signed_letters (world_of x) = [].
Proof.
  destruct (other_events_write_only_the_status hmac JSON_parse open_env
              (post (event "Viewed" "doc-1")) "Viewed" "viewed" "doc-1"
              (letter1 (Some "sent") None) healthy (world (Some "sent") None))
    as (Ht & _ & _ & _ & Hc & Hb & _).
  - vm_compute. reflexivity.
  - discriminate.
  - reflexivity.
  - vm_compute. reflexivity.
  - split; [exact Ht|]. split; [exact Hc | exact Hb].
Defined.

(** A Completed event for a letter without client. *)
Lemma completion_without_client_witness :
  let x := run (webhook open_env (post (event "Completed" "doc-1"))) healthy orphan_world in
  filter touches_client (trace_of x) = [] /\
  clients (world_of x) = [client1] /\
  forall path bytes, In (traced (StorageUpload path bytes)) (trace_of x) ->
                     path = "null/letter-1_signed.pdf".
Proof.
  destruct (completion_without_client hmac JSON_parse open_env
              (post (event "Completed" "doc-1")) "completed" "doc-1" orphan healthy
              orphan_world)
    as (_ & Ht & Hc & _ & Hp).
  - vm_compute. reflexivity.
  - reflexivity.
  - vm_compute. reflexivity.
  - reflexivity.
  - split; [exact Ht|]. split; [exact Hc|]. apply Hp. reflexivity.
Defined.

(** A Completed event with everything healthy: the PDF is in the bucket. *)
Lemma completed_event_stores_witness :
  let w' := world_of (run (webhook open_env (post (event "Completed" "doc-1"))) healthy
                          (world (Some "signed") None)) in
  objects_at w' stored_key = [pdf] /\
  forall l, In l (engagement_letters w') -> id l = "letter-1" ->
            signed_pdf_path l = Some stored_key.
Proof.
  destruct (completed_event_stores_the_download hmac JSON_parse open_env
              (post (event "Completed" "doc-1")) "completed" "doc-1" "api-key"
              (letter1 (Some "signed") None) healthy (world (Some "signed") None))
    as (_ & Ho & _ & Hp).
  - vm_compute. reflexivity.
  - reflexivity.
  - vm_compute. reflexivity.
  - reflexivity.
  - reflexivity.
  - reflexivity.
  - reflexivity.
  - split; [exact Ho|]. apply Hp. reflexivity.
Defined.

(** A Completed event without API key. *)
Lemma failed_retrieval_witness :
  let x := run (webhook keyless_env (post (event "Completed" "doc-1"))) healthy
               (world (Some "signed") None) in
  result_of x = json_response 200 [("ok", JBool true); ("status", JStr "completed")] /\
  signed_letters (world_of x) = [] /\
  map signed_pdf_path (engagement_letters (world_of x)) = [None; None].
Proof.
  destruct (failed_retrieval_stores_nothing hmac JSON_parse keyless_env
              (post (event "Completed" "doc-1")) "completed" "doc-1"
              (letter1 (Some "signed") None) healthy (world (Some "signed") None))
    as (Hr & Hb & Hp & _).
  - vm_compute. reflexivity.
  - reflexivity.
  - vm_compute. reflexivity.
  - left. reflexivity.
  - split; [exact Hr|]. split; [exact Hb | exact Hp].
Defined.

(** A Completed event for a document no letter is linked to. *)
Lemma unknown_document_witness :
  let x := run (webhook open_env (post (event "Completed" "doc-1"))) healthy unlinked_world in
  let y := run (webhook open_env (post (flat_event long_id))) healthy (world None None) in
  let z := run (webhook open_env (post (flat_event unprintable_id))) healthy
               (world None None) in
  (result_of x = json_response 200
                   [("ok", JBool true); ("message", JStr "Document not found in system")] /\
   world_of x = unlinked_world) /\
  (exists detail,
      trace_of y =
      [traced (SelectLettersByDocument "12345678901234567000");
       traced (Console warn "No engagement letter found for BoldSign document:" detail)]) /\
  z = (json_response 500 [("error", JStr "Cannot convert object to primitive value")],
       world None None,
       [traced (Console error "Webhook error:" "Cannot convert object to primitive value")]).
Proof.
  split; [|split].
  - destruct (proj1 (unknown_document_is_acknowledged hmac JSON_parse open_env)
                (post (event "Completed" "doc-1")) "Completed" "completed" "doc-1" healthy
                unlinked_world)
      as (Hr & Hw & _).
    + vm_compute. reflexivity.
    + right. intros l [<-|[]]. discriminate.
    + split; [exact Hr | exact Hw].
  - destruct (proj1 (unknown_document_is_acknowledged hmac JSON_parse open_env)
                (post (flat_event long_id)) "Sent" "sent" "12345678901234567000" healthy
                (world None None))
      as (_ & _ & Ht).
    + vm_compute. reflexivity.
    + right. intros l [<-|[<-|[]]]; discriminate.
    + exact Ht.
  - apply (proj2 (unknown_document_is_acknowledged hmac JSON_parse open_env)
             (post (flat_event unprintable_id)) (flat_event unprintable_id)).
    + reflexivity.
    + reflexivity.
    + vm_compute. reflexivity.
    + vm_compute. reflexivity.
Defined.

(** A Completed event for the first letter, with a second letter and the
    client of both in the tables. *)
Lemma webhook_touches_only_its_letter_witness :
  let w := world (Some "signed") None in
  let w' := world_of (run (webhook open_env (post (event "Completed" "doc-1"))) healthy w) in
  w' = w \/
  exists ev st d letter,
    classified hmac JSON_parse open_env (post (event "Completed" "doc-1")) = Some (ev, st, d) /\
    known_letter w d = Some letter /\
    Forall2 (fun l l' => id l <> id letter -> l' = l)
            (engagement_letters w) (engagement_letters w') /\
    Forall2 (fun c c' => (ev = "Completed" -> client_id letter <> Some (cid c)) -> c' = c)
            (clients w) (clients w') /\
    (forall key, (ev = "Completed" -> key <> storagePath letter) ->
                 objects_at w' key = objects_at w key) /\
    boldsign w' = boldsign w /\ auth_users w' = auth_users w /\ rls_letter w' = rls_letter w.
Proof.
  exact (webhook_touches_only_its_letter hmac JSON_parse open_env
           (post (event "Completed" "doc-1")) healthy (world (Some "signed") None)).
Defined.

(** A genuine delivery under a secret, and the same body with
    verification off. *)
Lemma verification_only_gates_witness :
  run (webhook unguarded_env (post (event "Viewed" "doc-1"))) healthy (world (Some "sent") None) =
  run (webhook guarded_env (genuine (event "Viewed" "doc-1"))) healthy (world (Some "sent") None).
Proof.
  apply (proj2 (verification_only_gates hmac JSON_parse guarded_env unguarded_env
                  (genuine (event "Viewed" "doc-1")) (post (event "Viewed" "doc-1"))
                  healthy (world (Some "sent") None))).
  - vm_compute. reflexivity.
  - reflexivity.
  - reflexivity.
  - reflexivity.
  - reflexivity.
  - reflexivity.
  - reflexivity.
Defined.

(** [Signed] is handled, so it is mapped. *)
Lemma event_tables_witness :
  exists ev st, Some (JStr "Signed") = Some (JStr ev) /\
                BoldsignWebhook.mapEventToStatus ev = Some st.
Proof.
  apply (proj1 (proj1 (event_tables_agree hmac JSON_parse) (Some (JStr "Signed")))).
  reflexivity.
Defined.

(** The notice of a Completed event names the entity. *)
Lemma notice_witness :
  let t := trace_of (run (webhook open_env (post (event "Completed" "doc-1"))) healthy
                         (world (Some "signed") None)) in
  notices t = 1 /\
  exists matter,
    In (traced (SlackPost "https://hooks.slack.test/T1" "Acme LLC" matter "2026-02-16")) t.
Proof.
  destruct (notice_names_the_client hmac JSON_parse open_env
              (post (event "Completed" "doc-1")) "completed" "doc-1" "client-1"
              "https://hooks.slack.test/T1" (letter1 (Some "signed") None) healthy
              (world (Some "signed") None))
    as (Hn & _ & Hr).
  - vm_compute. reflexivity.
  - reflexivity.
  - vm_compute. reflexivity.
  - reflexivity.
  - reflexivity.
  - split; [exact Hn|].
    destruct (Hr client1) as (matter & Hentity & _); [reflexivity|].
    exists matter. apply Hentity. reflexivity.
Defined.

(** A request without credentials, at the status-gated revision. *)
Lemma strangers_witness :
  run (fetch_gated open_env anonymous) healthy (world (Some "completed") None) =
  (json_response 401 [("error", JStr "Missing authorization")],
   world (Some "completed") None, []).
Proof.
  refine (proj1 (strangers_are_turned_away JSON_parse open_env (fetch_gated open_env)
                   anonymous healthy (world (Some "completed") None) _ _) _).
  - left. reflexivity.
  - reflexivity.
  - reflexivity.
Defined.

(** A member's request without [letterId], at the service-role revision. *)
Lemma letter_id_witness :
  run (fetch_service open_env aimless) healthy (world (Some "completed") None) =
  (json_response 400 [("error", JStr "Missing letterId")],
   world (Some "completed") None, [traced (GetUser staff)]).
Proof.
  refine (proj1 (letter_id_is_required JSON_parse open_env (fetch_service open_env)
                   aimless staff (mkUser (Some "matt@margolispllc.com")) healthy
                   (world (Some "completed") None) _ _ _ _ _ _)
            (event "Sent" "doc-1") _ _ _).
  - right. left. reflexivity.
  - reflexivity.
  - reflexivity.
  - reflexivity.
  - reflexivity.
  - vm_compute. reflexivity.
  - vm_compute. reflexivity.
  - discriminate.
  - reflexivity.
Defined.

(** A fetch against a deployment without letters. *)
Lemma unknown_letter_witness :
  run (fetch_gated open_env (fetch "letter-1")) healthy empty_world =
  (json_response 404 [("error", JStr "Letter not found")], empty_world,
   [traced (GetUser staff); traced (SelectLetterById (Caller staff) "letter-1")]).
Proof.
  refine (proj1 (unknown_letter_is_not_found JSON_parse open_env (fetch "letter-1") staff
                   "letter-1" healthy empty_world _ _) _).
  - vm_compute. reflexivity.
  - reflexivity.
  - right. reflexivity.
Defined.

(** A fetch for a letter that is only sent. *)
Lemma unsigned_letter_witness :
  run (fetch_gated open_env (fetch "letter-1")) healthy (world (Some "sent") None) =
  (json_response 400 [("error", JStr "Document has not been signed yet")],
   world (Some "sent") None,
   [traced (GetUser staff); traced (SelectLetterById (Caller staff) "letter-1")]) /\
  In (traced (BoldSignDownload "doc-1" "api-key"))
     (trace_of (run (fetch_service open_env (fetch "letter-1")) healthy
                    (world (Some "sent") None))).
Proof.
  destruct (unsigned_letter_is_refused_by_the_gate JSON_parse open_env (fetch "letter-1")
              staff "letter-1" "doc-1" (letter1 (Some "sent") None) healthy
              (world (Some "sent") None))
    as (Hg & Hs).
  - vm_compute. reflexivity.
  - reflexivity.
  - reflexivity.
  - reflexivity.
  - discriminate.
  - discriminate.
  - split.
    + apply Hg; [reflexivity | vm_compute; reflexivity].
    + apply Hs; [reflexivity | vm_compute; reflexivity | reflexivity].
Defined.

(** A fetch without API key. *)
Lemma retrieval_failures_witness :
  let x := run (fetch_service keyless_env (fetch "letter-1")) healthy
               (world (Some "completed") None) in
  result_of x = json_response 500 [("error", JStr "BoldSign API key not configured")] /\
  world_of x = world (Some "completed") None.
Proof.
  destruct (retrieval_failures_are_reported JSON_parse keyless_env
              (fetch_service keyless_env) ServiceRole (fetch "letter-1") staff "letter-1"
              "doc-1" (letter1 (Some "completed") None) healthy
              (world (Some "completed") None))
    as (Hk & _).
  - right. left. reflexivity.
  - vm_compute. reflexivity.
  - reflexivity.
  - reflexivity.
  - vm_compute. reflexivity.
  - reflexivity.
  - reflexivity.
  - discriminate.
  - destruct Hk as (Hr & Hw & _); [reflexivity|]. split; [exact Hr | exact Hw].
Defined.

(** A refused fetch leaves the world alone. *)
Lemma fetch_writes_only_on_success_witness :
  world_of (run (fetch_gated open_env (fetch "letter-2")) healthy (world None None)) =
  world None None.
Proof.
  apply (fetch_writes_only_on_success JSON_parse open_env (fetch_gated open_env)
           (fetch "letter-2") healthy (world None None)).
  - left. reflexivity.
  - intro path. vm_compute. discriminate.
Defined.

(** A first fetch of a completed letter. *)
Lemma fresh_fetch_witness :
  let x := run (fetch_gated open_env (fetch "letter-1")) healthy
               (world (Some "completed") None) in
  result_of x = json_response 200 [("ok", JBool true); ("path", JStr stored_key)] /\
  objects_at (world_of x) stored_key = [pdf].
Proof.
  destruct (fresh_fetch_stores_the_download JSON_parse open_env (fetch_gated open_env)
              (Caller staff) (fetch "letter-1") staff "letter-1" "doc-1" "api-key"
              (letter1 (Some "completed") None) healthy (world (Some "completed") None))
    as (Hr & _ & Ho & _).
  - left. reflexivity.
  - vm_compute. reflexivity.
  - reflexivity.
  - reflexivity.
  - vm_compute. reflexivity.
  - reflexivity.
  - reflexivity.
  - intros _. right. reflexivity.
  - reflexivity.
  - reflexivity.
  - reflexivity.
  - discriminate.
  - reflexivity.
  - split; [exact Hr | exact Ho].
Defined.

(** The service-role fetch of a letter still marked sent. *)
Lemma fetch_corrects_the_status_witness :
  exists letter',
    single_row (world_of (run (fetch_service open_env (fetch "letter-1")) healthy
                              (world (Some "sent") None)))
               ServiceRole "letter-1" = Some letter' /\
    esign_status letter' = Some "completed".
Proof.
  destruct (fetch_corrects_the_status_in_one_revision_only JSON_parse open_env
              (fetch "letter-1") staff "letter-1" "doc-1" "api-key"
              (letter1 (Some "sent") None) healthy (world (Some "sent") None))
    as (Hs & _).
  - vm_compute. reflexivity.
  - reflexivity.
  - reflexivity.
  - reflexivity.
  - reflexivity.
  - reflexivity.
  - reflexivity.
  - discriminate.
  - reflexivity.
  - intro upd. reflexivity.
  - destruct Hs as (letter' & Hrow & Hst & _); [reflexivity | vm_compute; reflexivity |].
    exists letter'. split; [exact Hrow | exact Hst].
Defined.

(** BoldSign answers with nothing. *)
Lemma empty_download_witness :
  result_of (run (fetch_service open_env (fetch "letter-1")) healthy
                 (hollow_world (Some "completed"))) =
    json_response 502 [("error", JStr "BoldSign returned empty response")] /\
  objects_at (world_of (run (fetch_gated open_env (fetch "letter-1")) healthy
                            (hollow_world (Some "completed"))))
             stored_key = [[]].
Proof.
  destruct (empty_download_is_refused_in_one_revision_only JSON_parse open_env
              (fetch "letter-1") staff "letter-1" "doc-1" "api-key"
              (letter1 (Some "completed") None) healthy (hollow_world (Some "completed")))
    as (Hs & Hg).
  - vm_compute. reflexivity.
  - reflexivity.
  - reflexivity.
  - reflexivity.
  - reflexivity.
  - reflexivity.
  - reflexivity.
  - reflexivity.
  - split.
    + apply Hs; [reflexivity | vm_compute; reflexivity].
    + apply Hg; [reflexivity | vm_compute; reflexivity | right; reflexivity | reflexivity].
Defined.

(** A Completed event, then a fetch. *)
Lemma push_then_pull_witness :
  let w1 := world_of (run (webhook open_env (post (event "Completed" "doc-1"))) healthy
                          (world (Some "signed") None)) in
  run (fetch_gated keyless_env (fetch "letter-1")) healthy w1 =
  (json_response 200
     [("ok", JBool true); ("path", JStr stored_key); ("alreadyStored", JBool true)],
   w1,
   [traced (GetUser staff); traced (SelectLetterById (Caller staff) "letter-1")]).
Proof.
  apply (fetch_after_completed_event_is_already_stored hmac JSON_parse open_env keyless_env
           (fetch_gated keyless_env) (Caller staff)
           (post (event "Completed" "doc-1")) (fetch "letter-1") "completed" "doc-1"
           "api-key" staff (letter1 (Some "signed") None) healthy healthy
           (world (Some "signed") None)).
  - left. reflexivity.
  - vm_compute. reflexivity.
  - reflexivity.
  - vm_compute. reflexivity.
  - reflexivity.
  - reflexivity.
  - reflexivity.
  - reflexivity.
  - reflexivity.
  - vm_compute. reflexivity.
  - reflexivity.
  - reflexivity.
  - vm_compute. reflexivity.
Defined.

(** Two letters of one client. *)
Lemma storage_keys_witness :
  storagePath (letter1 None None) = storagePath letter2 <->
  "client-1" = "client-1" /\ id (letter1 None None) = id letter2.
Proof.
  apply (storage_keys_do_not_collide (letter1 None None) letter2 "client-1" "client-1").
  - reflexivity.
  - reflexivity.
  - reflexivity.
  - reflexivity.
Defined.

(** A firm address. *)
Lemma accepted_address_witness :
  count_occ N.eq_dec (Validation.units "matt@margolispllc.com") Validation.AT = 1 /\
  Validation.hasCRLF (Validation.units "matt@margolispllc.com") = false.
Proof.
  destruct (accepted_address_has_one_at_and_no_space
              (Validation.units "matt@margolispllc.com"))
    as (Hc & _ & Hn & _).
  - vm_compute. reflexivity.
  - split; [exact Hc | exact Hn].
Defined.

(** A name that is safe already. *)
Lemma sanitizeFilename_witness :
  Validation.sanitizeFilename (Validation.units "Engagement_Letter.pdf") =
  Validation.units "Engagement_Letter.pdf".
Proof.
  apply (proj2 sanitizeFilename_is_idempotent).
  - vm_compute. repeat constructor.
  - vm_compute. lia.
Defined.

(** A letter is linked to [doc-1], then viewed. *)
Lemma linked_letter_witness :
  let w1 := link_letter (Some "letter-2") (Some "doc-1") false unlinked_world in
  result_of (run (webhook open_env (post (event "Viewed" "doc-1"))) healthy unlinked_world) =
    json_response 200 [("ok", JBool true); ("message", JStr "Document not found in system")] /\
  result_of (run (webhook open_env (post (event "Viewed" "doc-1"))) healthy w1) =
    json_response 200 [("ok", JBool true); ("status", JStr "viewed")].
Proof.
  destruct (linked_letter_is_found_by_the_webhook hmac JSON_parse open_env
              (post (event "Viewed" "doc-1")) "Viewed" "viewed" "doc-1" "letter-2" letter2
              healthy unlinked_world)
    as (Hbefore & _ & Hafter & _).
  - vm_compute. reflexivity.
  - discriminate.
  - discriminate.
  - reflexivity.
  - intros l' [<-|[]]. discriminate.
  - reflexivity.
  - reflexivity.
  - split; [exact Hbefore | exact Hafter].
Defined.

(** A mail with an attachment whose name needs sanitising. *)
Lemma accepted_email_witness :
  exists e,
    Validation.send_email_payload letter_mail = Validation.Passed e /\
    Validation.hasCRLF (Validation.email_subject e) = false /\
    forall f a, Validation.email_attachment e = Some (f, a) -> length f <= 255.
Proof.
  assert (H : {e | Validation.send_email_payload letter_mail = Validation.Passed e}).
  { eexists. vm_compute. reflexivity. }
  destruct H as [e He]. exists e. split; [exact He|].
  destruct (accepted_email_is_well_formed letter_mail e He)
    as (_ & _ & (_ & Hs & _) & _ & _ & Ha & _).
  split; [exact Hs|]. intros f a Hfa. apply (Ha f a Hfa).
Defined.

(** A mail with a field that is not expected. *)
Lemma unexpected_field_witness :
  exists k,
    Validation.send_email_payload
      (Validation.VObj
         [(Validation.units "to", Validation.VStr (Validation.units "client@example.com"));
          (Validation.units "bcc", Validation.VStr (Validation.units "other@example.com"))]) =
    Validation.Refused 400 (Validation.units "Invalid payload field: " ++ k).
Proof.
  destruct (proj1 unexpected_field_is_refused
              [(Validation.units "to", Validation.VStr (Validation.units "client@example.com"));
               (Validation.units "bcc", Validation.VStr (Validation.units "other@example.com"))]
              (Validation.units "bcc") (Validation.VStr (Validation.units "other@example.com")))
    as (k & Hk & _).
  - right. left. reflexivity.
  - intros a Ha. vm_compute in Ha.
    repeat (destruct Ha as [<-|Ha]; [vm_compute; discriminate|]). contradiction.
  - exists k. exact Hk.
Defined.

(** A request to send a letter for signature. *)
Lemma accepted_signature_request_witness :
  exists r,
    Validation.check_signature_request signature_body = Validation.Passed r /\
    Validation.test_anchored Validation.emailRegex (Validation.signerEmail r) = true /\
    Validation.hasCRLF (Validation.title r) = false.
Proof.
  assert (H : {r | Validation.check_signature_request signature_body = Validation.Passed r}).
  { eexists. vm_compute. reflexivity. }
  destruct H as [r Hr]. exists r. split; [exact Hr|].
  destruct (accepted_signature_request_is_well_formed signature_body r Hr)
    as (_ & (He & _) & _ & (_ & Ht) & _).
  split; [exact He | exact Ht].
Defined.
